(** * BuffettBrain: valuation and scoring core

    A shallow embedding of the scoring engine of BuffettBrain
    ([stock_analyzer.py], [modules/fundamental_indicators.py],
    [modules/valuation_models.py]) and the properties proved about it.

    Conventions of the embedding.
    - A finite Python or numpy float is an exact rational [Q]; the
      rounding of binary floating point is not modelled.  The special
      values a computation of the program can produce ([nan], [inf],
      [-inf]) are explicit constructors of [npfloat].
    - A Python [dict] with string keys is a [gmap string _]; the snapshot
      [stock_data] is a dictionary of dynamically typed values ([pyobj]).
    - A raised exception is [None] in the [option] monad; a [try] block is
      a [match] on the result of the guarded computation.
    - [stock_data.update] mutates the caller's dictionary, so
      [analyze_stock] returns the updated dictionary next to its result. *)

From Stdlib Require Import QArith Qround Qabs Lqa ZArith List String Lia.
From stdpp Require Import gmap strings.

Local Open Scope Q_scope.

(** ** Numbers *)

Module PyNum.

Definition Qltb (x y : Q) : bool := negb (Qle_bool y x).
Definition Qgtb (x y : Q) : bool := Qltb y x.
Definition Qgeb (x y : Q) : bool := Qle_bool y x.
Definition Qmin (x y : Q) : Q := if Qle_bool x y then x else y.
Definition Qmax (x y : Q) : Q := if Qle_bool x y then y else x.

(** Exponentiation by a loop counter, [x ** n]. *)
Fixpoint pow (x : Q) (n : nat) : Q :=
  match n with
  | O => 1
  | S k => x * pow x k
  end.

(** Nearest integer, ties to the even one. *)
Definition round_half_even (x : Q) : Z :=
  let n := Qfloor x in
  let r := x - inject_Z n in
  if Qltb r 0.5 then n
  else if Qltb 0.5 r then (n + 1)%Z
  else if Z.even n then n else (n + 1)%Z.

(** [round(x, 2)]. *)
Definition round2 (x : Q) : Q := inject_Z (round_half_even (x * 100)) * 0.01.

(** [f"{x:.1f}"] seen as a number. *)
Definition round1 (x : Q) : Q := inject_Z (round_half_even (x * 10)) * 0.1.

(** numpy scalars: finite values and the IEEE special values.  Signed
    zeros are not distinguished. *)
Inductive npfloat :=
| Fin (q : Q)
| PInf
| NInf
| NaN.

Definition is_finite (x : npfloat) : bool :=
  match x with Fin _ => true | _ => false end.

Definition isna (x : npfloat) : bool :=
  match x with NaN => true | _ => false end.

(** -1, 0 or 1; [NaN] has no sign. *)
Definition np_sign (x : npfloat) : option Z :=
  match x with
  | Fin q => Some (if Qltb q 0 then (-1)%Z else if Qltb 0 q then 1%Z else 0%Z)
  | PInf => Some 1%Z
  | NInf => Some (-1)%Z
  | NaN => None
  end.

Definition np_of_sign (s : Z) : npfloat :=
  if (s <? 0)%Z then NInf else if (0 <? s)%Z then PInf else NaN.

Definition np_neg (x : npfloat) : npfloat :=
  match x with
  | Fin q => Fin (- q)
  | PInf => NInf
  | NInf => PInf
  | NaN => NaN
  end.

Definition np_add (x y : npfloat) : npfloat :=
  match x, y with
  | NaN, _ | _, NaN => NaN
  | Fin a, Fin b => Fin (a + b)
  | PInf, NInf | NInf, PInf => NaN
  | PInf, _ | _, PInf => PInf
  | NInf, _ | _, NInf => NInf
  end.

Definition np_sub (x y : npfloat) : npfloat := np_add x (np_neg y).

Definition np_mul (x y : npfloat) : npfloat :=
  match x, y with
  | Fin a, Fin b => Fin (a * b)
  | _, _ =>
      match np_sign x, np_sign y with
      | Some sx, Some sy => np_of_sign (sx * sy)
      | _, _ => NaN
      end
  end.

(** numpy division: a zero divisor gives [inf], [-inf] or [nan], never an
    exception. *)
Definition np_div (x y : npfloat) : npfloat :=
  match x, y with
  | NaN, _ | _, NaN => NaN
  | Fin a, Fin b =>
      if Qeq_bool b 0
      then (if Qltb 0 a then PInf else if Qltb a 0 then NInf else NaN)
      else Fin (a / b)
  | Fin _, _ => Fin 0
  | _, Fin b =>
      match np_sign x with
      | Some sx => np_of_sign (if Qltb b 0 then - sx else sx)
      | None => NaN
      end
  | _, _ => NaN
  end.

Definition np_ltb (x y : npfloat) : bool :=
  match x, y with
  | NaN, _ | _, NaN => false
  | Fin a, Fin b => Qltb a b
  | NInf, NInf | PInf, _ | _, NInf => false
  | NInf, _ | _, PInf => true
  end.

Definition np_leb (x y : npfloat) : bool :=
  match x, y with
  | NaN, _ | _, NaN => false
  | Fin a, Fin b => Qle_bool a b
  | NInf, _ | _, PInf => true
  | PInf, _ | _, NInf => false
  end.

Definition np_gtb (x y : npfloat) : bool := np_ltb y x.
Definition np_geb (x y : npfloat) : bool := np_leb y x.

Definition np_eqb (x y : npfloat) : bool :=
  match x, y with
  | Fin a, Fin b => Qeq_bool a b
  | PInf, PInf | NInf, NInf => true
  | _, _ => false
  end.

(** Truth value of a number: only zero is false ([nan] is true). *)
Definition np_truthy (x : npfloat) : bool :=
  match x with Fin q => negb (Qeq_bool q 0) | _ => true end.

(** [x or y] on numbers. *)
Definition np_or (x y : npfloat) : npfloat := if np_truthy x then x else y.

(** [round(x, 2)]: the special values are returned as they are. *)
Definition np_round2 (x : npfloat) : npfloat :=
  match x with Fin q => Fin (round2 q) | _ => x end.

Definition np_min (x y : npfloat) : npfloat :=
  match x, y with
  | NaN, _ | _, NaN => NaN
  | _, _ => if np_leb x y then x else y
  end.

Definition np_max (x y : npfloat) : npfloat :=
  match x, y with
  | NaN, _ | _, NaN => NaN
  | _, _ => if np_leb x y then y else x
  end.

End PyNum.
Export PyNum.

(** ** pandas tables and Python values *)

Module Pandas.

(** A statement table: row labels (line items), column labels (period end
    dates, as day numbers) and the cells.  Labels are taken to be unique,
    as they are in the tables of the data provider, so that
    [df.loc[row, col]] is a scalar. *)
Record DataFrame := {
  index : list string;
  columns : list Z;
  cell : string -> Z -> npfloat
}.

(** [pd.DataFrame()]. *)
Definition empty_frame : DataFrame :=
  {| index := []; columns := []; cell := fun _ _ => NaN |}.

Definition is_nil {A} (l : list A) : bool :=
  match l with [] => true | _ => false end.

(** [df.empty]: some axis has length zero. *)
Definition empty (df : DataFrame) : bool :=
  is_nil (index df) || is_nil (columns df).

(** [row in df.index]. *)
Definition in_index (row : string) (df : DataFrame) : bool :=
  bool_decide (row ∈ index df).

(** [df.loc[row, col]]; [None] is [KeyError]. *)
Definition loc (df : DataFrame) (row : string) (col : Z) : option npfloat :=
  if in_index row df && bool_decide (col ∈ columns df)
  then Some (cell df row col)
  else None.

Fixpoint insert_desc (x : Z) (l : list Z) : list Z :=
  match l with
  | [] => [x]
  | y :: l' => if (y <=? x)%Z then x :: l else y :: insert_desc x l'
  end.

(** [sorted(cols, reverse=True)]. *)
Definition sorted_desc (l : list Z) : list Z := foldr insert_desc [] l.

(** One row of the price history. *)
Record bar := {
  Open : Q;
  High : Q;
  Low : Q;
  Close : Q;
  Volume : Q
}.

(** The values a snapshot holds.  [VInf] is [float('inf')]; [VHist] is a
    price-history frame, one [bar] per trading day, oldest first. *)
Inductive pyobj :=
| VNone
| VBool (b : bool)
| VNum (q : Q)
| VInf
| VStr (s : string)
| VList (l : list Q)
| VFrame (df : DataFrame)
| VHist (h : list bar).

(** [isinstance(v, (int, float))]; [bool] is a subclass of [int]. *)
Definition is_number (v : pyobj) : bool :=
  match v with VBool _ | VNum _ | VInf => true | _ => false end.

(** [isinstance(v, bool)]. *)
Definition is_bool (v : pyobj) : bool :=
  match v with VBool _ => true | _ => false end.

(** The finite number a value stands for in arithmetic; [None] is the
    [TypeError] of an operand that is no number.  Arithmetic on
    [float('inf')] operands is outside the model and reported the same
    way; the program only compares and prints such values. *)
Definition as_num (v : pyobj) : option Q :=
  match v with
  | VBool b => Some (if b then 1 else 0)
  | VNum q => Some q
  | _ => None
  end.

(** The same for an operand of a comparison or of numpy arithmetic. *)
Definition as_np (v : pyobj) : option npfloat :=
  match v with
  | VBool b => Some (Fin (if b then 1 else 0))
  | VNum q => Some (Fin q)
  | VInf => Some PInf
  | _ => None
  end.

(** Truth value; that of a frame is ambiguous and raises. *)
Definition truthy (v : pyobj) : option bool :=
  match v with
  | VNone => Some false
  | VBool b => Some b
  | VNum q => Some (negb (Qeq_bool q 0))
  | VInf => Some true
  | VStr s => Some (negb (String.eqb s EmptyString))
  | VList l => Some (negb (is_nil l))
  | VFrame _ | VHist _ => None
  end.

(** [v or d]. *)
Definition py_or (v d : pyobj) : option pyobj :=
  b ← truthy v; Some (if b : bool then v else d).

(** Comparisons [a < b], [a <= b], [a > b], [a >= b], [a != b] of numbers. *)
Definition v_lt (a b : pyobj) : option bool :=
  x ← as_np a; y ← as_np b; Some (np_ltb x y).
Definition v_le (a b : pyobj) : option bool :=
  x ← as_np a; y ← as_np b; Some (np_leb x y).
Definition v_gt (a b : pyobj) : option bool := v_lt b a.
Definition v_ge (a b : pyobj) : option bool := v_le b a.

(** [a * b], [a / b], [a + b] on finite numbers; a zero divisor raises. *)
Definition v_mul (a b : pyobj) : option pyobj :=
  x ← as_num a; y ← as_num b; Some (VNum (x * y)).
Definition v_add (a b : pyobj) : option pyobj :=
  x ← as_num a; y ← as_num b; Some (VNum (x + y)).
Definition v_div (a b : pyobj) : option pyobj :=
  x ← as_num a; y ← as_num b;
  if Qeq_bool y 0 then None else Some (VNum (x / y)).

(** [d.get(k, default)]. *)
Definition get {V : Type} (d : gmap string V) (k : string) (default : V) : V :=
  match d !! k return V with Some v => v | None => default end.

End Pandas.
Export Pandas.

(** ** modules/fundamental_indicators.py *)

Module FundamentalIndicators.

(** The statement table behind an argument.  An argument that is no
    statement table lacks the attributes the methods use ([.empty],
    [.columns], [.index]): the access raises, inside the [try] block. *)
Definition frame_of (v : pyobj) : option DataFrame :=
  match v with VFrame df => Some df | _ => None end.

(** The helper [get_val] of the methods: 0 for an absent row and for
    [nan]; an absent column is [KeyError]. *)
Definition get_val (df : DataFrame) (row : string) (col : Z) : option npfloat :=
  if in_index row df
  then val ← loc df row col; Some (if isna val then Fin 0 else val)
  else Some (Fin 0).

(** The idiom [a / b if b else 0]. *)
Definition div_or_zero (a b : npfloat) : npfloat :=
  if np_truthy b then np_div a b else Fin 0.

(** *** Piotroski F-Score *)

(** The dictionary the method returns; [score] and [details] are the two
    local variables of that name. *)
Record fscore := {
  score : nat;
  details : gmap string bool
}.

(** A computation inside the [try] block of [get_piotroski_f_score]: it
    updates [score] and [details], and yields a value or raises.  What was
    counted before an exception stays counted. *)
Definition Try (A : Type) : Type := fscore -> fscore * option A.

Definition ret {A} (x : A) : Try A := fun st => (st, Some x).

Definition bind {A B} (m : Try A) (k : A -> Try B) : Try B :=
  fun st =>
    match m st with
    | (st', Some x) => k x st'
    | (st', None) => (st', None)
    end.

Definition lift {A} (o : option A) : Try A := fun st => (st, o).

Notation "x <~ m ;; k" := (bind m (fun x => k))
  (at level 100, m at next level, right associativity).
Notation "m ;;; k" := (bind m (fun _ => k))
  (at level 100, right associativity).

(** [if b: score += 1; details[label] = True  else: details[label] = False]. *)
Definition check (label : string) (b : bool) : Try unit :=
  fun st =>
    ({| score := if b then S (score st) else score st;
        details := <[label := b]> (details st) |}, Some tt).

Definition piotroski_try (financials balance_sheet cash_flow : pyobj) : Try unit :=
  fin <~ lift (frame_of financials) ;;
  if empty fin then ret tt else
  bs <~ lift (frame_of balance_sheet) ;;
  if empty bs then ret tt else
  cf <~ lift (frame_of cash_flow) ;;
  if empty cf then ret tt else
  match sorted_desc (columns fin) with
  | t :: t_1 :: _ =>
      (* profitability *)
      net_income <~ lift (get_val fin "Net Income" t) ;;
      ta <~ lift (get_val bs "Total Assets" t) ;;
      let total_assets := np_or ta (Fin 1) in
      tap <~ lift (get_val bs "Total Assets" t_1) ;;
      let total_assets_prev := np_or tap total_assets in
      let avg_assets := np_div (np_add total_assets total_assets_prev) (Fin 2) in
      let roa := div_or_zero net_income avg_assets in
      check "Positive ROA" (np_gtb roa (Fin 0)) ;;;
      ocf <~ lift (get_val cf "Total Cash From Operating Activities" t) ;;
      check "Positive OCF" (np_gtb ocf (Fin 0)) ;;;
      net_income_prev <~ lift (get_val fin "Net Income" t_1) ;;
      let roa_prev := div_or_zero net_income_prev total_assets_prev in
      check "ROA Increasing" (np_gtb roa roa_prev) ;;;
      check "Quality of Earnings (OCF > NI)" (np_gtb ocf net_income) ;;;
      (* leverage, liquidity, source of funds *)
      lt_debt <~ lift (get_val bs "Long Term Debt" t) ;;
      lt_debt_prev <~ lift (get_val bs "Long Term Debt" t_1) ;;
      let leverage := div_or_zero lt_debt avg_assets in
      let leverage_prev := div_or_zero lt_debt_prev total_assets_prev in
      check "Lower Leverage" (np_leb leverage leverage_prev) ;;;
      curr_assets <~ lift (get_val bs "Current Assets" t) ;;
      curr_liab <~ lift (get_val bs "Current Liabilities" t) ;;
      let curr_ratio := div_or_zero curr_assets curr_liab in
      curr_assets_prev <~ lift (get_val bs "Current Assets" t_1) ;;
      curr_liab_prev <~ lift (get_val bs "Current Liabilities" t_1) ;;
      let curr_ratio_prev := div_or_zero curr_assets_prev curr_liab_prev in
      check "Higher Liquidity (Current Ratio)" (np_gtb curr_ratio curr_ratio_prev) ;;;
      osn <~ lift (get_val bs "Ordinary Shares Number" t) ;;
      shares <~ (if np_truthy osn then ret osn
                 else lift (get_val bs "Common Stock" t)) ;;
      osn_prev <~ lift (get_val bs "Ordinary Shares Number" t_1) ;;
      shares_prev <~ (if np_truthy osn_prev then ret osn_prev
                      else lift (get_val bs "Common Stock" t_1)) ;;
      check "No Dilution" (np_leb shares shares_prev) ;;;
      (* operating efficiency *)
      revenue <~ lift (get_val fin "Total Revenue" t) ;;
      gross_profit <~ lift (get_val fin "Gross Profit" t) ;;
      let gm := div_or_zero gross_profit revenue in
      revenue_prev <~ lift (get_val fin "Total Revenue" t_1) ;;
      gross_profit_prev <~ lift (get_val fin "Gross Profit" t_1) ;;
      let gm_prev := div_or_zero gross_profit_prev revenue_prev in
      check "Higher Gross Margin" (np_gtb gm gm_prev) ;;;
      let asset_turnover := div_or_zero revenue avg_assets in
      let asset_turnover_prev := div_or_zero revenue_prev total_assets_prev in
      check "Higher Asset Turnover" (np_gtb asset_turnover asset_turnover_prev)
  | _ => ret tt
  end.

(** The method: whatever happens inside the [try] block, the current
    [score] and [details] are returned. *)
Definition get_piotroski_f_score (financials balance_sheet cash_flow : pyobj) : fscore :=
  fst (piotroski_try financials balance_sheet cash_flow
         {| score := 0; details := ∅ |}).

(** *** ROIC *)

Definition roic_try (financials balance_sheet : pyobj) : option npfloat :=
  fin ← frame_of financials;
  match sorted_desc (columns fin) with
  | [] => Some (Fin 0)
  | t :: _ =>
      net_income ← get_val fin "Net Income" t;
      bs ← frame_of balance_sheet;
      e ← get_val bs "Total Stockholder Equity" t;
      equity ← (if np_truthy e then Some e else get_val bs "Stockholders Equity" t);
      d ← get_val bs "Long Term Debt" t;
      debt ← (if np_truthy d then Some d else get_val bs "Total Debt" t);
      let invested_capital := np_add equity debt in
      if np_eqb invested_capital (Fin 0) then Some (Fin 0)
      else Some (np_mul (np_div net_income invested_capital) (Fin 100))
  end.

Definition get_roic (financials balance_sheet : pyobj) : npfloat :=
  match roic_try financials balance_sheet with
  | Some r => r
  | None => Fin 0
  end.

(** *** Altman Z-Score *)

Record altman := {
  z_score : npfloat;
  zone : string
}.

Definition altman_unknown : altman := {| z_score := Fin 0; zone := "Unknown" |}.

(** The [if]/[elif]/[else] chain on the unrounded Z-score. *)
Definition zone_of (z : npfloat) : string :=
  if np_gtb z (Fin 2.99) then "Safe (Green)"
  else if np_gtb z (Fin 1.81) then "Grey Zone (Caution)"
  else "Distress (Red)".

(** [df.loc[row, t] if row in df.index else 0]. *)
Definition loc_or_zero (df : DataFrame) (row : string) (t : Z) : option npfloat :=
  if in_index row df then loc df row t else Some (Fin 0).

(** The linear combination of the five ratios. *)
Definition altman_formula (A B C D E : npfloat) : npfloat :=
  np_add (np_add (np_add (np_add (np_mul (Fin 1.2) A) (np_mul (Fin 1.4) B))
                    (np_mul (Fin 3.3) C)) (np_mul (Fin 0.6) D)) (np_mul (Fin 1.0) E).

(** Where the [try] block of [get_altman_z_score] ends: at one of the
    early returns, or at the zone classification with the Z-score it has
    computed. *)
Inductive altman_path :=
| EarlyUnknown
| Classified (z_score : npfloat).

(** The [try] block up to the Z-score formula; [None] is an exception. *)
Definition altman_z (financials balance_sheet market_cap : pyobj)
    : option altman_path :=
  fin ← frame_of financials;
  if empty fin then Some EarlyUnknown else
  bs ← frame_of balance_sheet;
  if empty bs then Some EarlyUnknown else
  t ← head (columns fin);
  total_assets ← loc_or_zero bs "Total Assets" t;
  if negb (np_truthy total_assets) then Some EarlyUnknown else
  curr_assets ← loc_or_zero bs "Current Assets" t;
  curr_liab ← loc_or_zero bs "Current Liabilities" t;
  let working_capital := np_sub curr_assets curr_liab in
  retained_earnings ← loc_or_zero bs "Retained Earnings" t;
  ebit ← (if in_index "EBIT" fin then loc fin "EBIT" t
          else if in_index "Interest Expense" fin
               then p ← loc fin "Pretax Income" t;
                    i ← loc fin "Interest Expense" t;
                    Some (np_add p i)
               else loc fin "Pretax Income" t);
  total_liab ← (if in_index "Total Liabilities Net Minority Interest" bs
                then loc bs "Total Liabilities Net Minority Interest" t
                else loc_or_zero bs "Total Liabilities" t);
  sales ← loc_or_zero fin "Total Revenue" t;
  let A := np_div working_capital total_assets in
  let B := np_div retained_earnings total_assets in
  let C := np_div ebit total_assets in
  D ← (if np_truthy total_liab
       then mc ← as_np market_cap; Some (np_div mc total_liab)
       else Some (Fin 0));
  let E := np_div sales total_assets in
  Some (Classified (altman_formula A B C D E)).

(** The [try] block: the zone is read off the unrounded score, the score
    is returned rounded. *)
Definition altman_try (financials balance_sheet market_cap : pyobj) : option altman :=
  path ← altman_z financials balance_sheet market_cap;
  match path with
  | EarlyUnknown => Some altman_unknown
  | Classified z => Some {| z_score := np_round2 z; zone := zone_of z |}
  end.

Definition get_altman_z_score (financials balance_sheet market_cap : pyobj) : altman :=
  match altman_try financials balance_sheet market_cap with
  | Some r => r
  | None => altman_unknown
  end.

End FundamentalIndicators.

(** ** modules/valuation_models.py *)

Module ValuationModels.

(** One turn of the projection loop; the state is
    [(total_pv, current_fcf)]. *)
Definition dcf_step (growth_rate discount_rate : Q) (st : Q * Q) (i : nat) : Q * Q :=
  let current_fcf := snd st * (1 + growth_rate) in
  let pv := current_fcf / pow (1 + discount_rate) i in
  (fst st + pv, current_fcf).

(** The divisors of [_calculate_dcf_value] are [(1 + discount_rate) ** i]
    for [i] in [1..years] and [discount_rate - terminal_growth_rate]; if
    one of them is zero the function raises [ZeroDivisionError]. *)
Definition divisors_ok (discount_rate terminal_growth_rate : Q) (years : nat) : bool :=
  negb (Qeq_bool (discount_rate - terminal_growth_rate) 0)
  && (Nat.eqb years 0 || negb (Qeq_bool (1 + discount_rate) 0)).

Definition _calculate_dcf_value
    (fcf growth_rate discount_rate terminal_growth_rate : Q) (years : nat) : option Q :=
  if divisors_ok discount_rate terminal_growth_rate years then
    let st := fold_left (dcf_step growth_rate discount_rate) (seq 1 years) (0, fcf) in
    let total_pv := fst st in
    let current_fcf := snd st in
    let terminal_fcf := current_fcf * (1 + terminal_growth_rate) in
    let terminal_val := terminal_fcf / (discount_rate - terminal_growth_rate) in
    let terminal_pv := terminal_val / pow (1 + discount_rate) years in
    Some (total_pv + terminal_pv)
  else None.

Definition tolerance : Q := 0.01.

(** The [for _ in range(n)] loop of the binary search, with the [return]
    after it.  [mid] is the midpoint of the previous turn. *)
Fixpoint bisect (n : nat) (dcf : Q -> option Q) (current_price low high mid : Q)
    : option Q :=
  match n with
  | O => Some (mid * 100)
  | S n' =>
      let mid := (low + high) / 2 in
      implied_value ← dcf mid;
      if Qltb (Qabs (implied_value - current_price)) tolerance
      then Some (mid * 100)
      else if Qltb implied_value current_price
           then bisect n' dcf current_price mid high mid
           else bisect n' dcf current_price low mid mid
  end.

(** What the function does: it returns [None] on a non-positive input,
    returns a growth rate in percent, or raises. *)
Inductive outcome :=
| ReturnsNone
| Returns (growth : Q)
| Raises.

Definition calculate_reverse_dcf
    (current_price free_cash_flow shares_outstanding : Q)
    (discount_rate terminal_growth_rate : Q) (projection_years : nat) : outcome :=
  if Qle_bool current_price 0 || Qle_bool free_cash_flow 0
     || Qle_bool shares_outstanding 0
  then ReturnsNone
  else
    let fcf_per_share := free_cash_flow / shares_outstanding in
    let low := -0.50 in
    let high := 1.00 in
    match bisect 100
            (fun mid => _calculate_dcf_value fcf_per_share mid discount_rate
                          terminal_growth_rate projection_years)
            current_price low high 0 with
    | Some g => Returns g
    | None => Raises
    end.

(** The default arguments. *)
Definition default_discount_rate : Q := 0.10.
Definition default_terminal_growth_rate : Q := 0.025.
Definition default_projection_years : nat := 10.

End ValuationModels.

(** ** stock_analyzer.py *)

Module StockAnalyzer.

Import FundamentalIndicators.

(** The snapshot: a Python dictionary. *)
Abbreviation stock_data := (gmap string pyobj).

(** A dictionary literal. *)
Definition dict (l : list (string * pyobj)) : gmap string pyobj := list_to_map l.

(** [a and b] on conditions that may raise: [b] is evaluated only when
    [a] is true. *)
Definition and_then (a b : option bool) : option bool :=
  x ← a; if x : bool then b else Some false.

(** [a or b] on conditions. *)
Definition or_else (a b : option bool) : option bool :=
  x ← a; if x : bool then Some true else b.

Definition _initialize_buffett_criteria : list (gmap string pyobj) :=
  [ dict [("name", VStr "Return on Equity (ROE)"); ("key", VStr "roe");
          ("criteria", VStr "> 15% = Good, < 10% = Avoid");
          ("good_threshold", VNum 15); ("bad_threshold", VNum 10)];
    dict [("name", VStr "Debt-to-Equity Ratio"); ("key", VStr "debt_to_equity");
          ("criteria", VStr "< 0.5 = Excellent, 0.5-1 = Okay, > 1 = Avoid");
          ("excellent_threshold", VNum 0.5); ("avoid_threshold", VNum 1.0)];
    dict [("name", VStr "Current Ratio"); ("key", VStr "current_ratio");
          ("criteria", VStr "> 1.5 = Healthy, < 1 = Risky");
          ("good_threshold", VNum 1.5); ("bad_threshold", VNum 1.0)];
    dict [("name", VStr "Book Value Per Share"); ("key", VStr "book_value_check");
          ("criteria", VStr "Stock Price < Book Value");
          ("comparison", VStr "price_vs_book")];
    dict [("name", VStr "Price-to-Earnings (P/E) Ratio"); ("key", VStr "pe_ratio");
          ("criteria", VStr "10-15 = Fair, 15-25 = Okay, > 25 = Expensive");
          ("fair_min", VNum 10); ("fair_max", VNum 15); ("okay_max", VNum 25)];
    dict [("name", VStr "Price-to-Book (P/B) Ratio"); ("key", VStr "pb_ratio");
          ("criteria", VStr "< 1.5 = Undervalued");
          ("good_threshold", VNum 1.5)];
    dict [("name", VStr "Intrinsic Value vs Market Price");
          ("key", VStr "intrinsic_value_check");
          ("criteria",
           VStr "MoS ≥ 20% (IV=Intrinsic Value via DCF, MoS=Margin of Safety)");
          ("discount_threshold", VNum 20)];
    dict [("name", VStr "Operating Profit Margin (OPM)");
          ("key", VStr "operating_margin");
          ("criteria", VStr "> 15% and stable");
          ("good_threshold", VNum 15)];
    dict [("name", VStr "Revenue vs Profit Growth"); ("key", VStr "growth_alignment");
          ("criteria", VStr "Both positive (5-year CAGR or YoY)");
          ("alignment_threshold", VNum 0.8)];
    dict [("name", VStr "Return on Capital Employed (ROCE)"); ("key", VStr "roce");
          ("criteria", VStr "> 15%");
          ("good_threshold", VNum 15)];
    dict [("name", VStr "PEG Ratio"); ("key", VStr "peg_ratio");
          ("criteria", VStr "< 1.0");
          ("good_threshold", VNum 1.0)];
    dict [("name", VStr "Earnings Growth"); ("key", VStr "earnings_growth");
          ("criteria", VStr "> 8-10% CAGR");
          ("good_threshold", VNum 8)];
    dict [("name", VStr "Consistent Earnings"); ("key", VStr "earnings_consistency");
          ("criteria", VStr "Net Income stable over 5-10 years");
          ("volatility_threshold", VNum 0.3)];
    dict [("name", VStr "Free Cash Flow"); ("key", VStr "free_cash_flow");
          ("criteria", VStr "Positive & growing over 5 years");
          ("growth_threshold", VNum 0)];
    dict [("name", VStr "Dividend History"); ("key", VStr "dividend_history");
          ("criteria", VStr "Dividend paid last 5 years (bonus)");
          ("years_threshold", VNum 3)] ].

(** [self.buffett_criteria], set once by the constructor. *)
Definition buffett_criteria : list (gmap string pyobj) := _initialize_buffett_criteria.

(** *** Intrinsic value *)

Definition _estimate_intrinsic_value_simple (s : stock_data) : option pyobj :=
  current_price ← py_or (get s "current_price" (VNum 0)) (VNum 0);
  eps ← py_or (get s "eps" (VNum 0)) (VNum 0);
  b ← v_gt eps (VNum 0);
  if b : bool then v_mul eps (VNum 12) else v_mul current_price (VNum 0.8).

(** The free cash flow the projection starts from: the reported one, or
    an estimate when none is reported. *)
Definition estimate_fcf (s : stock_data)
    (current_price free_cash_flow shares_outstanding : pyobj) : option pyobj :=
  b ← v_le free_cash_flow (VNum 0);
  if b : bool then
    net_income ← py_or (get s "net_income" (VNum 0)) (VNum 0);
    b ← v_gt net_income (VNum 0);
    if b : bool then v_mul net_income (VNum 0.8)
    else
      eps ← py_or (get s "eps" (VNum 0)) (VNum 0);
      b ← and_then (v_gt eps (VNum 0)) (v_gt shares_outstanding (VNum 0));
      if b : bool then x ← v_mul eps shares_outstanding; v_mul x (VNum 0.8)
      else
        b ← v_gt current_price (VNum 0);
        if b : bool then
          b ← v_gt shares_outstanding (VNum 0);
          if b : bool
          then x ← v_mul current_price shares_outstanding; v_mul x (VNum 0.05)
          else v_mul current_price (VNum 0.05)
        else Some free_cash_flow
  else Some free_cash_flow.

(** One turn of the projection loop; the state is
    [(total_present_value, projected_fcf)]. *)
Definition project_year (fcf_growth_rate terminal_growth_rate discount_rate : Q)
    (projection_years : nat) (st : Q * Q) (year : nat) : Q * Q :=
  let year_growth :=
    fcf_growth_rate
    - (fcf_growth_rate - terminal_growth_rate)
      * (inject_Z (Z.of_nat year) / inject_Z (Z.of_nat projection_years)) in
  let projected_fcf := snd st * (1 + year_growth) in
  let discount_factor := pow (1 + discount_rate) year in
  let present_value := projected_fcf / discount_factor in
  (fst st + present_value, projected_fcf).

(** Present value of the projected cash flows plus that of the terminal
    value, before the division by the share count. *)
Definition total_intrinsic_value (free_cash_flow earnings_growth : Q) : Q :=
  let projection_years := 10%nat in
  let discount_rate := 0.10 in
  let fcf_growth_rate := Qmin (earnings_growth / 100) 0.15 in
  let terminal_growth_rate := 0.025 in
  let st := fold_left
              (project_year fcf_growth_rate terminal_growth_rate discount_rate
                            projection_years)
              (seq 1 projection_years) (0, free_cash_flow) in
  let total_present_value := fst st in
  let projected_fcf := snd st in
  let terminal_fcf := projected_fcf * (1 + terminal_growth_rate) in
  let terminal_value := terminal_fcf / (discount_rate - terminal_growth_rate) in
  let terminal_pv := terminal_value / pow (1 + discount_rate) projection_years in
  total_present_value + terminal_pv.

(** The sanity checks on the per-share value, and the final rounding. *)
Definition sanity_checks (current_price intrinsic_value_per_share : Q) : Q :=
  if Qle_bool intrinsic_value_per_share 0 then current_price * 0.8
  else
    let price_ratio :=
      if Qltb 0 current_price then intrinsic_value_per_share / current_price
      else 1 in
    let intrinsic_value_per_share :=
      if Qltb 5 price_ratio then current_price * 5
      else if Qltb price_ratio 0.2 then current_price * 0.2
      else intrinsic_value_per_share in
    round2 intrinsic_value_per_share.

(** Where the [try] block of [_calculate_buffett_dcf_intrinsic_value]
    goes once it has read its inputs: to the simple estimate, or on to the
    projection with the price, the free cash flow, the share count and
    the growth estimate it has read. *)
Inductive dcf_route :=
| SimpleEstimate
| Projection (current_price free_cash_flow shares_outstanding earnings_growth : Q).

(** The reads and the guard of the [try] block; [None] is an exception. *)
Definition dcf_inputs (s : stock_data) : option dcf_route :=
  current_price ← py_or (get s "current_price" (VNum 0)) (VNum 0);
  free_cash_flow ← py_or (get s "free_cash_flow" (VNum 0)) (VNum 0);
  shares_outstanding ← py_or (get s "shares_outstanding" (VNum 0)) (VNum 0);
  free_cash_flow ← estimate_fcf s current_price free_cash_flow shares_outstanding;
  b ← or_else (v_le free_cash_flow (VNum 0)) (v_le shares_outstanding (VNum 0));
  if b : bool then Some SimpleEstimate
  else
    earnings_growth ← py_or (get s "earnings_growth" (VNum 10)) (VNum 10);
    g ← as_num earnings_growth;
    fcf ← as_num free_cash_flow;
    shares ← as_num shares_outstanding;
    price ← as_num current_price;
    Some (Projection price fcf shares g).

(** The body of the [try] block. *)
Definition dcf_try (s : stock_data) : option pyobj :=
  route ← dcf_inputs s;
  match route with
  | SimpleEstimate => _estimate_intrinsic_value_simple s
  | Projection current_price free_cash_flow shares_outstanding earnings_growth =>
      let intrinsic_value_per_share :=
        total_intrinsic_value free_cash_flow earnings_growth / shares_outstanding in
      Some (VNum (sanity_checks current_price intrinsic_value_per_share))
  end.

Definition _calculate_buffett_dcf_intrinsic_value (s : stock_data) : option pyobj :=
  match dcf_try s with
  | Some v => Some v
  | None => _estimate_intrinsic_value_simple s
  end.

(** *** Derived metrics *)

(** [min(a, b) / max(a, b)] on two positive numbers. *)
Definition min_over_max (a b : pyobj) : option pyobj :=
  x ← as_num a; y ← as_num b;
  if Qeq_bool (Qmax x y) 0 then None else Some (VNum (Qmin x y / Qmax x y)).

(** [x / y * 100 if d > 0 else 0]. *)
Definition percent_if_positive (x y d : pyobj) : option pyobj :=
  b ← v_gt d (VNum 0);
  if b : bool then r ← v_div x y; v_mul r (VNum 100) else Some (VNum 0).

Definition _calculate_derived_metrics (s : stock_data) : option (gmap string pyobj) :=
  let metrics : gmap string pyobj := ∅ in
  total_debt ← py_or (get s "total_debt" (VNum 0)) (VNum 0);
  total_equity ← py_or (get s "total_stockholder_equity" (VNum 1)) (VNum 1);
  b ← v_gt total_equity (VNum 0);
  debt_to_equity ← (if b : bool then v_div total_debt total_equity else Some VInf);
  let metrics := <["debt_to_equity" := debt_to_equity]> metrics in
  current_assets ← py_or (get s "total_current_assets" (VNum 0)) (VNum 0);
  current_liabilities ← py_or (get s "total_current_liabilities" (VNum 1)) (VNum 1);
  b ← v_gt current_liabilities (VNum 0);
  current_ratio ← (if b : bool then v_div current_assets current_liabilities
                   else Some (VNum 0));
  let metrics := <["current_ratio" := current_ratio]> metrics in
  net_income ← py_or (get s "net_income" (VNum 0)) (VNum 0);
  roe ← percent_if_positive net_income total_equity total_equity;
  let metrics := <["roe" := roe]> metrics in
  operating_income ← py_or (get s "operating_income" (VNum 0)) (VNum 0);
  total_revenue ← py_or (get s "total_revenue" (VNum 1)) (VNum 1);
  operating_margin ← percent_if_positive operating_income total_revenue total_revenue;
  let metrics := <["operating_margin" := operating_margin]> metrics in
  total_capital ← v_add total_equity total_debt;
  roce ← percent_if_positive operating_income total_capital total_capital;
  let metrics := <["roce" := roce]> metrics in
  pe_ratio ← py_or (get s "pe_ratio" (VNum 0)) (VNum 0);
  earnings_growth ← py_or (get s "earnings_growth" (VNum 1)) (VNum 1);
  b ← v_gt earnings_growth (VNum 0);
  peg_ratio ← (if b : bool then v_div pe_ratio earnings_growth else Some VInf);
  let metrics := <["peg_ratio" := peg_ratio]> metrics in
  book_value ← py_or (get s "book_value" (VNum 0)) (VNum 0);
  current_price ← py_or (get s "current_price" (VNum 0)) (VNum 0);
  book_value_check ← v_lt current_price book_value;
  let metrics := <["book_value_check" := VBool book_value_check]> metrics in
  intrinsic_value ← _calculate_buffett_dcf_intrinsic_value s;
  let metrics := <["intrinsic_value" := intrinsic_value]> metrics in
  revenue_growth ← py_or (get s "revenue_growth" (VNum 0)) (VNum 0);
  profit_growth ← py_or (get s "earnings_growth" (VNum 0)) (VNum 0);
  b ← and_then (v_gt revenue_growth (VNum 0)) (v_gt profit_growth (VNum 0));
  growth_alignment ← (if b : bool then min_over_max revenue_growth profit_growth
                      else Some (VNum 0));
  let metrics := <["growth_alignment" := growth_alignment]> metrics in
  let metrics := <["earnings_consistency" := VNone]> metrics in
  free_cash_flow ← py_or (get s "free_cash_flow" (VNum 0)) (VNum 0);
  fcf_positive ← v_gt free_cash_flow (VNum 0);
  let metrics := <["free_cash_flow" := VBool fcf_positive]> metrics in
  dividend_yield ← py_or (get s "dividend_yield" (VNum 0)) (VNum 0);
  dividend_paid ← v_gt dividend_yield (VNum 0);
  let metrics := <["dividend_history" := VBool dividend_paid]> metrics in
  let metrics := <["promoter_holding" := get s "promoter_holding" (VNum 0)]> metrics in
  let metrics := <["promoter_pledging" := VNum 0]> metrics in
  Some metrics.

(** *** Criteria *)

(** The text of [f"{years}Y CAGR"] and its siblings, unformatted. *)
Inductive period :=
| PeriodCAGR (years : pyobj)
| PeriodYoY
| PeriodEst.

(** What a criterion displays.  Format strings are kept symbolic: the
    constructor names the f-string, its arguments are the numbers printed. *)
Inductive display :=
| DRaw (v : pyobj)
| DText (s : string)
| DFixed2 (v : pyobj) (suffix : string)
| DBook (sym : string) (book_value current_price : pyobj)
| DIntrinsic (sym : string) (intrinsic_value : pyobj) (margin_of_safety : Q)
             (note : string)
| DGrowth (rev_sign : string) (revenue_growth : pyobj)
          (profit_sign : string) (profit_growth : pyobj) (p : period)
| DTrend (trend : list (Q * string)) (note : string).

Record CriterionResult := {
  name : pyobj;
  value_shown : display;
  status : string;
  passed : bool;
  criteria : pyobj
}.

(** [currency_symbols.get(currency, currency + ' ')]: the default is
    evaluated first, so a currency that is no string raises. *)
Definition currency_symbol_of (currency : pyobj) : option string :=
  match currency with
  | VStr c =>
      Some (if String.eqb c "INR" then "₹"
            else if String.eqb c "USD" then "$"
            else if String.eqb c "EUR" then "€"
            else if String.eqb c "GBP" then "£"
            else if String.eqb c "JPY" then "¥"
            else if String.eqb c "CNY" then "¥"
            else c ++ " ")%string
  | _ => None
  end.

(** [currency_symbols.get(currency, currency)]: the key has to be
    hashable. *)
Definition hashable (v : pyobj) : option unit :=
  match v with
  | VList _ | VFrame _ | VHist _ => None
  | _ => Some tt
  end.

(** The auto-scaled text of one net income of the trend. *)
Definition scale_income (currency : pyobj) (val : Q) : Q * string :=
  let abs_val := Qabs val in
  if Qle_bool 1000000000 abs_val then (val / 1000000000, "B")
  else if Qle_bool 10000000 abs_val then
    match currency with
    | VStr "INR" => (val / 10000000, "Cr")
    | _ => (val / 1000000, "M")
    end
  else if Qle_bool 1000000 abs_val then (val / 1000000, "M")
  else (val / 1000, "K").

(** [l[-5:]]. *)
Definition last_five {A} (l : list A) : list A := drop (length l - 5) l.

(** What a branch of [_evaluate_criterion] leaves in [value], [status] and
    [passed]. *)
Definition verdict3 : Type := display * string * bool.

(** The branches that compare [stock_data[key]] with thresholds of the
    criterion. *)
Definition eval_roe (value : pyobj) (criterion : gmap string pyobj) : option verdict3 :=
  if is_number value then
    good ← criterion !! "good_threshold";
    b ← v_gt value good;
    if b : bool then Some (DFixed2 value "%", "good", true)
    else
      bad ← criterion !! "bad_threshold";
      b ← v_gt value bad;
      Some (DFixed2 value "%", if b : bool then "caution" else "poor", false)
  else Some (DRaw value, "poor", false).

Definition eval_debt_to_equity (value : pyobj) (criterion : gmap string pyobj)
    : option verdict3 :=
  if is_number value then
    excellent ← criterion !! "excellent_threshold";
    b ← v_lt value excellent;
    if b : bool then Some (DFixed2 value EmptyString, "good", true)
    else
      avoid ← criterion !! "avoid_threshold";
      b ← v_le value avoid;
      Some (DFixed2 value EmptyString, if b : bool then "caution" else "poor", false)
  else Some (DRaw value, "poor", false).

Definition eval_current_ratio (value : pyobj) (criterion : gmap string pyobj)
    : option verdict3 :=
  if is_number value then
    good ← criterion !! "good_threshold";
    b ← v_gt value good;
    if b : bool then Some (DFixed2 value EmptyString, "good", true)
    else
      bad ← criterion !! "bad_threshold";
      b ← v_ge value bad;
      Some (DFixed2 value EmptyString, if b : bool then "caution" else "poor", false)
  else Some (DRaw value, "poor", false).

Definition eval_book_value_check (s : stock_data) : option verdict3 :=
  book_value ← py_or (get s "book_value" (VNum 0)) (VNum 0);
  current_price ← py_or (get s "current_price" (VNum 0)) (VNum 0);
  let currency := get s "currency" (VStr "INR") in
  curr_symbol ← currency_symbol_of currency;
  b ← v_gt book_value (VNum 0);
  if b : bool then
    p ← v_lt current_price book_value;
    Some (DBook curr_symbol book_value current_price,
          if p : bool then "good" else "poor", p)
  else Some (DText "N/A", "poor", false).

Definition eval_pe_ratio (s : stock_data) (criterion : gmap string pyobj)
    : option verdict3 :=
  let pe_value := get s "pe_ratio" (VNum 0) in
  b ← (if is_number pe_value then v_gt pe_value (VNum 0) else Some false);
  if b : bool then
    b ← and_then (fair_min ← criterion !! "fair_min"; v_le fair_min pe_value)
                 (fair_max ← criterion !! "fair_max"; v_le pe_value fair_max);
    if b : bool then Some (DFixed2 pe_value EmptyString, "good", true)
    else
      okay_max ← criterion !! "okay_max";
      b ← v_le pe_value okay_max;
      Some (DFixed2 pe_value EmptyString, if b : bool then "caution" else "poor", false)
  else Some (DText "N/A", "poor", false).

Definition eval_pb_ratio (s : stock_data) (criterion : gmap string pyobj)
    : option verdict3 :=
  let pb_value := get s "pb_ratio" (VNum 0) in
  b ← (if is_number pb_value then v_gt pb_value (VNum 0) else Some false);
  if b : bool then
    good ← criterion !! "good_threshold";
    b ← v_lt pb_value good;
    if b : bool then Some (DFixed2 pb_value EmptyString, "good", true)
    else
      b ← v_lt pb_value (VNum 2.0);
      Some (DFixed2 pb_value EmptyString, if b : bool then "caution" else "poor", false)
  else Some (DText "N/A", "poor", false).

(** [(1 - (current_price / intrinsic_value)) * 100]. *)
Definition margin_formula (current_price intrinsic_value : Q) : Q :=
  (1 - current_price / intrinsic_value) * 100.

Definition eval_intrinsic_value_check (s : stock_data) (criterion : gmap string pyobj)
    : option verdict3 :=
  let current_price := get s "current_price" (VNum 0) in
  let intrinsic_value := get s "intrinsic_value" (VNum 0) in
  let currency := get s "currency" (VStr "INR") in
  curr_symbol ← currency_symbol_of currency;
  b ← and_then (v_gt current_price (VNum 0)) (v_gt intrinsic_value (VNum 0));
  if b : bool then
    p ← as_num current_price;
    iv ← as_num intrinsic_value;
    let margin_of_safety := margin_formula p iv in
    threshold ← criterion !! "discount_threshold";
    pass ← v_ge (VNum margin_of_safety) threshold;
    let status :=
      if pass : bool then "good"
      else if Qltb 0 margin_of_safety then "caution" else "poor" in
    let note :=
      if Qle_bool 0 margin_of_safety then "Undervalued" else "Overvalued" in
    Some (DIntrinsic curr_symbol intrinsic_value margin_of_safety note, status, pass)
  else Some (DText "N/A", "poor", false).

(** The branch shared by [operating_margin] and [roce]. *)
Definition eval_margin (value : pyobj) (criterion : gmap string pyobj)
    : option verdict3 :=
  if is_number value then
    good ← criterion !! "good_threshold";
    b ← v_gt value good;
    if b : bool then Some (DFixed2 value "%", "good", true)
    else
      good ← criterion !! "good_threshold";
      ok ← v_mul good (VNum 0.7);
      b ← v_gt value ok;
      Some (DFixed2 value "%", if b : bool then "caution" else "poor", false)
  else Some (DRaw value, "poor", false).

(** [years == 1]; equality never raises. *)
Definition is_one (v : pyobj) : bool :=
  match as_num v with Some q => Qeq_bool q 1 | None => false end.

(** [x != 0] on a number. *)
Definition nonzero (v : pyobj) : option bool :=
  x ← as_np v; Some (negb (np_eqb x (Fin 0))).

Definition eval_growth_alignment (s : stock_data) : option verdict3 :=
  revenue_growth ← py_or (get s "revenue_growth" (VNum 0)) (VNum 0);
  profit_growth ← py_or (get s "earnings_growth" (VNum 0)) (VNum 0);
  years ← py_or (get s "revenue_growth_years" (VNum 0))
                (get s "earnings_growth_years" (VNum 0));
  both ← and_then (v_gt revenue_growth (VNum 0)) (v_gt profit_growth (VNum 0));
  status ← (if both : bool then
              alignment_ratio ← min_over_max revenue_growth profit_growth;
              b ← v_lt alignment_ratio (VNum 0.5);
              Some (if b : bool then "caution" else "good")
            else Some "poor");
  r ← v_ge revenue_growth (VNum 0);
  let rev_sign := if r : bool then "+" else EmptyString in
  p ← v_ge profit_growth (VNum 0);
  let profit_sign := if p : bool then "+" else EmptyString in
  many ← v_gt years (VNum 1);
  let period_text :=
    if many : bool then PeriodCAGR years
    else if is_one years then PeriodYoY else PeriodEst in
  known ← or_else (v_gt years (VNum 0))
                  (or_else (nonzero revenue_growth) (nonzero profit_growth));
  if known : bool
  then Some (DGrowth rev_sign revenue_growth profit_sign profit_growth period_text,
             status, both)
  else Some (DText "N/A (Data not available)", "caution", both).

Definition eval_earnings_consistency (s : stock_data) : option verdict3 :=
  let income_history := get s "net_income_history" (VList []) in
  let currency := get s "currency" (VStr "INR") in
  _ ← hashable currency;
  match income_history with
  | VList l =>
      if negb (is_nil l) && (2 <=? length l)%nat then
        let trend_values := rev l in
        let all_positive := forallb (Qltb 0) trend_values in
        let formatted_trend := map (scale_income currency) trend_values in
        Some (DTrend (last_five formatted_trend)
                     (if all_positive then "Consistent" else "Volatile"),
              if all_positive then "good" else "poor", all_positive)
      else Some (DText "N/A (Insufficient Data)", "poor", false)
  | VStr t =>
      (* a text of two characters or more: its characters are compared
         with 0, which raises *)
      if (2 <=? String.length t)%nat then None
      else Some (DText "N/A (Insufficient Data)", "poor", false)
  | other =>
      (* [len] of a number is a [TypeError] *)
      t ← truthy other;
      if t : bool then None else Some (DText "N/A (Insufficient Data)", "poor", false)
  end.

Definition eval_peg_ratio (value : pyobj) (criterion : gmap string pyobj)
    : option verdict3 :=
  if is_number value && negb (match value with VInf => true | _ => false end) then
    good ← criterion !! "good_threshold";
    b ← v_lt value good;
    if b : bool then Some (DFixed2 value EmptyString, "good", true)
    else
      b ← v_lt value (VNum 1.5);
      Some (DFixed2 value EmptyString, if b : bool then "caution" else "poor", false)
  else Some (DText "N/A", "poor", false).

Definition eval_earnings_growth (s : stock_data) (criterion : gmap string pyobj)
    : option verdict3 :=
  let earnings_growth := get s "earnings_growth" (VNum 0) in
  if is_number earnings_growth then
    good ← criterion !! "good_threshold";
    b ← v_gt earnings_growth good;
    if b : bool then Some (DFixed2 earnings_growth "%", "good", true)
    else
      b ← v_gt earnings_growth (VNum 0);
      Some (DFixed2 earnings_growth "%", if b : bool then "caution" else "poor", false)
  else Some (DText "N/A", "poor", false).

Definition eval_flag (value : pyobj) (yes no otherwise : string) : option verdict3 :=
  match value with
  | VBool b => Some (DText (if b then yes else no), if b then "good" else otherwise, b)
  | _ => Some (DRaw value, "poor", false)
  end.

(** The dispatch on [key].  The second [elif key == 'earnings_consistency']
    of the source can never be taken and is left out. *)
Definition _evaluate_criterion (s : stock_data) (criterion : gmap string pyobj)
    : option CriterionResult :=
  key ← criterion !! "key";
  name ← criterion !! "name";
  criteria_text ← criterion !! "criteria";
  _ ← hashable key;
  let value :=
    match key with
    | VStr k => get s k (VStr "N/A")
    | _ => VStr "N/A"
    end in
  let key_is k' := match key with VStr k => String.eqb k k' | _ => false end in
  v ← (if key_is "roe" then eval_roe value criterion
       else if key_is "debt_to_equity" then eval_debt_to_equity value criterion
       else if key_is "current_ratio" then eval_current_ratio value criterion
       else if key_is "book_value_check" then eval_book_value_check s
       else if key_is "pe_ratio" then eval_pe_ratio s criterion
       else if key_is "pb_ratio" then eval_pb_ratio s criterion
       else if key_is "intrinsic_value_check" then eval_intrinsic_value_check s criterion
       else if key_is "operating_margin" || key_is "roce" then eval_margin value criterion
       else if key_is "growth_alignment" then eval_growth_alignment s
       else if key_is "earnings_consistency" then eval_earnings_consistency s
       else if key_is "peg_ratio" then eval_peg_ratio value criterion
       else if key_is "earnings_growth" then eval_earnings_growth s criterion
       else if key_is "free_cash_flow" then eval_flag value "Positive" "Negative" "poor"
       else if key_is "dividend_history" then eval_flag value "Yes" "No" "caution"
       else Some (DRaw value, "poor", false));
  Some {| name := name;
          value_shown := v.1.1;
          status := v.1.2;
          passed := v.2;
          criteria := criteria_text |}.

(** *** Recommendation *)

Record Recommendation := {
  rec_status : string;
  current_price : pyobj;
  intrinsic_value : pyobj;
  margin_of_safety : Q;
  buy_price_min : Q;
  buy_price_max : Q;
  target_price : Q;
  currency_symbol : pyobj
}.

Definition _generate_recommendation (s : stock_data) (total_score : nat)
    : option Recommendation :=
  let current_price := get s "current_price" (VNum 0) in
  let intrinsic_value := get s "intrinsic_value" current_price in
  b ← and_then (v_gt current_price (VNum 0)) (v_gt intrinsic_value (VNum 0));
  margin_of_safety ← (if b : bool then
                        p ← as_num current_price;
                        iv ← as_num intrinsic_value;
                        Some (margin_formula p iv)
                      else Some 0);
  '(status, buy_price_min, buy_price_max) ←
    (if (12 <=? total_score)%nat && Qle_bool 20 margin_of_safety then
       p ← as_num current_price;
       let buy_price_max := p * 1.05 in
       let buy_price_min := p * 0.95 in
       Some ("Buy", buy_price_min, buy_price_max)
     else if (10 <=? total_score)%nat && Qle_bool 10 margin_of_safety then
       p ← as_num current_price;
       let buy_price_max := p in
       let buy_price_min := p * 0.9 in
       Some ("Buy", buy_price_min, buy_price_max)
     else if (8 <=? total_score)%nat || Qle_bool 0 margin_of_safety then
       iv ← as_num intrinsic_value;
       let target_price := iv * 0.8 in
       let buy_price_max := target_price in
       let buy_price_min := target_price * 0.9 in
       Some ("Hold", buy_price_min, buy_price_max)
     else
       iv ← as_num intrinsic_value;
       let target_price := iv * 0.7 in
       let buy_price_max := target_price in
       let buy_price_min := target_price * 0.9 in
       Some ("Avoid", buy_price_min, buy_price_max));
  Some {| rec_status := status;
          current_price := current_price;
          intrinsic_value := intrinsic_value;
          margin_of_safety := margin_of_safety;
          buy_price_min := buy_price_min;
          buy_price_max := buy_price_max;
          target_price := buy_price_max;
          currency_symbol := get s "currency_symbol" (VStr "₹") |}.

(** *** The analysis *)

Record AdvancedMetrics := {
  piotroski : fscore;
  roic : npfloat;
  altman_z : altman
}.

Record AnalysisResult := {
  total_score : nat;
  metrics : list CriterionResult;
  recommendation : Recommendation;
  analysis_timestamp : Z;
  advanced_metrics : AdvancedMetrics
}.

(** One turn of the loop over the criteria; the state is
    [(metrics_results, total_score)]. *)
Definition score_criterion (s : stock_data)
    (acc : option (list CriterionResult * nat)) (criterion : gmap string pyobj)
    : option (list CriterionResult * nat) :=
  st ← acc;
  result ← _evaluate_criterion s criterion;
  Some (st.1 ++ [result], if passed result then S st.2 else st.2).

(** [analyze_stock]: [now] is the reading of the clock.  The first
    component is the caller's dictionary after the call (the method
    updates it in place), the second the returned dictionary, or [None]
    when the method raises. *)
Definition analyze_stock (s : stock_data) (now : Z)
    : stock_data * option AnalysisResult :=
  match _calculate_derived_metrics s with
  | None => (s, None)
  | Some derived_metrics =>
      (* stock_data.update(derived_metrics) *)
      let s := derived_metrics ∪ s in
      (s,
       st ← fold_left (score_criterion s) buffett_criteria (Some ([], 0%nat));
       let metrics_results := st.1 in
       let total_score := st.2 in
       recommendation ← _generate_recommendation s total_score;
       let raw_fin := get s "raw_financials" (VFrame empty_frame) in
       let raw_bs := get s "raw_balance_sheet" (VFrame empty_frame) in
       let raw_cf := get s "raw_cash_flow" (VFrame empty_frame) in
       let piotroski := get_piotroski_f_score raw_fin raw_bs raw_cf in
       let roic_val := get_roic raw_fin raw_bs in
       market_cap ← py_or (get s "market_cap" (VNum 0)) (VNum 0);
       let altman_z := get_altman_z_score raw_fin raw_bs market_cap in
       Some {| total_score := total_score;
               metrics := metrics_results;
               recommendation := recommendation;
               analysis_timestamp := now;
               advanced_metrics :=
                 {| piotroski := piotroski;
                    roic := roic_val;
                    altman_z := altman_z |} |})
  end.

(** *** Technical indicators *)

(** A column of the price history, oldest value first. *)
Abbreviation series := (list npfloat).

(** The [n] values that end at position [i], when there are that many. *)
Definition window {A} (n : nat) (l : list A) (i : nat) : option (list A) :=
  if (n <=? i + 1)%nat then Some (take n (drop (i + 1 - n) l)) else None.

(** [s.rolling(window=n).agg()]: [nan] until [n] values are there. *)
Definition rolling (n : nat) (agg : series -> npfloat) (l : series) : series :=
  map (fun i => match window n l i with Some w => agg w | None => NaN end)
      (seq 0 (length l)).

Definition np_sum (l : series) : npfloat := fold_left np_add l (Fin 0).

Definition np_count (l : series) : npfloat := Fin (inject_Z (Z.of_nat (length l))).

Definition np_mean (l : series) : npfloat := np_div (np_sum l) (np_count l).

Definition np_minimum (l : series) : npfloat :=
  match l with [] => NaN | x :: l' => fold_left np_min l' x end.

Definition np_maximum (l : series) : npfloat :=
  match l with [] => NaN | x :: l' => fold_left np_max l' x end.

(** [s.diff()]. *)
Definition diff (l : series) : series :=
  match l with
  | [] => []
  | _ :: l' => NaN :: zip_with np_sub l' l
  end.

(** [s.where(cond, 0)]. *)
Definition where_or_zero (cond : npfloat -> bool) (l : series) : series :=
  map (fun x => if cond x then x else Fin 0) l.

Fixpoint ewm_from (alpha : Q) (prev : npfloat) (l : series) : series :=
  match l with
  | [] => []
  | x :: l' =>
      let y := np_add (np_mul (Fin (1 - alpha)) prev) (np_mul (Fin alpha) x) in
      y :: ewm_from alpha y l'
  end.

(** [s.ewm(span=span, adjust=False).mean()] on a series without [nan]:
    seeded by the first value, then [y = (1 - a) * y_prev + a * x] with
    [a = 2 / (span + 1)]. *)
Definition ewm_mean (span : nat) (l : series) : series :=
  match l with
  | [] => []
  | x :: l' => x :: ewm_from (2 / (inject_Z (Z.of_nat span) + 1)) x l'
  end.

(** [hist_data.iloc[-1]] of a column. *)
Definition latest (l : series) : npfloat := List.last l NaN.

Record TechnicalSnapshot := {
  rsi : npfloat;
  sma_50 : npfloat;
  sma_200 : npfloat;
  macd : npfloat;
  macd_signal : npfloat;
  stoch_k : npfloat;
  stoch_d : npfloat;
  ema_9 : npfloat;
  ema_21 : npfloat;
  bb_upper : npfloat;
  bb_lower : npfloat;
  technical_score : nat;
  verdict : string;
  action : string;
  signals : list string;
  trend : string
}.

(** The dictionary literal multiplies [current_price], so a price that is
    no number raises. *)
Definition _get_fallback_indicators (current_price : pyobj) : option TechnicalSnapshot :=
  p ← as_np current_price;
  Some {| rsi := Fin 50.0;
          sma_50 := p;
          sma_200 := np_mul p (Fin 0.95);
          macd := Fin 0;
          macd_signal := Fin 0;
          stoch_k := Fin 50;
          stoch_d := Fin 50;
          ema_9 := p;
          ema_21 := p;
          bb_upper := np_mul p (Fin 1.05);
          bb_lower := np_mul p (Fin 0.95);
          technical_score := 50;
          verdict := "Data Not Available";
          action := "HOLD";
          signals := ["Insufficient Data"];
          trend := "Data Not Available" |}.

Definition closes (h : list bar) : series := map (fun b => Fin (Close b)) h.
Definition highs (h : list bar) : series := map (fun b => Fin (High b)) h.
Definition lows (h : list bar) : series := map (fun b => Fin (Low b)) h.

(** [_calculate_rsi]: the column [RSI]. *)
Definition _calculate_rsi (data : list bar) (period : nat) : series :=
  let delta := diff (closes data) in
  let gain := rolling period np_mean
                (where_or_zero (fun d => np_gtb d (Fin 0)) delta) in
  let loss := rolling period np_mean
                (map np_neg (where_or_zero (fun d => np_ltb d (Fin 0)) delta)) in
  let rs := zip_with np_div gain loss in
  map (fun r => np_sub (Fin 100) (np_div (Fin 100) (np_add (Fin 1) r))) rs.

(** [_calculate_stochastic]: the columns [Stoch_K] and [Stoch_D]. *)
Definition _calculate_stochastic (data : list bar) (period : nat) : series * series :=
  let low_min := rolling period np_minimum (lows data) in
  let high_max := rolling period np_maximum (highs data) in
  let Stoch_K :=
    zip_with (fun c lh => np_mul (Fin 100)
                            (np_div (np_sub c lh.1) (np_sub lh.2 lh.1)))
             (closes data) (zip low_min high_max) in
  let Stoch_D := rolling 3 np_mean Stoch_K in
  (Stoch_K, Stoch_D).

(** [_calculate_macd]: the columns [MACD_Line] and [Signal_Line]. *)
Definition _calculate_macd (data : list bar) : series * series :=
  let exp12 := ewm_mean 12 (closes data) in
  let exp26 := ewm_mean 26 (closes data) in
  let MACD_Line := zip_with np_sub exp12 exp26 in
  let Signal_Line := ewm_mean 9 MACD_Line in
  (MACD_Line, Signal_Line).

Section Technical.

(** [numpy.sqrt] on the non-negative finite numbers, used by the rolling
    standard deviation. *)
Variable np_sqrt : Q -> Q.

(** The data provider: [yf.Ticker(symbol).history(period="1y")], which
    returns a price history or raises. *)
Variable yf_history : pyobj -> option (list bar).

Definition np_sqrt_ext (x : npfloat) : npfloat :=
  match x with
  | Fin q => if Qltb q 0 then NaN else Fin (np_sqrt q)
  | PInf => PInf
  | _ => NaN
  end.

(** Sample standard deviation ([ddof=1]) of a window. *)
Definition np_std (l : series) : npfloat :=
  let m := np_mean l in
  let sq := map (fun x => np_mul (np_sub x m) (np_sub x m)) l in
  np_sqrt_ext (np_div (np_sum sq) (np_sub (np_count l) (Fin 1))).

(** [_calculate_bollinger_bands]: the columns [BB_Upper] and [BB_Lower]. *)
Definition _calculate_bollinger_bands (data : list bar) (window : nat) : series * series :=
  let sma := rolling window np_mean (closes data) in
  let std := rolling window np_std (closes data) in
  (zip_with (fun m d => np_add m (np_mul d (Fin 2))) sma std,
   zip_with (fun m d => np_sub m (np_mul d (Fin 2))) sma std).

(** The price history the indicators are computed from: the one of the
    snapshot when it is there and has rows, else a fresh download. *)
Definition history_of (s : stock_data) (symbol : pyobj) : option (list bar) :=
  match s !! "history" with
  | Some (VHist h) => if is_nil h then yf_history symbol else Some h
  | Some VNone | None => yf_history symbol
  | Some (VFrame df) => if empty df then yf_history symbol else None
  | Some _ => None
  end.

(** The body of the [try] block of [get_technical_indicators]. *)
Definition technical_try (s : stock_data) (symbol current_price : pyobj)
    : option TechnicalSnapshot :=
  hist_data ← history_of s symbol;
  if is_nil hist_data then _get_fallback_indicators current_price else
  let sma_50 := latest (rolling 50 np_mean (closes hist_data)) in
  let sma_200 := latest (rolling 200 np_mean (closes hist_data)) in
  let rsi := latest (_calculate_rsi hist_data 14) in
  let macd := _calculate_macd hist_data in
  let bb := _calculate_bollinger_bands hist_data 20 in
  let stoch := _calculate_stochastic hist_data 14 in
  let ema_9 := latest (ewm_mean 9 (closes hist_data)) in
  let ema_21 := latest (ewm_mean 21 (closes hist_data)) in
  let macd_line := latest macd.1 in
  let signal_line := latest macd.2 in
  let stoch_k := latest stoch.1 in
  let stoch_d := latest stoch.2 in
  price ← as_np current_price;
  let tech_score := 0%nat in
  let signals : list string := [] in
  (* 1. long term trend *)
  let '(tech_score, signals) :=
    if np_gtb price sma_200
    then (tech_score + 15, signals ++ ["Price > SMA200 (Long Term Bullish)"])%nat
    else (tech_score, signals) in
  let tech_score := if np_gtb price sma_50 then (tech_score + 5)%nat else tech_score in
  (* 2. fast trend *)
  let '(tech_score, signals) :=
    if np_gtb ema_9 ema_21
    then (tech_score + 20, signals ++ ["EMA 9 > EMA 21 (Short Term Bullish)"])%nat
    else (tech_score, signals ++ ["EMA 9 < EMA 21 (Short Term Bearish)"]) in
  (* 3. RSI *)
  let '(tech_score, signals) :=
    if np_leb (Fin 40) rsi && np_leb rsi (Fin 70) then (tech_score + 15, signals)%nat
    else if np_gtb rsi (Fin 70)
    then (tech_score + 5, signals ++ ["RSI Overbought (>70)"])%nat
    else if np_ltb rsi (Fin 30)
    then (tech_score + 10, signals ++ ["RSI Oversold (<30) - Potential Bounce"])%nat
    else (tech_score, signals) in
  (* 4. MACD *)
  let '(tech_score, signals) :=
    if np_gtb macd_line signal_line
    then (tech_score + 15, signals ++ ["MACD Bullish Crossover"])%nat
    else (tech_score, signals) in
  (* 5. stochastic *)
  let '(tech_score, signals) :=
    if np_ltb stoch_k (Fin 20) && np_gtb stoch_k stoch_d
    then (tech_score + 15, signals ++ ["Stochastic Oversold Cross (Buy)"])%nat
    else if np_gtb stoch_k (Fin 80) && np_ltb stoch_k stoch_d
    then (tech_score, signals)
    else if np_gtb stoch_k stoch_d then (tech_score + 10, signals)%nat
    else (tech_score, signals) in
  (* 6. Bollinger bands *)
  let bb_upper := latest bb.1 in
  let bb_lower := latest bb.2 in
  let '(tech_score, signals) :=
    if np_gtb price bb_lower && np_ltb price bb_upper
    then (tech_score + 15, signals)%nat
    else if np_geb price bb_upper
    then (tech_score + 10, signals ++ ["Price hitting Upper BB (Momentum)"])%nat
    else if np_leb price bb_lower
    then (tech_score + 5, signals ++ ["Price at Lower BB (Support)"])%nat
    else (tech_score, signals) in
  let '(verdict, action) :=
    if (80 <=? tech_score)%nat then ("Strong Bullish", "BUY")
    else if (60 <=? tech_score)%nat then ("Bullish", "ACCUMULATE")
    else if (40 <=? tech_score)%nat then ("Neutral", "HOLD")
    else ("Bearish", "AVOID") in
  Some {| rsi := np_round2 rsi;
          sma_50 := np_round2 sma_50;
          sma_200 := np_round2 sma_200;
          macd := np_round2 macd_line;
          macd_signal := np_round2 signal_line;
          stoch_k := np_round2 stoch_k;
          stoch_d := np_round2 stoch_d;
          ema_9 := np_round2 ema_9;
          ema_21 := np_round2 ema_21;
          bb_upper := np_round2 bb_upper;
          bb_lower := np_round2 bb_lower;
          technical_score := tech_score;
          verdict := verdict;
          action := action;
          signals := signals;
          trend := verdict |}.

(** [get_technical_indicators]; [None] is an exception that leaves the
    method. *)
Definition get_technical_indicators (s : stock_data) : option TechnicalSnapshot :=
  let symbol := get s "symbol" (VStr EmptyString) in
  let current_price := get s "current_price" (VNum 0) in
  t ← truthy symbol;
  if negb t then _get_fallback_indicators current_price
  else
    match technical_try s symbol current_price with
    | Some r => Some r
    | None => _get_fallback_indicators current_price
    end.

End Technical.

End StockAnalyzer.

(** ** Vocabulary of the statements

    Definitions the theorems are stated with: the reference formulas, the
    typing discipline of a snapshot, and the concrete snapshots the
    theorems are run on. *)

Import StockAnalyzer FundamentalIndicators ValuationModels.

(** *** Recommendation *)

(** The margin of safety the recommendation reports. *)
Definition margin_of (p iv : Q) : Q :=
  if Qltb 0 p && Qltb 0 iv then margin_formula p iv else 0.

(** The scenario of the decision table: price 100, intrinsic value 150. *)
Definition scenario_snapshot : stock_data :=
  dict [("current_price", VNum 100); ("intrinsic_value", VNum 150)].

(** *** Discounted cash flow *)



(** The value [_calculate_dcf_value] computes with the default rates. *)
Definition dcf_at (fps g : Q) : Q :=
  let st := fold_left (dcf_step g 0.10) (seq 1 10) (0, fps) in
  fst st + snd st * (1 + 0.025) / (0.10 - 0.025) / pow (1 + 0.10) 10.

(** The weight of [(1 + g) ** i] in the value per unit of cash flow. *)
Definition weight (i : nat) : Q :=
  if (i =? 10)%nat
  then / pow 1.1 10 + (1 + 0.025) / (0.10 - 0.025) / pow 1.1 10
  else / pow 1.1 i.

(** The value per unit of cash flow as a polynomial in [x = 1 + g]. *)
Definition dcf_poly (x : Q) : Q :=
  fold_right (fun i acc => weight i * pow x i + acc) 0 (seq 1 10).

(** Bound on the slope of [dcf_poly] between growth rates of -100% and
    100%. *)
Definition slope_bound : Q := 31000.


(** *** Piotroski F-Score *)

(** The nine conditions, from the line items of two years. *)

Section NineConditions.

Variables fin bs cf : DataFrame.

Variables t t_1 : Z.

(** A line item of a year: 0 when the row is absent or the cell is [nan]. *)
Definition item (df : DataFrame) (row : string) (col : Z) : npfloat :=
  if in_index row df
  then (if isna (cell df row col) then Fin 0 else cell df row col)
  else Fin 0.

Definition total_assets : npfloat := np_or (item bs "Total Assets" t) (Fin 1).

Definition total_assets_prev : npfloat := np_or (item bs "Total Assets" t_1) total_assets.

Definition avg_assets : npfloat := np_div (np_add total_assets total_assets_prev) (Fin 2).

Definition net_income : npfloat := item fin "Net Income" t.

Definition roa : npfloat := div_or_zero net_income avg_assets.

Definition roa_prev : npfloat := div_or_zero (item fin "Net Income" t_1) total_assets_prev.

Definition ocf : npfloat := item cf "Total Cash From Operating Activities" t.

Definition leverage : npfloat := div_or_zero (item bs "Long Term Debt" t) avg_assets.

Definition leverage_prev : npfloat :=
  div_or_zero (item bs "Long Term Debt" t_1) total_assets_prev.

Definition curr_ratio : npfloat :=
  div_or_zero (item bs "Current Assets" t) (item bs "Current Liabilities" t).

Definition curr_ratio_prev : npfloat :=
  div_or_zero (item bs "Current Assets" t_1) (item bs "Current Liabilities" t_1).

Definition shares : npfloat :=
  np_or (item bs "Ordinary Shares Number" t) (item bs "Common Stock" t).

Definition shares_prev : npfloat :=
  np_or (item bs "Ordinary Shares Number" t_1) (item bs "Common Stock" t_1).



Definition asset_turnover : npfloat :=
  div_or_zero (item fin "Total Revenue" t) avg_assets.

Definition asset_turnover_prev : npfloat :=
  div_or_zero (item fin "Total Revenue" t_1) total_assets_prev.


End NineConditions.



(** Two years of statements in which every condition holds: return on
    assets rises from 4% to 6%. *)
Definition improving_income : DataFrame :=
  {| index := ["Net Income"; "Total Revenue"; "Gross Profit"];
     columns := [2024%Z; 2023%Z];
     cell := fun row col =>
       if String.eqb row "Net Income" then (if (col =? 2024)%Z then Fin 60 else Fin 40)
       else if String.eqb row "Total Revenue"
            then (if (col =? 2024)%Z then Fin 1000 else Fin 900)
       else (if (col =? 2024)%Z then Fin 420 else Fin 360) |}.

Definition improving_balance : DataFrame :=
  {| index := ["Total Assets"; "Long Term Debt"; "Current Assets";
               "Current Liabilities"; "Ordinary Shares Number"];
     columns := [2024%Z; 2023%Z];
     cell := fun row col =>
       if String.eqb row "Total Assets" then Fin 1000
       else if String.eqb row "Long Term Debt"
            then (if (col =? 2024)%Z then Fin 200 else Fin 250)
       else if String.eqb row "Current Assets"
            then (if (col =? 2024)%Z then Fin 300 else Fin 280)
       else if String.eqb row "Current Liabilities"
            then (if (col =? 2024)%Z then Fin 150 else Fin 160)
       else Fin 100 |}.


(** *** Altman Z-Score *)

(** Statement tables of a company with one unit of assets, no debt and
    [sales] units of revenue: its Z-score is [sales]. *)
Definition sales_only_income (sales : Q) : DataFrame :=
  {| index := ["Total Revenue"; "Pretax Income"];
     columns := [2024%Z];
     cell := fun row _ => if String.eqb row "Total Revenue" then Fin sales else Fin 0 |}.


(** *** Technical indicators *)

(** A snapshot whose price history has a single row. *)
Definition one_row_snapshot : stock_data :=
  dict [("symbol", VStr "ACME"); ("current_price", VNum 100);
        ("history",
         VHist [ {| Open := 99; High := 101; Low := 98; Close := 100;
                    Volume := 5000 |} ])].

(** A data provider that is never reached here, and a square root that is
    never applied to a full window. *)
Definition no_download (symbol : pyobj) : option (list bar) := None.

Definition unused_sqrt (x : Q) : Q := x.

(** What numpy gives for [100 * ((close - low) / (high - low))] when the
    range [high - low] is zero. *)
Definition flat_range_quotient (close low : Q) : npfloat :=
  if Qltb low close then PInf
  else if Qltb close low then NInf
  else NaN.

(** Fourteen days on which the price did not move. *)
Definition flat_fortnight : list bar :=
  repeat {| Open := 10; High := 10; Low := 10; Close := 10; Volume := 1000 |} 14.

(** A snapshot that carries the flat fortnight as its price history. *)
Definition flat_snapshot : stock_data :=
  dict [("symbol", VStr "ACME"); ("current_price", VNum 10);
        ("history", VHist flat_fortnight)].

(** *** The analysis: well-typed snapshots *)

(** A scalar fact that is missing ([None]) or a finite number. *)
Definition is_numlike (v : pyobj) : bool :=
  match v with VNone | VBool _ | VNum _ => true | _ => false end.

Definition is_plain_number (v : pyobj) : bool :=
  match v with VBool _ | VNum _ => true | _ => false end.

Definition is_text (v : pyobj) : bool :=
  match v with VStr _ => true | _ => false end.

Definition is_income_history (v : pyobj) : bool :=
  match v with VList _ | VNone => true | _ => false end.

(** The key is absent, or its value passes the test. *)
Definition field_ok (test : pyobj -> bool) (s : stock_data) (k : string) : bool :=
  match s !! k with
  | None => true
  | Some v => test v
  end.

Definition numlike_keys : list string :=
  ["total_debt"; "total_stockholder_equity"; "total_current_assets";
   "total_current_liabilities"; "net_income"; "operating_income";
   "total_revenue"; "pe_ratio"; "earnings_growth"; "book_value";
   "current_price"; "revenue_growth"; "free_cash_flow"; "dividend_yield";
   "eps"; "revenue_growth_years"; "market_cap"].

(** The shape of snapshot the data provider builds: scalar facts are
    numbers or missing, the price and the year counts are numbers, the
    currency is a text and the income history a list. *)
Definition well_typed (s : stock_data) : bool :=
  forallb (field_ok is_numlike s) numlike_keys
  && field_ok is_plain_number s "current_price"
  && field_ok is_plain_number s "earnings_growth_years"
  && field_ok is_text s "currency"
  && field_ok is_income_history s "net_income_history".

(** The keys [_calculate_derived_metrics] writes. *)
Definition derived_keys : list string :=
  ["debt_to_equity"; "current_ratio"; "roe"; "operating_margin"; "roce";
   "peg_ratio"; "book_value_check"; "intrinsic_value"; "growth_alignment";
   "earnings_consistency"; "free_cash_flow"; "dividend_history";
   "promoter_holding"; "promoter_pledging"].

(** What scoring needs of the snapshot once the derived metrics are in
    it. *)
Record scorable (s : stock_data) : Prop := {
  sc_book_value : field_ok is_numlike s "book_value" = true;
  sc_price_numlike : field_ok is_numlike s "current_price" = true;
  sc_price : field_ok is_plain_number s "current_price" = true;
  sc_currency : field_ok is_text s "currency" = true;
  sc_history : field_ok is_income_history s "net_income_history" = true;
  sc_revenue_growth : field_ok is_numlike s "revenue_growth" = true;
  sc_earnings_growth : field_ok is_numlike s "earnings_growth" = true;
  sc_revenue_years : field_ok is_numlike s "revenue_growth_years" = true;
  sc_earnings_years : field_ok is_plain_number s "earnings_growth_years" = true;
  sc_market_cap : field_ok is_numlike s "market_cap" = true;
  sc_intrinsic_value : exists iv, s !! "intrinsic_value" = Some (VNum iv)
}.

(** The number of results with [passed] set. *)
Fixpoint count_passed (l : list CriterionResult) : nat :=
  match l with
  | [] => 0
  | r :: l' => (if passed r then 1 else 0) + count_passed l'
  end.

(** A snapshot as the data provider builds it. *)
Definition sample_snapshot : stock_data :=
  dict [("symbol", VStr "ACME"); ("currency", VStr "USD");
        ("current_price", VNum 100); ("free_cash_flow", VNum 8000000);
        ("shares_outstanding", VNum 1000000); ("net_income", VNum 9000000);
        ("total_stockholder_equity", VNum 50000000);
        ("total_debt", VNum 10000000); ("eps", VNum 9);
        ("earnings_growth", VNum 10); ("revenue_growth", VNum 8);
        ("pe_ratio", VNum 11.1); ("book_value", VNum 50);
        ("dividend_yield", VNum 1.5)].

(** The result with another reading of the clock. *)
Definition with_timestamp (now : Z) (r : AnalysisResult) : AnalysisResult :=
  {| total_score := total_score r;
     metrics := metrics r;
     recommendation := recommendation r;
     analysis_timestamp := now;
     advanced_metrics := advanced_metrics r |}.

(** The first analysis of the sample snapshot, and a second analysis of
    the dictionary the first one leaves behind. *)
Definition first_run : stock_data * option AnalysisResult :=
  analyze_stock sample_snapshot 0.

Definition second_run : stock_data * option AnalysisResult :=
  analyze_stock first_run.1 0.

(** Whether a run returned a result. *)
Definition returned (run : stock_data * option AnalysisResult) : bool :=
  match run.2 with Some _ => true | None => false end.

(** The valuation and the advice of a run. *)
Definition valuation_of (run : stock_data * option AnalysisResult)
    : option (pyobj * string) :=
  r ← run.2;
  Some (intrinsic_value (recommendation r), rec_status (recommendation r)).

(** *** Further vocabulary

    Definitions the further properties of the code are stated with. *)

(** The number of tests recorded as passed in [details]. *)
Definition passed_details (d : gmap string bool) : nat :=
  size (filter (fun kv : string * bool => kv.2 = true) d).

(** The tally is right, and only the labels [ks] have been written. *)
Definition tallied (ks : list string) (st : fscore) : Prop :=
  score st = passed_details (details st) /\ forall k, k ∉ ks -> details st !! k = None.

(** From a state that satisfies [P] the computation ends in a state that
    satisfies [Q] when it yields a value and [E] when it raises. *)
Definition ends_in {A} (P : fscore -> Prop) (m : Try A) (Q E : fscore -> Prop) : Prop :=
  forall st, P st ->
    match m st with
    | (st', Some _) => Q st'
    | (st', None) => E st'
    end.

(** The score counts the entries of [details] that are [True]. *)
Definition counted (st : fscore) : Prop :=
  score st = passed_details (details st).

(** A balance sheet whose Total Assets cell is [nan]. *)
Definition nan_assets_balance : DataFrame :=
  {| index := ["Total Assets"];
     columns := [2024%Z];
     cell := fun _ _ => NaN |}.

(** The verdict and the action that go with a technical score. *)
Definition verdict_of_score (score : nat) : string * string :=
  if (80 <=? score)%nat then ("Strong Bullish", "BUY")
  else if (60 <=? score)%nat then ("Bullish", "ACCUMULATE")
  else if (40 <=? score)%nat then ("Neutral", "HOLD")
  else ("Bearish", "AVOID").

(** A finite number that is not negative. *)
Definition nonneg (x : npfloat) : Prop := exists q, x = Fin q /\ 0 <= q.

(** [nan], or a finite number between 0 and 100. *)
Definition nan_or_percent (x : npfloat) : Prop :=
  x = NaN \/ exists q, x = Fin q /\ 0 <= q <= 100.

(** A bar whose close lies between its low and its high. *)
Definition close_within_range (b : bar) : Prop := Low b <= Close b <= High b.

(** A finite number equal to [c]. *)
Definition near (c : Q) (x : npfloat) : Prop := exists q, x = Fin q /\ q == c.

(** A snapshot that reports debt and income but no equity. *)
Definition no_equity_snapshot : stock_data :=
  dict [("current_price", VNum 100); ("total_debt", VNum 40);
        ("net_income", VNum 5)].

(** A company whose liabilities exceed its assets. *)
Definition negative_equity_snapshot : stock_data :=
  dict [("symbol", VStr "ACME"); ("currency", VStr "USD");
        ("current_price", VNum 100); ("total_stockholder_equity", VNum (-500));
        ("total_debt", VNum 4000); ("net_income", VNum 50)].

(** A company said to grow by 30% a year. *)
Definition fast_grower_snapshot : stock_data :=
  dict [("current_price", VNum 100); ("free_cash_flow", VNum 8000000);
        ("shares_outstanding", VNum 1000000); ("earnings_growth", VNum 30)].

(** A company that reports a net income but no free cash flow. *)
Definition no_cash_flow_snapshot : stock_data :=
  dict [("current_price", VNum 100); ("net_income", VNum 9000000);
        ("shares_outstanding", VNum 1000000); ("earnings_growth", VNum 10)].

(** The status of a verdict and its pass mark go together: good is
    passed, caution and poor are not. *)
Definition agrees (v : verdict3) : Prop :=
  (v.1.2 = "good" /\ v.2 = true)
  \/ (v.1.2 = "caution" /\ v.2 = false)
  \/ (v.1.2 = "poor" /\ v.2 = false).

(** The twelfth criterion of the table. *)
Definition earnings_growth_criterion : gmap string pyobj :=
  dict [("name", VStr "Earnings Growth"); ("key", VStr "earnings_growth");
        ("criteria", VStr "> 8-10% CAGR"); ("good_threshold", VNum 8)].

(** The keys of the criteria that are read from the snapshot alone. *)
Definition plain_metric_keys : list string :=
  ["roe"; "debt_to_equity"; "current_ratio"; "pe_ratio"; "pb_ratio";
   "operating_margin"; "roce"; "peg_ratio"; "free_cash_flow";
   "dividend_history"].

(** A finite number between [lo] and [hi]. *)
Definition within (lo hi : Q) (x : npfloat) : Prop :=
  exists q, x = Fin q /\ lo <= q <= hi.

(** * Properties *)

(** ** Numbers *)

Lemma Qltb_lt (x y : Q) : Qltb x y = true <-> x < y.
Proof.
  unfold Qltb. rewrite negb_true_iff. split.
  - intros H. apply Qnot_le_lt. intros Hle. apply Qle_bool_iff in Hle. congruence.
  - intros H. destruct (Qle_bool y x) eqn:E; [|reflexivity].
    apply Qle_bool_iff in E. lra.
Qed.

Lemma Qltb_ge (x y : Q) : Qltb x y = false <-> y <= x.
Proof.
  unfold Qltb. rewrite negb_false_iff. apply Qle_bool_iff.
Qed.

Lemma Qle_bool_gt (x y : Q) : Qle_bool x y = false <-> y < x.
Proof.
  rewrite <- Qltb_lt. unfold Qltb. rewrite negb_true_iff. reflexivity.
Qed.

(** Case analysis on a comparison, with the order fact in the context. *)
Ltac case_Qltb x y :=
  let E := fresh "E" in
  destruct (Qltb x y) eqn:E;
  [apply Qltb_lt in E | apply Qltb_ge in E].

Ltac case_Qle x y :=
  let E := fresh "E" in
  destruct (Qle_bool x y) eqn:E;
  [apply Qle_bool_iff in E | apply Qle_bool_gt in E].



Lemma get_lookup {V} (d : gmap string V) k v (dflt : V) :
  d !! k = Some v -> get d k dflt = v.
Proof. unfold get. intros ->. reflexivity. Qed.

Lemma get_absent {V} (d : gmap string V) k (dflt : V) :
  d !! k = None -> get d k dflt = dflt.
Proof. unfold get. intros ->. reflexivity. Qed.

Lemma v_gt_num (a b : Q) : v_gt (VNum a) (VNum b) = Some (Qltb b a).
Proof. reflexivity. Qed.




(** C10. The target price of a recommendation is its upper buy price *)
Theorem target_price_is_buy_price_max
    (s : stock_data) (score : nat) (r : Recommendation)
    (Hr : _generate_recommendation s score = Some r) :
  target_price r = buy_price_max r /\
  let mos := margin_of_safety r in
  let row1 := (12 <= score)%nat /\ 20 <= mos in
  let row2 := (10 <= score)%nat /\ 10 <= mos in
  let row3 := (8 <= score)%nat \/ 0 <= mos in
  (row1 -> rec_status r = "Buy" /\
           exists p, as_num (current_price r) = Some p /\ target_price r = p * 1.05) /\
  (~ row1 -> row2 -> rec_status r = "Buy" /\
           exists p, as_num (current_price r) = Some p /\ target_price r = p) /\
  (~ row1 -> ~ row2 -> row3 -> rec_status r = "Hold" /\
           exists iv, as_num (intrinsic_value r) = Some iv /\ target_price r = iv * 0.8) /\
  (~ row1 -> ~ row2 -> ~ row3 -> rec_status r = "Avoid" /\
           exists iv, as_num (intrinsic_value r) = Some iv /\ target_price r = iv * 0.7).
Proof.
  unfold _generate_recommendation in Hr.
  destruct (and_then _ _) as [b|]; [|discriminate]. cbn [mbind option_bind] in Hr.
  match type of Hr with
  | context [if b then ?x else _] =>
      destruct (if b then x else Some 0) as [mos|] eqn:Hmos; [|discriminate]
  end.
  cbn [mbind option_bind] in Hr.
  destruct (12 <=? score)%nat eqn:S12;
    [apply Nat.leb_le in S12 | apply Nat.leb_gt in S12];
    case_Qle 20 mos; cbn [andb] in Hr.
  2-4: destruct (10 <=? score)%nat eqn:S10;
    [apply Nat.leb_le in S10 | apply Nat.leb_gt in S10];
    case_Qle 10 mos; cbn [andb] in Hr.
  all: try (destruct (8 <=? score)%nat eqn:S8;
    [apply Nat.leb_le in S8 | apply Nat.leb_gt in S8];
    case_Qle 0 mos; cbn [orb] in Hr).
  all: match type of Hr with
       | context [as_num ?v] => destruct (as_num v) as [x|] eqn:Hx; [|discriminate]
       end;
       cbn [mbind option_bind] in Hr; injection Hr as <-;
       cbn [rec_status buy_price_min buy_price_max margin_of_safety target_price
              current_price intrinsic_value];
       (split; [reflexivity|]);
       repeat match goal with
              | |- _ /\ _ => split
              | |- _ -> _ => intro
              | H : _ /\ _ |- _ => destruct H
              | H : _ \/ _ |- _ => destruct H
              end;
       try reflexivity; try tauto; try lia; try lra;
       try (eexists; split; [eassumption|reflexivity]).
Qed.

Lemma target_price_is_buy_price_max_witness :
  exists r, _generate_recommendation scenario_snapshot 13 = Some r /\
            target_price r = buy_price_max r.
Proof.
  eexists. split; [reflexivity|].
  exact (proj1 (target_price_is_buy_price_max scenario_snapshot 13 _ eq_refl)).
Defined.

(** ** Intrinsic value *)

Lemma as_num_as_np (v : pyobj) (q : Q) : as_num v = Some q -> as_np v = Some (Fin q).
Proof. destruct v; cbn; intros H; try discriminate; injection H as <-; reflexivity. Qed.

Lemma v_le_num (v : pyobj) (q c : Q) :
  as_num v = Some q -> v_le v (VNum c) = Some (Qle_bool q c).
Proof. intros H. unfold v_le. rewrite (as_num_as_np _ _ H). reflexivity. Qed.



(** The projection is entered only with a positive free cash flow and a
    positive share count. *)
Lemma projection_positive (s : stock_data) (p f sh g : Q) :
  dcf_inputs s = Some (Projection p f sh g) -> 0 < f /\ 0 < sh.
Proof.
  unfold dcf_inputs. intros H.
  destruct (py_or (get s "current_price" _) _) as [cp|]; [|discriminate].
  cbn [mbind option_bind] in H.
  destruct (py_or (get s "free_cash_flow" _) _) as [fcf0|]; [|discriminate].
  cbn [mbind option_bind] in H.
  destruct (py_or (get s "shares_outstanding" _) _) as [so|]; [|discriminate].
  cbn [mbind option_bind] in H.
  destruct (estimate_fcf s cp fcf0 so) as [fcf|]; [|discriminate].
  cbn [mbind option_bind] in H.
  destruct (or_else _ _) as [[|]|] eqn:Hor; try discriminate.
  cbn [mbind option_bind] in H.
  destruct (py_or (get s "earnings_growth" _) _) as [eg|]; [|discriminate].
  cbn [mbind option_bind] in H.
  destruct (as_num eg) as [g'|]; [|discriminate]. cbn [mbind option_bind] in H.
  destruct (as_num fcf) as [f'|] eqn:Hf; [|discriminate]. cbn [mbind option_bind] in H.
  destruct (as_num so) as [sh'|] eqn:Hs; [|discriminate]. cbn [mbind option_bind] in H.
  destruct (as_num cp) as [p'|]; [|discriminate]. cbn [mbind option_bind] in H.
  injection H as -> -> -> ->.
  unfold or_else in Hor.
  rewrite (v_le_num _ _ _ Hf), (v_le_num _ _ _ Hs) in Hor.
  cbn [mbind option_bind] in Hor.
  case_Qle f 0; [discriminate|].
  case_Qle sh 0; [discriminate|]. split; assumption.
Qed.


Lemma round_half_even_comp (x y : Q) : x == y -> round_half_even x = round_half_even y.
Proof.
  intros H. unfold round_half_even.
  rewrite (Qfloor_comp _ _ H).
  assert (Hr : x - inject_Z (Qfloor y) == y - inject_Z (Qfloor y)) by lra.
  unfold Qltb. rewrite !(Qleb_comp _ _ (Qeq_refl 0.5) _ _ Hr).
  rewrite !(Qleb_comp _ _ Hr _ _ (Qeq_refl 0.5)). reflexivity.
Qed.

Lemma round2_comp (x y : Q) : x == y -> round2 x = round2 y.
Proof.
  intros H. unfold round2.
  rewrite (round_half_even_comp (x * 100) (y * 100)); [reflexivity|lra].
Qed.





(** ** Reverse DCF *)

Lemma pow_nonneg (x : Q) (n : nat) : 0 <= x -> 0 <= pow x n.
Proof.
  intros Hx. induction n as [|n IH]; cbn [pow]; [lra|].
  apply Qmult_le_0_compat; assumption.
Qed.

Lemma pow_le_pow (x y : Q) (n : nat) : 0 <= x -> x <= y -> pow x n <= pow y n.
Proof.
  intros Hx Hxy. induction n as [|n IH]; cbn [pow]; [lra|].
  pose proof (pow_nonneg x n Hx). nra.
Qed.


(** [pow] grows at most linearly between two bases in [0, 2]. *)
Lemma pow_diff_bound (x y : Q) (n : nat) :
  0 <= x -> x <= y -> y <= 2 ->
  pow y (S n) - pow x (S n) <= inject_Z (Z.of_nat (S n)) * pow 2 n * (y - x).
Proof.
  intros Hx Hxy Hy. induction n as [|n IH].
  - cbn [pow]. change (inject_Z (Z.of_nat 1)) with 1. lra.
  - change (pow y (S (S n))) with (y * pow y (S n)).
    change (pow x (S (S n))) with (x * pow x (S n)).
    change (pow 2 (S n)) with (2 * pow 2 n).
    rewrite (Nat2Z.inj_succ (S n)), <- Z.add_1_r, inject_Z_plus.
    change (inject_Z 1) with 1.
    pose proof (pow_nonneg x (S n) Hx) as H0.
    pose proof (pow_le_pow x 2 (S n) Hx ltac:(lra)) as H1.
    change (pow 2 (S n)) with (2 * pow 2 n) in H1.
    pose proof (pow_le_pow x y (S n) Hx Hxy) as H2.
    pose proof (pow_nonneg 2 n ltac:(lra)) as H3.
    set (a := pow y (S n)) in *. set (b := pow x (S n)) in *.
    set (c := pow 2 n) in *. set (k := inject_Z (Z.of_nat (S n))) in *.
    assert (Hk : 0 <= k).
    { unfold k. change 0 with (inject_Z 0). rewrite <- Zle_Qle. lia. }
    assert (E : y * a - x * b == y * (a - b) + b * (y - x)) by ring.
    rewrite E.
    assert (Hd : 0 <= y - x) by lra.
    assert (H4 : y * (a - b) <= 2 * (k * c * (y - x))).
    { apply Qle_trans with (2 * (a - b)); [|lra].
      apply Qmult_le_compat_r; lra. }
    assert (H5 : b * (y - x) <= 2 * c * (y - x)).
    { apply Qmult_le_compat_r; lra. }
    lra.
Qed.

Lemma dcf_value_default (fps g : Q) :
  _calculate_dcf_value fps g 0.10 0.025 10 = Some (dcf_at fps g).
Proof. reflexivity. Qed.

Lemma dcf_at_poly (fps g : Q) : dcf_at fps g == fps * dcf_poly (1 + g).
Proof.
  unfold dcf_at, dcf_poly.
  cbn [fold_left fold_right seq dcf_step fst snd pow weight Nat.eqb].
  field.
Qed.

(** Replaces a closed rational term by its value. *)
Ltac eval_const t :=
  let v := eval vm_compute in t in change t with v in *.

Lemma dcf_poly_monotone_lipschitz (x y : Q) :
  0 <= x -> x <= y -> y <= 2 ->
  dcf_poly x <= dcf_poly y /\ dcf_poly y - dcf_poly x <= slope_bound * (y - x).
Proof.
  intros Hx Hxy Hy.
  unfold dcf_poly, slope_bound. cbn [fold_right seq].
  pose proof (pow_le_pow x y 1 Hx Hxy) as M1.
  pose proof (pow_le_pow x y 2 Hx Hxy) as M2.
  pose proof (pow_le_pow x y 3 Hx Hxy) as M3.
  pose proof (pow_le_pow x y 4 Hx Hxy) as M4.
  pose proof (pow_le_pow x y 5 Hx Hxy) as M5.
  pose proof (pow_le_pow x y 6 Hx Hxy) as M6.
  pose proof (pow_le_pow x y 7 Hx Hxy) as M7.
  pose proof (pow_le_pow x y 8 Hx Hxy) as M8.
  pose proof (pow_le_pow x y 9 Hx Hxy) as M9.
  pose proof (pow_le_pow x y 10 Hx Hxy) as M10.
  pose proof (pow_diff_bound x y 0 Hx Hxy Hy) as D1.
  pose proof (pow_diff_bound x y 1 Hx Hxy Hy) as D2.
  pose proof (pow_diff_bound x y 2 Hx Hxy Hy) as D3.
  pose proof (pow_diff_bound x y 3 Hx Hxy Hy) as D4.
  pose proof (pow_diff_bound x y 4 Hx Hxy Hy) as D5.
  pose proof (pow_diff_bound x y 5 Hx Hxy Hy) as D6.
  pose proof (pow_diff_bound x y 6 Hx Hxy Hy) as D7.
  pose proof (pow_diff_bound x y 7 Hx Hxy Hy) as D8.
  pose proof (pow_diff_bound x y 8 Hx Hxy Hy) as D9.
  pose proof (pow_diff_bound x y 9 Hx Hxy Hy) as D10.
  eval_const (inject_Z (Z.of_nat 1) * pow 2 0).
  eval_const (inject_Z (Z.of_nat 2) * pow 2 1).
  eval_const (inject_Z (Z.of_nat 3) * pow 2 2).
  eval_const (inject_Z (Z.of_nat 4) * pow 2 3).
  eval_const (inject_Z (Z.of_nat 5) * pow 2 4).
  eval_const (inject_Z (Z.of_nat 6) * pow 2 5).
  eval_const (inject_Z (Z.of_nat 7) * pow 2 6).
  eval_const (inject_Z (Z.of_nat 8) * pow 2 7).
  eval_const (inject_Z (Z.of_nat 9) * pow 2 8).
  eval_const (inject_Z (Z.of_nat 10) * pow 2 9).
  eval_const (weight 1). eval_const (weight 2). eval_const (weight 3).
  eval_const (weight 4). eval_const (weight 5). eval_const (weight 6).
  eval_const (weight 7). eval_const (weight 8). eval_const (weight 9).
  eval_const (weight 10).
  set (y1 := pow y 1) in *. set (y2 := pow y 2) in *. set (y3 := pow y 3) in *.
  set (y4 := pow y 4) in *. set (y5 := pow y 5) in *. set (y6 := pow y 6) in *.
  set (y7 := pow y 7) in *. set (y8 := pow y 8) in *. set (y9 := pow y 9) in *.
  set (y10 := pow y 10) in *.
  set (x1 := pow x 1) in *. set (x2 := pow x 2) in *. set (x3 := pow x 3) in *.
  set (x4 := pow x 4) in *. set (x5 := pow x 5) in *. set (x6 := pow x 6) in *.
  set (x7 := pow x 7) in *. set (x8 := pow x 8) in *. set (x9 := pow x 9) in *.
  set (x10 := pow x 10) in *.
  split; lra.
Qed.




Lemma half_sum (low high : Q) : (low + high) / 2 == (low + high) * 0.5.
Proof. field. Qed.

Lemma bisect_S (n : nat) (dcf : Q -> option Q) (price low high mid0 : Q) :
  bisect (S n) dcf price low high mid0 =
  (implied_value ← dcf ((low + high) / 2);
   if Qltb (Qabs (implied_value - price)) tolerance
   then Some ((low + high) / 2 * 100)
   else if Qltb implied_value price
        then bisect n dcf price ((low + high) / 2) high ((low + high) / 2)
        else bisect n dcf price low ((low + high) / 2) ((low + high) / 2)).
Proof. reflexivity. Qed.













Lemma get_val_item (df : DataFrame) (row : string) (col : Z) :
  col ∈ columns df -> get_val df row col = Some (item df row col).
Proof.
  intros Hc. unfold get_val, item, loc.
  destruct (in_index row df); [|reflexivity].
  rewrite (bool_decide_eq_true_2 _ Hc). reflexivity.
Qed.

Lemma elem_of_insert_desc (x y : Z) (l : list Z) :
  y ∈ insert_desc x l -> y = x \/ y ∈ l.
Proof.
  induction l as [|z l IH]; cbn [insert_desc]; intros H.
  - apply list_elem_of_singleton in H. left. exact H.
  - destruct (z <=? x)%Z.
    + apply elem_of_cons in H. exact H.
    + apply elem_of_cons in H. destruct H as [->|H].
      * right. apply elem_of_cons. left. reflexivity.
      * destruct (IH H) as [->|H']; [left; reflexivity|].
        right. apply elem_of_cons. right. exact H'.
Qed.

Lemma elem_of_sorted_desc (y : Z) (l : list Z) : y ∈ sorted_desc l -> y ∈ l.
Proof.
  induction l as [|x l IH]; cbn [sorted_desc foldr]; intros H; [exact H|].
  apply elem_of_insert_desc in H. destruct H as [->|H].
  - apply elem_of_cons. left. reflexivity.
  - apply elem_of_cons. right. apply IH. exact H.
Qed.




(** ** Altman Z-Score *)






(** ** Technical indicators *)

Lemma Qltb_irrefl (x : Q) : Qltb x x = false.
Proof. apply Qltb_ge. lra. Qed.

Lemma np_ltb_irrefl (x : npfloat) : np_ltb x x = false.
Proof. destruct x; cbn; [apply Qltb_irrefl|reflexivity..]. Qed.

Section TechnicalFacts.

Variable np_sqrt : Q -> Q.

Variable yf_history : pyobj -> option (list bar).

(** C7, amended. An empty price history gives the fallback snapshot; a
    history of one row is scored, and scores 0 *)
Theorem technical_indicators_on_short_history
    (s : stock_data) (price : npfloat)
    (Hprice : as_np (get s "current_price" (VNum 0)) = Some price) :
  (truthy (get s "symbol" (VStr EmptyString)) = Some false \/
   (is_Some (truthy (get s "symbol" (VStr EmptyString))) /\
    (s !! "history" = Some (VHist []) \/ s !! "history" = Some VNone
     \/ s !! "history" = None) /\
    (yf_history (get s "symbol" (VStr EmptyString)) = Some []
     \/ yf_history (get s "symbol" (VStr EmptyString)) = None)) ->
   exists r,
     get_technical_indicators np_sqrt yf_history s = Some r /\
     _get_fallback_indicators (get s "current_price" (VNum 0)) = Some r /\
     technical_score r = 50%nat /\ verdict r = "Data Not Available") /\
  (forall row : bar,
     truthy (get s "symbol" (VStr EmptyString)) = Some true ->
     s !! "history" = Some (VHist [row]) ->
     exists r,
       get_technical_indicators np_sqrt yf_history s = Some r /\
       technical_score r = 0%nat /\ verdict r = "Bearish" /\ action r = "AVOID" /\
       signals r = ["EMA 9 < EMA 21 (Short Term Bearish)"] /\
       rsi r = NaN /\ sma_50 r = NaN /\ stoch_k r = NaN /\
       ema_9 r = Fin (round2 (Close row))).
Proof.
  split.
  - intros H.
    assert (Hfb : exists r,
               _get_fallback_indicators (get s "current_price" (VNum 0)) = Some r /\
               technical_score r = 50%nat /\ verdict r = "Data Not Available").
    { unfold _get_fallback_indicators. rewrite Hprice. cbn [mbind option_bind].
      eexists. split; [reflexivity|]. split; reflexivity. }
    destruct Hfb as (r & Hr & Hs & Hv). exists r.
    split; [|split; [exact Hr|split; assumption]].
    unfold get_technical_indicators.
    destruct H as [Hsym|([b Hsym] & Hhist & Hfetch)].
    + rewrite Hsym. cbn [mbind option_bind negb]. exact Hr.
    + rewrite Hsym. cbn [mbind option_bind].
      destruct b; cbn [negb]; [|exact Hr].
      assert (Hh : history_of yf_history s (get s "symbol" (VStr EmptyString)) = Some []
                   \/ history_of yf_history s (get s "symbol" (VStr EmptyString)) = None).
      { unfold history_of.
        destruct Hhist as [-> | [-> | ->]]; cbn [is_nil]; exact Hfetch. }
      unfold technical_try.
      destruct Hh as [-> | ->]; cbn [mbind option_bind is_nil]; rewrite Hr; reflexivity.
  - intros row Hsym Hhist.
    unfold get_technical_indicators. rewrite Hsym. cbn [mbind option_bind negb].
    unfold technical_try, history_of. rewrite Hhist.
    cbn [is_nil mbind option_bind]. rewrite Hprice. cbn [mbind option_bind].
    destruct price; cbn; rewrite !Qltb_irrefl; cbn;
      (eexists; split; [reflexivity|]; repeat split).
Qed.

End TechnicalFacts.

Lemma technical_indicators_on_short_history_witness :
  exists r,
    get_technical_indicators unused_sqrt no_download one_row_snapshot = Some r /\
    technical_score r = 0%nat /\ verdict r = "Bearish".
Proof.
  destruct (proj2 (technical_indicators_on_short_history unused_sqrt no_download
                     one_row_snapshot (Fin 100) eq_refl)
              _ eq_refl eq_refl) as (r & Hr & Hs & Hv & _).
  exists r. split; [exact Hr|]. split; assumption.
Defined.

(** C7, as the specification states it, fails for a history of one row:
    the snapshot returned is not the fallback one. *)
Lemma single_row_is_not_fallback :
  exists r,
    get_technical_indicators unused_sqrt no_download one_row_snapshot = Some r /\
    technical_score r = 0%nat /\ technical_score r <> 50%nat /\
    verdict r = "Bearish" /\ verdict r <> "Data Not Available".
Proof.
  eexists. split; [vm_compute; reflexivity|].
  cbn. repeat split; discriminate.
Qed.

(** C8, amended. On a flat range %K is the IEEE quotient by zero: no
    substitute value is put in its place *)
Theorem stochastic_flat_range_unguarded
    (data : list bar) (i : nat) (close low high : Q)
    (Hclose : closes data !! i = Some (Fin close))
    (Hlow : rolling 14 np_minimum (lows data) !! i = Some (Fin low))
    (Hhigh : rolling 14 np_maximum (highs data) !! i = Some (Fin high))
    (Hflat : high == low) :
  (_calculate_stochastic data 14).1 !! i = Some (flat_range_quotient close low) /\
  is_finite (flat_range_quotient close low) = false.
Proof.
  split.
  - unfold _calculate_stochastic. cbn [fst].
    rewrite lookup_zip_with, Hclose. cbn [mbind option_bind].
    rewrite lookup_zip_with, Hlow, Hhigh. cbn [mbind option_bind fst snd].
    unfold np_sub. cbn [np_neg np_add np_div].
    assert (Hz : Qeq_bool (high + - low) 0 = true) by (apply Qeq_bool_iff; lra).
    rewrite Hz. unfold flat_range_quotient.
    case_Qltb 0 (close + - low).
    + assert (H1 : Qltb low close = true) by (apply Qltb_lt; lra).
      rewrite H1. reflexivity.
    + assert (H1 : Qltb low close = false) by (apply Qltb_ge; lra).
      rewrite H1.
      case_Qltb (close + - low) 0.
      * assert (H2 : Qltb close low = true) by (apply Qltb_lt; lra).
        rewrite H2. reflexivity.
      * assert (H2 : Qltb close low = false) by (apply Qltb_ge; lra).
        rewrite H2. reflexivity.
  - unfold flat_range_quotient.
    destruct (Qltb low close); [reflexivity|].
    destruct (Qltb close low); reflexivity.
Qed.

Lemma stochastic_flat_range_unguarded_witness :
  (_calculate_stochastic flat_fortnight 14).1 !! 13%nat
  = Some (flat_range_quotient 10 10).
Proof.
  apply (stochastic_flat_range_unguarded flat_fortnight 13 10 10 10).
  - reflexivity.
  - vm_compute. reflexivity.
  - vm_compute. reflexivity.
  - reflexivity.
Defined.

(** C8, as the specification states it, fails: on a flat range %K is
    [nan], and [nan] is the value reported. *)
Lemma stochastic_divides_by_zero :
  (_calculate_stochastic flat_fortnight 14).1 !! 13%nat = Some NaN /\
  exists r,
    get_technical_indicators unused_sqrt no_download flat_snapshot = Some r /\
    stoch_k r = NaN /\ is_finite (stoch_k r) = false.
Proof.
  split; [vm_compute; reflexivity|].
  eexists. split; [vm_compute; reflexivity|]. split; reflexivity.
Qed.

(** *** Reading numbers *)

Lemma is_plain_number_as_num (v : pyobj) :
  is_plain_number v = true -> exists q, as_num v = Some q.
Proof. destruct v; cbn; intros H; try discriminate; eexists; reflexivity. Qed.

Lemma is_number_as_np (v : pyobj) :
  is_number v = true -> exists x, as_np v = Some x.
Proof. destruct v; cbn; intros H; try discriminate; eexists; reflexivity. Qed.

Lemma as_num_is_number (v : pyobj) (q : Q) : as_num v = Some q -> is_number v = true.
Proof. destruct v; cbn; intros H; try discriminate; reflexivity. Qed.

(** [d.get(k, a) or b] on a field that is a number or missing is a
    number. *)
Lemma py_or_numlike (s : stock_data) (k : string) (a b : Q) :
  field_ok is_numlike s k = true ->
  exists v q, py_or (get s k (VNum a)) (VNum b) = Some v /\ as_num v = Some q.
Proof.
  unfold field_ok, get. destruct (s !! k) as [v|].
  - destruct v; cbn; intros H; try discriminate.
    + eexists _, _. split; reflexivity.
    + destruct b0; eexists _, _; split; reflexivity.
    + destruct (Qeq_bool q 0); eexists _, _; split; reflexivity.
  - intros _. cbn. destruct (Qeq_bool a 0); eexists _, _; split; reflexivity.
Qed.

Lemma v_lt_as_num (a b : pyobj) (x y : Q) :
  as_num a = Some x -> as_num b = Some y -> v_lt a b = Some (Qltb x y).
Proof.
  intros Ha Hb. unfold v_lt.
  rewrite (as_num_as_np _ _ Ha), (as_num_as_np _ _ Hb). reflexivity.
Qed.

Lemma v_gt_as_num (a b : pyobj) (x y : Q) :
  as_num a = Some x -> as_num b = Some y -> v_gt a b = Some (Qltb y x).
Proof. intros Ha Hb. unfold v_gt. apply v_lt_as_num; assumption. Qed.

Lemma v_le_as_num (a b : pyobj) (x y : Q) :
  as_num a = Some x -> as_num b = Some y -> v_le a b = Some (Qle_bool x y).
Proof.
  intros Ha Hb. unfold v_le.
  rewrite (as_num_as_np _ _ Ha), (as_num_as_np _ _ Hb). reflexivity.
Qed.

Lemma v_ge_as_num (a b : pyobj) (x y : Q) :
  as_num a = Some x -> as_num b = Some y -> v_ge a b = Some (Qle_bool y x).
Proof. intros Ha Hb. unfold v_ge. apply v_le_as_num; assumption. Qed.

(** Comparisons of numbers, [float('inf')] included, do not raise. *)
Lemma v_lt_number (a b : pyobj) :
  is_number a = true -> is_number b = true -> exists r, v_lt a b = Some r.
Proof.
  intros Ha Hb. unfold v_lt.
  destruct (is_number_as_np a Ha) as [x ->], (is_number_as_np b Hb) as [y ->].
  eexists. reflexivity.
Qed.

Lemma v_le_number (a b : pyobj) :
  is_number a = true -> is_number b = true -> exists r, v_le a b = Some r.
Proof.
  intros Ha Hb. unfold v_le.
  destruct (is_number_as_np a Ha) as [x ->], (is_number_as_np b Hb) as [y ->].
  eexists. reflexivity.
Qed.

Lemma v_gt_number (a b : pyobj) :
  is_number a = true -> is_number b = true -> exists r, v_gt a b = Some r.
Proof. intros. apply v_lt_number; assumption. Qed.

Lemma v_ge_number (a b : pyobj) :
  is_number a = true -> is_number b = true -> exists r, v_ge a b = Some r.
Proof. intros. apply v_le_number; assumption. Qed.

(** [x / y if d > 0 else c], where the divisor is the number tested. *)
Lemma guarded_div_total (a b c : pyobj) (x y : Q) :
  as_num a = Some x -> as_num b = Some y ->
  exists v, (if Qltb 0 y then v_div a b else Some c) = Some v.
Proof.
  intros Ha Hb. case_Qltb 0 y; [|eexists; reflexivity].
  unfold v_div. rewrite Ha, Hb. cbn [mbind option_bind].
  assert (Hz : Qeq_bool y 0 = false).
  { destruct (Qeq_bool y 0) eqn:Ez; [|reflexivity].
    apply Qeq_bool_iff in Ez. lra. }
  rewrite Hz. eexists. reflexivity.
Qed.

Lemma percent_if_positive_total (a b : pyobj) (x y : Q) :
  as_num a = Some x -> as_num b = Some y ->
  exists q, percent_if_positive a b b = Some (VNum q).
Proof.
  intros Ha Hb. unfold percent_if_positive.
  rewrite (v_gt_as_num b (VNum 0) y 0 Hb eq_refl). cbn [mbind option_bind].
  case_Qltb 0 y; [|eexists; reflexivity].
  unfold v_div. rewrite Ha, Hb. cbn [mbind option_bind].
  assert (Hz : Qeq_bool y 0 = false).
  { destruct (Qeq_bool y 0) eqn:Ez; [|reflexivity].
    apply Qeq_bool_iff in Ez. lra. }
  rewrite Hz. cbn. eexists. reflexivity.
Qed.

Lemma min_over_max_total (a b : pyobj) (x y : Q) :
  as_num a = Some x -> as_num b = Some y -> 0 < x -> 0 < y ->
  exists q, min_over_max a b = Some (VNum q).
Proof.
  intros Ha Hb Hx Hy. unfold min_over_max. rewrite Ha, Hb. cbn [mbind option_bind].
  assert (Hz : Qeq_bool (Qmax x y) 0 = false).
  { destruct (Qeq_bool (Qmax x y) 0) eqn:Ez; [|reflexivity].
    apply Qeq_bool_iff in Ez. unfold Qmax in Ez.
    destruct (Qle_bool x y); lra. }
  rewrite Hz. eexists. reflexivity.
Qed.

(** *** The intrinsic value is a number *)

Lemma simple_estimate_total (s : stock_data) :
  field_ok is_numlike s "current_price" = true ->
  field_ok is_numlike s "eps" = true ->
  exists q, _estimate_intrinsic_value_simple s = Some (VNum q).
Proof.
  intros Hp He. unfold _estimate_intrinsic_value_simple.
  destruct (py_or_numlike s "current_price" 0 0 Hp) as (p & pq & -> & Hpq).
  destruct (py_or_numlike s "eps" 0 0 He) as (e & eq & -> & Heq).
  cbn [mbind option_bind].
  rewrite (v_gt_as_num e (VNum 0) eq 0 Heq eq_refl). cbn [mbind option_bind].
  unfold v_mul. rewrite Hpq, Heq. cbn [mbind option_bind as_num].
  destruct (Qltb 0 eq); eexists; reflexivity.
Qed.

(** Inverts the first step of a computation known to return: the head of
    a chain of binds did not raise. *)
Ltac bind_head H x E :=
  lazymatch type of H with
  | (?m ≫= _) = Some _ =>
      destruct m as [x|] eqn:E; cbn [mbind option_bind] in H; [|discriminate H]
  end.

Lemma simple_estimate_is_number (s : stock_data) (v : pyobj) :
  _estimate_intrinsic_value_simple s = Some v -> exists q, v = VNum q.
Proof.
  unfold _estimate_intrinsic_value_simple, v_mul. intros H.
  bind_head H p Ep. bind_head H e Ee. bind_head H b Eb.
  destruct b.
  - bind_head H x Ex. bind_head H y Ey. injection H as <-. eexists; reflexivity.
  - bind_head H x Ex. bind_head H y Ey. injection H as <-. eexists; reflexivity.
Qed.

Lemma dcf_value_is_number (s : stock_data) (v : pyobj) :
  _calculate_buffett_dcf_intrinsic_value s = Some v -> exists q, v = VNum q.
Proof.
  unfold _calculate_buffett_dcf_intrinsic_value, dcf_try. intros H.
  destruct (dcf_inputs s) as [[|p f sh g]|]; cbn [mbind option_bind] in H.
  - apply (simple_estimate_is_number s).
    destruct (_estimate_intrinsic_value_simple s); [exact H|discriminate].
  - injection H as <-. eexists; reflexivity.
  - eapply simple_estimate_is_number; eassumption.
Qed.

Lemma dcf_value_total (s : stock_data) :
  field_ok is_numlike s "current_price" = true ->
  field_ok is_numlike s "eps" = true ->
  exists q, _calculate_buffett_dcf_intrinsic_value s = Some (VNum q).
Proof.
  intros Hp He.
  destruct (simple_estimate_total s Hp He) as [q Hq].
  destruct (_calculate_buffett_dcf_intrinsic_value s) as [v|] eqn:E.
  - destruct (dcf_value_is_number s v E) as [q' ->]. eexists; reflexivity.
  - exfalso. unfold _calculate_buffett_dcf_intrinsic_value in E.
    destruct (dcf_try s); [discriminate|]. congruence.
Qed.

(** *** What the derived metrics are *)

(** One step of [bind_head] with fresh names. *)
Ltac bind_next H :=
  cbv zeta in H;
  let x := fresh "x" in let E := fresh "E" in bind_head H x E.

Lemma derived_metrics_shape (s : stock_data) (d : gmap string pyobj) :
  _calculate_derived_metrics s = Some d ->
  dom d = list_to_set derived_keys /\
  d !! "intrinsic_value" = _calculate_buffett_dcf_intrinsic_value s /\
  (exists b, d !! "free_cash_flow" = Some (VBool b)).
Proof.
  unfold _calculate_derived_metrics. intros H.
  repeat bind_next H.
  cbv zeta in H. injection H as <-.
  split; [|split].
  - rewrite !dom_insert_L, dom_empty_L. unfold derived_keys.
    cbn [list_to_set]. set_solver.
  - repeat (rewrite lookup_insert_ne by discriminate).
    rewrite lookup_insert_eq. reflexivity.
  - eexists. repeat (rewrite lookup_insert_ne by discriminate).
    rewrite lookup_insert_eq. reflexivity.
Qed.

Lemma well_typed_numlike (s : stock_data) (k : string) :
  well_typed s = true -> In k numlike_keys -> field_ok is_numlike s k = true.
Proof.
  unfold well_typed. rewrite !andb_true_iff. intros ((((H & _) & _) & _) & _) Hin.
  rewrite forallb_forall in H. apply H. exact Hin.
Qed.

(** Discharges the typing side condition of a read. *)
Ltac numlike_field Hwt :=
  apply (well_typed_numlike _ _ Hwt); cbn; tauto.

Lemma derived_metrics_total (s : stock_data) :
  well_typed s = true -> exists d, _calculate_derived_metrics s = Some d.
Proof.
  intros Hwt. unfold _calculate_derived_metrics.
  destruct (py_or_numlike s "total_debt" 0 0 ltac:(numlike_field Hwt))
    as (td & tdq & -> & Htd).
  destruct (py_or_numlike s "total_stockholder_equity" 1 1 ltac:(numlike_field Hwt))
    as (te & teq & -> & Hte).
  cbn [mbind option_bind].
  rewrite (v_gt_as_num te (VNum 0) teq 0 Hte eq_refl). cbn [mbind option_bind].
  destruct (guarded_div_total td te VInf tdq teq Htd Hte) as [d2e ->].
  cbn [mbind option_bind].
  destruct (py_or_numlike s "total_current_assets" 0 0 ltac:(numlike_field Hwt))
    as (ca & caq & -> & Hca).
  destruct (py_or_numlike s "total_current_liabilities" 1 1 ltac:(numlike_field Hwt))
    as (cl & clq & -> & Hcl).
  cbn [mbind option_bind].
  rewrite (v_gt_as_num cl (VNum 0) clq 0 Hcl eq_refl). cbn [mbind option_bind].
  destruct (guarded_div_total ca cl (VNum 0) caq clq Hca Hcl) as [cr ->].
  cbn [mbind option_bind].
  destruct (py_or_numlike s "net_income" 0 0 ltac:(numlike_field Hwt))
    as (ni & niq & -> & Hni).
  cbn [mbind option_bind].
  destruct (percent_if_positive_total ni te niq teq Hni Hte) as [roe ->].
  cbn [mbind option_bind].
  destruct (py_or_numlike s "operating_income" 0 0 ltac:(numlike_field Hwt))
    as (oi & oiq & -> & Hoi).
  destruct (py_or_numlike s "total_revenue" 1 1 ltac:(numlike_field Hwt))
    as (tr & trq & -> & Htr).
  cbn [mbind option_bind].
  destruct (percent_if_positive_total oi tr oiq trq Hoi Htr) as [om ->].
  cbn [mbind option_bind].
  unfold v_add at 1. rewrite Hte, Htd. cbn [mbind option_bind].
  destruct (percent_if_positive_total oi (VNum (teq + tdq)) oiq (teq + tdq) Hoi eq_refl)
    as [roce ->].
  cbn [mbind option_bind].
  destruct (py_or_numlike s "pe_ratio" 0 0 ltac:(numlike_field Hwt))
    as (pe & peq & -> & Hpe).
  destruct (py_or_numlike s "earnings_growth" 1 1 ltac:(numlike_field Hwt))
    as (eg & egq & -> & Heg).
  cbn [mbind option_bind].
  rewrite (v_gt_as_num eg (VNum 0) egq 0 Heg eq_refl). cbn [mbind option_bind].
  destruct (guarded_div_total pe eg VInf peq egq Hpe Heg) as [peg ->].
  cbn [mbind option_bind].
  destruct (py_or_numlike s "book_value" 0 0 ltac:(numlike_field Hwt))
    as (bv & bvq & -> & Hbv).
  destruct (py_or_numlike s "current_price" 0 0 ltac:(numlike_field Hwt))
    as (cp & cpq & -> & Hcp).
  cbn [mbind option_bind].
  rewrite (v_lt_as_num cp bv cpq bvq Hcp Hbv). cbn [mbind option_bind].
  destruct (dcf_value_total s ltac:(numlike_field Hwt) ltac:(numlike_field Hwt))
    as [iv ->].
  cbn [mbind option_bind].
  destruct (py_or_numlike s "revenue_growth" 0 0 ltac:(numlike_field Hwt))
    as (rg & rgq & -> & Hrg).
  destruct (py_or_numlike s "earnings_growth" 0 0 ltac:(numlike_field Hwt))
    as (pg & pgq & -> & Hpg).
  cbn [mbind option_bind].
  unfold and_then.
  rewrite (v_gt_as_num rg (VNum 0) rgq 0 Hrg eq_refl),
    (v_gt_as_num pg (VNum 0) pgq 0 Hpg eq_refl).
  cbn [mbind option_bind].
  assert (Hga : exists b ga,
            (if Qltb 0 rgq then Some (Qltb 0 pgq) else Some false) = Some b /\
            (if b : bool then min_over_max rg pg else Some (VNum 0)) = Some ga).
  { case_Qltb 0 rgq; [|eexists _, _; split; reflexivity].
    case_Qltb 0 pgq; [|eexists _, _; split; reflexivity].
    destruct (min_over_max_total rg pg rgq pgq Hrg Hpg E E0) as [q Hq].
    eexists _, _. split; [reflexivity|exact Hq]. }
  destruct Hga as (b & ga & -> & Hga). cbn [mbind option_bind].
  rewrite Hga. cbn [mbind option_bind].
  destruct (py_or_numlike s "free_cash_flow" 0 0 ltac:(numlike_field Hwt))
    as (fcf & fcfq & -> & Hfcf).
  cbn [mbind option_bind].
  rewrite (v_gt_as_num fcf (VNum 0) fcfq 0 Hfcf eq_refl). cbn [mbind option_bind].
  destruct (py_or_numlike s "dividend_yield" 0 0 ltac:(numlike_field Hwt))
    as (dy & dyq & -> & Hdy).
  cbn [mbind option_bind].
  rewrite (v_gt_as_num dy (VNum 0) dyq 0 Hdy eq_refl). cbn [mbind option_bind].
  eexists. reflexivity.
Qed.

(** *** Every branch of the dispatch returns *)

Section Branches.

Variable s : stock_data.

Variable criterion : gmap string pyobj.

Lemma eval_roe_total (value : pyobj) (good bad : Q) :
  criterion !! "good_threshold" = Some (VNum good) ->
  criterion !! "bad_threshold" = Some (VNum bad) ->
  exists v, eval_roe value criterion = Some v.
Proof.
  intros Hg Hb. unfold eval_roe.
  destruct (is_number value) eqn:N; [|eexists; reflexivity].
  rewrite Hg. cbn [mbind option_bind].
  destruct (v_gt_number value (VNum good) N eq_refl) as [r ->].
  cbn [mbind option_bind]. destruct r; [eexists; reflexivity|].
  rewrite Hb. cbn [mbind option_bind].
  destruct (v_gt_number value (VNum bad) N eq_refl) as [r ->].
  eexists; reflexivity.
Qed.

Lemma eval_debt_to_equity_total (value : pyobj) (excellent avoid : Q) :
  criterion !! "excellent_threshold" = Some (VNum excellent) ->
  criterion !! "avoid_threshold" = Some (VNum avoid) ->
  exists v, eval_debt_to_equity value criterion = Some v.
Proof.
  intros Hg Hb. unfold eval_debt_to_equity.
  destruct (is_number value) eqn:N; [|eexists; reflexivity].
  rewrite Hg. cbn [mbind option_bind].
  destruct (v_lt_number value (VNum excellent) N eq_refl) as [r ->].
  cbn [mbind option_bind]. destruct r; [eexists; reflexivity|].
  rewrite Hb. cbn [mbind option_bind].
  destruct (v_le_number value (VNum avoid) N eq_refl) as [r ->].
  eexists; reflexivity.
Qed.

Lemma eval_current_ratio_total (value : pyobj) (good bad : Q) :
  criterion !! "good_threshold" = Some (VNum good) ->
  criterion !! "bad_threshold" = Some (VNum bad) ->
  exists v, eval_current_ratio value criterion = Some v.
Proof.
  intros Hg Hb. unfold eval_current_ratio.
  destruct (is_number value) eqn:N; [|eexists; reflexivity].
  rewrite Hg. cbn [mbind option_bind].
  destruct (v_gt_number value (VNum good) N eq_refl) as [r ->].
  cbn [mbind option_bind]. destruct r; [eexists; reflexivity|].
  rewrite Hb. cbn [mbind option_bind].
  destruct (v_ge_number value (VNum bad) N eq_refl) as [r ->].
  eexists; reflexivity.
Qed.

Lemma currency_symbol_total :
  field_ok is_text s "currency" = true ->
  exists sym, currency_symbol_of (get s "currency" (VStr "INR")) = Some sym.
Proof.
  unfold field_ok, get. destruct (s !! "currency") as [v|].
  - destruct v; cbn; intros H; try discriminate. eexists; reflexivity.
  - intros _. eexists; reflexivity.
Qed.

Lemma eval_book_value_check_total :
  field_ok is_numlike s "book_value" = true ->
  field_ok is_numlike s "current_price" = true ->
  field_ok is_text s "currency" = true ->
  exists v, eval_book_value_check s = Some v.
Proof.
  intros Hbv Hcp Hcur. unfold eval_book_value_check.
  destruct (py_or_numlike s "book_value" 0 0 Hbv) as (bv & bvq & -> & Hb).
  destruct (py_or_numlike s "current_price" 0 0 Hcp) as (cp & cpq & -> & Hp).
  cbn [mbind option_bind].
  destruct (currency_symbol_total Hcur) as [sym ->]. cbn [mbind option_bind].
  rewrite (v_gt_as_num bv (VNum 0) bvq 0 Hb eq_refl). cbn [mbind option_bind].
  destruct (Qltb 0 bvq); [|eexists; reflexivity].
  rewrite (v_lt_as_num cp bv cpq bvq Hp Hb). eexists; reflexivity.
Qed.

Lemma eval_pe_ratio_total (fair_min fair_max okay_max : Q) :
  criterion !! "fair_min" = Some (VNum fair_min) ->
  criterion !! "fair_max" = Some (VNum fair_max) ->
  criterion !! "okay_max" = Some (VNum okay_max) ->
  exists v, eval_pe_ratio s criterion = Some v.
Proof.
  intros H1 H2 H3. unfold eval_pe_ratio.
  destruct (is_number (get s "pe_ratio" (VNum 0))) eqn:N;
    [|eexists; reflexivity].
  destruct (v_gt_number _ (VNum 0) N eq_refl) as [r ->].
  cbn [mbind option_bind]. destruct r; [|eexists; reflexivity].
  rewrite H1, H2, H3. unfold and_then. cbn [mbind option_bind].
  destruct (v_le_number (VNum fair_min) _ eq_refl N) as [r1 ->].
  destruct (v_le_number _ (VNum fair_max) N eq_refl) as [r2 ->].
  destruct (v_le_number _ (VNum okay_max) N eq_refl) as [r3 ->].
  cbn [mbind option_bind].
  destruct r1, r2; cbn [mbind option_bind]; eexists; reflexivity.
Qed.

Lemma eval_pb_ratio_total (good : Q) :
  criterion !! "good_threshold" = Some (VNum good) ->
  exists v, eval_pb_ratio s criterion = Some v.
Proof.
  intros H1. unfold eval_pb_ratio.
  destruct (is_number (get s "pb_ratio" (VNum 0))) eqn:N;
    [|eexists; reflexivity].
  destruct (v_gt_number _ (VNum 0) N eq_refl) as [r ->].
  cbn [mbind option_bind]. destruct r; [|eexists; reflexivity].
  rewrite H1. cbn [mbind option_bind].
  destruct (v_lt_number _ (VNum good) N eq_refl) as [r1 ->].
  destruct (v_lt_number _ (VNum 2.0) N eq_refl) as [r2 ->].
  cbn [mbind option_bind]. destruct r1; eexists; reflexivity.
Qed.

Lemma plain_number_field (k : string) (dflt : Q) :
  field_ok is_plain_number s k = true ->
  exists q, as_num (get s k (VNum dflt)) = Some q.
Proof.
  unfold field_ok, get. destruct (s !! k) as [v|].
  - apply is_plain_number_as_num.
  - intros _. eexists; reflexivity.
Qed.

Lemma eval_intrinsic_value_check_total (threshold iv : Q) :
  criterion !! "discount_threshold" = Some (VNum threshold) ->
  field_ok is_plain_number s "current_price" = true ->
  field_ok is_text s "currency" = true ->
  s !! "intrinsic_value" = Some (VNum iv) ->
  exists v, eval_intrinsic_value_check s criterion = Some v.
Proof.
  intros Ht Hcp Hcur Hiv. unfold eval_intrinsic_value_check.
  rewrite (get_lookup s _ _ _ Hiv).
  destruct (currency_symbol_total Hcur) as [sym ->]. cbn [mbind option_bind].
  destruct (plain_number_field "current_price" 0 Hcp) as [p Hp].
  unfold and_then.
  rewrite (v_gt_as_num _ (VNum 0) p 0 Hp eq_refl). cbn [mbind option_bind].
  rewrite v_gt_num.
  assert (Hb : exists b, (if Qltb 0 p then Some (Qltb 0 iv) else Some false) = Some b)
    by (destruct (Qltb 0 p); eexists; reflexivity).
  destruct Hb as [b ->]. cbn [mbind option_bind].
  destruct b; [|eexists; reflexivity].
  rewrite Hp, Ht. cbn [mbind option_bind as_num].
  eexists; reflexivity.
Qed.

Lemma eval_margin_total (value : pyobj) (good : Q) :
  criterion !! "good_threshold" = Some (VNum good) ->
  exists v, eval_margin value criterion = Some v.
Proof.
  intros Hg. unfold eval_margin.
  destruct (is_number value) eqn:N; [|eexists; reflexivity].
  rewrite Hg. cbn [mbind option_bind].
  destruct (v_gt_number value (VNum good) N eq_refl) as [r ->].
  cbn [mbind option_bind]. destruct r; [eexists; reflexivity|].
  cbn [v_mul as_num mbind option_bind].
  destruct (v_gt_number value (VNum (good * 0.7)) N eq_refl) as [r ->].
  eexists; reflexivity.
Qed.

(** [d.get(k1, 0) or d.get(k2, 0)]. *)
Lemma py_or_years :
  field_ok is_numlike s "revenue_growth_years" = true ->
  field_ok is_plain_number s "earnings_growth_years" = true ->
  exists v q,
    py_or (get s "revenue_growth_years" (VNum 0))
          (get s "earnings_growth_years" (VNum 0)) = Some v /\
    as_num v = Some q.
Proof.
  intros H1 H2.
  destruct (plain_number_field "earnings_growth_years" 0 H2) as [q2 Hq2].
  unfold field_ok in H1. unfold get at 1.
  destruct (s !! "revenue_growth_years") as [v|].
  - destruct v; cbn in H1 |- *; try discriminate.
    + eexists _, _. split; [reflexivity|exact Hq2].
    + destruct b; eexists _, _; (split; [reflexivity|]); [reflexivity|exact Hq2].
    + destruct (Qeq_bool q 0); eexists _, _; (split; [reflexivity|]);
        [exact Hq2|reflexivity].
  - cbn. eexists _, _. split; [reflexivity|exact Hq2].
Qed.

Lemma nonzero_as_num (v : pyobj) (q : Q) :
  as_num v = Some q -> nonzero v = Some (negb (Qeq_bool q 0)).
Proof. intros H. unfold nonzero. rewrite (as_num_as_np _ _ H). reflexivity. Qed.

(** The last test of the growth branch, whatever the three conditions
    are. *)
Lemma growth_known_total (y r p : bool) (shown : display) (status : string)
    (both : bool) :
  exists v,
    ((if y then Some true else (if r then Some true else Some p))
       ≫= (fun known : bool =>
             if known then Some (shown, status, both)
             else Some (DText "N/A (Data not available)", "caution", both)))
    = Some v.
Proof. destruct y, r, p; eexists; reflexivity. Qed.

Lemma eval_growth_alignment_total :
  field_ok is_numlike s "revenue_growth" = true ->
  field_ok is_numlike s "earnings_growth" = true ->
  field_ok is_numlike s "revenue_growth_years" = true ->
  field_ok is_plain_number s "earnings_growth_years" = true ->
  exists v, eval_growth_alignment s = Some v.
Proof.
  intros Hrg Heg Hy1 Hy2. unfold eval_growth_alignment.
  destruct (py_or_numlike s "revenue_growth" 0 0 Hrg) as (rg & rgq & -> & Hr).
  destruct (py_or_numlike s "earnings_growth" 0 0 Heg) as (pg & pgq & -> & Hp).
  destruct (py_or_years Hy1 Hy2) as (years & yq & -> & Hyq).
  cbn [mbind option_bind]. unfold and_then, or_else.
  rewrite (v_gt_as_num rg (VNum 0) rgq 0 Hr eq_refl),
    (v_gt_as_num pg (VNum 0) pgq 0 Hp eq_refl),
    (v_ge_as_num rg (VNum 0) rgq 0 Hr eq_refl),
    (v_ge_as_num pg (VNum 0) pgq 0 Hp eq_refl),
    (v_gt_as_num years (VNum 1) yq 1 Hyq eq_refl),
    (v_gt_as_num years (VNum 0) yq 0 Hyq eq_refl),
    (nonzero_as_num rg rgq Hr), (nonzero_as_num pg pgq Hp).
  cbn [mbind option_bind].
  case_Qltb 0 rgq; cbn [mbind option_bind].
  - case_Qltb 0 pgq; cbn [mbind option_bind].
    + destruct (min_over_max_total rg pg rgq pgq Hr Hp E E0) as [q ->].
      cbn [mbind option_bind].
      rewrite (v_lt_as_num (VNum q) (VNum 0.5) q 0.5 eq_refl eq_refl).
      cbn [mbind option_bind]. apply growth_known_total.
    + apply growth_known_total.
  - apply growth_known_total.
Qed.

Lemma eval_earnings_consistency_total :
  field_ok is_text s "currency" = true ->
  field_ok is_income_history s "net_income_history" = true ->
  exists v, eval_earnings_consistency s = Some v.
Proof.
  intros Hcur Hh. unfold eval_earnings_consistency.
  assert (Hhash : hashable (get s "currency" (VStr "INR")) = Some tt).
  { unfold field_ok in Hcur. unfold get.
    destruct (s !! "currency") as [v|]; [|reflexivity].
    destruct v; cbn in Hcur; try discriminate. reflexivity. }
  rewrite Hhash. cbn [mbind option_bind].
  assert (Hh' : is_income_history (get s "net_income_history" (VList [])) = true).
  { unfold field_ok in Hh. unfold get.
    destruct (s !! "net_income_history"); [exact Hh|reflexivity]. }
  destruct (get s "net_income_history" (VList [])); cbn in Hh'; try discriminate.
  - eexists; reflexivity.
  - destruct (negb (is_nil l) && (2 <=? length l)%nat); eexists; reflexivity.
Qed.

Lemma eval_peg_ratio_total (value : pyobj) (good : Q) :
  criterion !! "good_threshold" = Some (VNum good) ->
  exists v, eval_peg_ratio value criterion = Some v.
Proof.
  intros Hg. unfold eval_peg_ratio.
  destruct (is_number value) eqn:N; cbn [andb]; [|eexists; reflexivity].
  destruct (negb _); [|eexists; reflexivity].
  rewrite Hg. cbn [mbind option_bind].
  destruct (v_lt_number value (VNum good) N eq_refl) as [r ->].
  destruct (v_lt_number value (VNum 1.5) N eq_refl) as [r' ->].
  cbn [mbind option_bind]. destruct r; eexists; reflexivity.
Qed.

Lemma eval_earnings_growth_total (good : Q) :
  criterion !! "good_threshold" = Some (VNum good) ->
  exists v, eval_earnings_growth s criterion = Some v.
Proof.
  intros Hg. unfold eval_earnings_growth.
  destruct (is_number (get s "earnings_growth" (VNum 0))) eqn:N;
    [|eexists; reflexivity].
  rewrite Hg. cbn [mbind option_bind].
  destruct (v_gt_number _ (VNum good) N eq_refl) as [r ->].
  destruct (v_gt_number _ (VNum 0) N eq_refl) as [r' ->].
  cbn [mbind option_bind]. destruct r; eexists; reflexivity.
Qed.

Lemma eval_flag_total (value : pyobj) (yes no otherwise : string) :
  exists v, eval_flag value yes no otherwise = Some v.
Proof. unfold eval_flag. destruct value; eexists; reflexivity. Qed.

End Branches.

(** *** The dispatch on the fifteen criteria *)

(** Computes the lookups in a criterion of the table. *)
Ltac criterion_lookups :=
  repeat match goal with
         | |- context [@lookup string pyobj (gmap string pyobj) _ ?k (dict ?l)] =>
             let v := eval vm_compute in (dict l !! k) in
             change (dict l !! k) with v
         end.

(** Decides which branch of the dispatch a key selects. *)
Ltac key_tests :=
  repeat match goal with
         | |- context [String.eqb ?a ?b] =>
             let v := eval vm_compute in (String.eqb a b) in
             change (String.eqb a b) with v
         end;
  cbn [orb].

(** Finishes a criterion once its branch is known to return. *)
Ltac branch_returns lem :=
  let H := fresh "H" in
  let v := fresh "v" in
  lazymatch goal with
  | |- exists r, (?m ≫= ?k) = Some r =>
      assert (H : exists v, m = Some v)
        by (eapply lem; first [eassumption | vm_compute; reflexivity]);
      destruct H as [v ->]; cbn [mbind option_bind]; eexists; reflexivity
  end.

Lemma every_criterion_returns (s : stock_data) :
  scorable s ->
  Forall (fun c => exists r, _evaluate_criterion s c = Some r) buffett_criteria.
Proof.
  intros [Hbv Hpn Hp Hcur Hh Hrg Heg Hry Hey Hmc [iv Hiv]].
  unfold buffett_criteria, _initialize_buffett_criteria.
  repeat apply Forall_cons_2; try apply Forall_nil_2.
  all: unfold _evaluate_criterion; criterion_lookups;
    cbn [mbind option_bind hashable]; cbv zeta; cbv beta; key_tests; cbv iota.
  - branch_returns eval_roe_total.
  - branch_returns eval_debt_to_equity_total.
  - branch_returns eval_current_ratio_total.
  - branch_returns eval_book_value_check_total.
  - branch_returns eval_pe_ratio_total.
  - branch_returns eval_pb_ratio_total.
  - branch_returns eval_intrinsic_value_check_total.
  - branch_returns eval_margin_total.
  - branch_returns eval_growth_alignment_total.
  - branch_returns eval_margin_total.
  - branch_returns eval_peg_ratio_total.
  - branch_returns eval_earnings_growth_total.
  - branch_returns eval_earnings_consistency_total.
  - branch_returns eval_flag_total.
  - branch_returns eval_flag_total.
Qed.

Lemma count_passed_app (l1 l2 : list CriterionResult) :
  count_passed (l1 ++ l2) = (count_passed l1 + count_passed l2)%nat.
Proof. induction l1 as [|r l1 IH]; cbn; [reflexivity|]. rewrite IH. lia. Qed.

Lemma count_passed_le (l : list CriterionResult) : (count_passed l <= length l)%nat.
Proof. induction l as [|r l IH]; cbn; [lia|]. destruct (passed r); lia. Qed.

Lemma score_loop_none (s : stock_data) (l : list (gmap string pyobj)) :
  fold_left (score_criterion s) l None = None.
Proof. induction l as [|c l IH]; [reflexivity|exact IH]. Qed.

(** The loop appends one result per criterion, in order, and adds one to
    the score for each result that passed. *)
Lemma score_loop_inv (s : stock_data) (l : list (gmap string pyobj)) :
  forall (acc : list CriterionResult) (n : nat) (out : list CriterionResult * nat),
    fold_left (score_criterion s) l (Some (acc, n)) = Some out ->
    exists rs,
      out = (acc ++ rs, (n + count_passed rs)%nat) /\
      Forall2 (fun c r => _evaluate_criterion s c = Some r) l rs.
Proof.
  induction l as [|c l IH]; intros acc n out H.
  - cbn in H. injection H as <-. exists []. split.
    + rewrite app_nil_r. cbn. f_equal. lia.
    + constructor.
  - cbn [fold_left] in H. unfold score_criterion at 2 in H.
    cbn [mbind option_bind fst snd] in H.
    destruct (_evaluate_criterion s c) as [r|] eqn:Er; cbn [mbind option_bind] in H.
    + destruct (IH _ _ _ H) as (rs & -> & Hall).
      exists (r :: rs). split.
      * rewrite <- app_assoc. cbn [app count_passed]. f_equal.
        destruct (passed r); lia.
      * constructor; assumption.
    + rewrite score_loop_none in H. discriminate.
Qed.

Lemma score_loop_total (s : stock_data) (l : list (gmap string pyobj)) :
  Forall (fun c => exists r, _evaluate_criterion s c = Some r) l ->
  forall (acc : list CriterionResult) (n : nat),
    exists out, fold_left (score_criterion s) l (Some (acc, n)) = Some out.
Proof.
  induction 1 as [|c l [r Hr] _ IH]; intros acc n.
  - eexists; reflexivity.
  - cbn [fold_left]. unfold score_criterion at 2.
    cbn [mbind option_bind]. rewrite Hr. cbn [mbind option_bind]. apply IH.
Qed.

(** *** The recommendation returns *)

Lemma recommendation_total (s : stock_data) (score : nat) (iv : Q) :
  field_ok is_plain_number s "current_price" = true ->
  s !! "intrinsic_value" = Some (VNum iv) ->
  exists r, _generate_recommendation s score = Some r.
Proof.
  intros Hp Hiv. unfold _generate_recommendation.
  rewrite (get_lookup s _ _ _ Hiv).
  destruct (plain_number_field s "current_price" 0 Hp) as [p Hpq].
  unfold and_then.
  rewrite (v_gt_as_num _ (VNum 0) p 0 Hpq eq_refl), v_gt_num, Hpq.
  cbn [mbind option_bind as_num].
  assert (Hb : exists b, (if Qltb 0 p then Some (Qltb 0 iv) else Some false) = Some b)
    by (destruct (Qltb 0 p); eexists; reflexivity).
  destruct Hb as [b ->]. cbn [mbind option_bind].
  assert (Hm : exists m, (if b then Some (margin_formula p iv) else Some 0) = Some m)
    by (destruct b; eexists; reflexivity).
  destruct Hm as [m ->]. cbn [mbind option_bind].
  destruct ((12 <=? score)%nat && Qle_bool 20 m); [eexists; reflexivity|].
  destruct ((10 <=? score)%nat && Qle_bool 10 m); [eexists; reflexivity|].
  destruct ((8 <=? score)%nat || Qle_bool 0 m); eexists; reflexivity.
Qed.

(** *** What the update changes *)

Lemma update_keeps_other_keys (s d : gmap string pyobj) (k : string) :
  dom d = list_to_set derived_keys -> k ∉ derived_keys ->
  (d ∪ s) !! k = s !! k.
Proof.
  intros Hdom Hk. apply lookup_union_r.
  apply not_elem_of_dom. rewrite Hdom. rewrite elem_of_list_to_set. exact Hk.
Qed.

Lemma update_sets_derived_keys (s d : gmap string pyobj) (k : string) :
  dom d = list_to_set derived_keys -> k ∈ derived_keys ->
  (d ∪ s) !! k = d !! k /\ is_Some (d !! k).
Proof.
  intros Hdom Hk.
  assert (Hs : is_Some (d !! k)).
  { apply elem_of_dom. rewrite Hdom. apply elem_of_list_to_set. exact Hk. }
  split; [|exact Hs]. destruct Hs as [v Hv].
  rewrite Hv. apply lookup_union_Some_l. exact Hv.
Qed.

Lemma field_ok_update (test : pyobj -> bool) (s d : gmap string pyobj) (k : string) :
  dom d = list_to_set derived_keys -> k ∉ derived_keys ->
  field_ok test (d ∪ s) k = field_ok test s k.
Proof.
  intros Hdom Hk. unfold field_ok.
  rewrite (update_keeps_other_keys s d k Hdom Hk). reflexivity.
Qed.

(** Decides that a key is none of the derived ones. *)
Ltac not_derived := apply (bool_decide_unpack _); vm_compute; exact I.

Lemma well_typed_scorable (s d : gmap string pyobj) :
  well_typed s = true ->
  _calculate_derived_metrics s = Some d ->
  scorable (d ∪ s).
Proof.
  intros Hwt Hd.
  destruct (derived_metrics_shape s d Hd) as (Hdom & Hiv & _).
  pose proof Hwt as Hwt'. unfold well_typed in Hwt'.
  rewrite !andb_true_iff in Hwt'.
  destruct Hwt' as ((((_ & Hp) & Hey) & Hcur) & Hh).
  split.
  all: try (rewrite (field_ok_update _ s d _ Hdom) by not_derived).
  all: try assumption.
  all: try (numlike_field Hwt).
  destruct (dcf_value_total s ltac:(numlike_field Hwt) ltac:(numlike_field Hwt))
    as [iv Hv].
  exists iv.
  destruct (update_sets_derived_keys s d "intrinsic_value" Hdom) as [-> _].
  - apply (bool_decide_unpack _). vm_compute. exact I.
  - rewrite Hiv. exact Hv.
Qed.

(** What a returned result says about the run. *)
Lemma analyze_stock_inv (s : stock_data) (now : Z) (s' : stock_data)
    (r : AnalysisResult) :
  analyze_stock s now = (s', Some r) ->
  exists d st,
    _calculate_derived_metrics s = Some d /\
    s' = d ∪ s /\
    fold_left (score_criterion s') buffett_criteria (Some ([], 0%nat)) = Some st /\
    total_score r = st.2 /\ metrics r = st.1.
Proof.
  intros H. unfold analyze_stock in H.
  destruct (_calculate_derived_metrics s) as [d|];
    [|pose proof (f_equal snd H) as H2; discriminate H2].
  pose proof (f_equal fst H) as H1. pose proof (f_equal snd H) as H2.
  cbn [fst snd] in H1, H2. clear H. subst s'.
  bind_head H2 st Est. bind_head H2 rec Erec. bind_head H2 mc Emc.
  apply (f_equal (fun o => match o with Some x => x | None => r end)) in H2.
  subst r. exists d, st. repeat split; reflexivity || assumption.
Qed.

(** On a well-typed snapshot no step of the analysis raises. *)
Lemma analyze_stock_total (s : stock_data) (now : Z) :
  well_typed s = true -> exists s' r, analyze_stock s now = (s', Some r).
Proof.
  intros Hwt.
  destruct (derived_metrics_total s Hwt) as [d Hd].
  pose proof (well_typed_scorable s d Hwt Hd) as Hsc.
  unfold analyze_stock. rewrite Hd.
  destruct (score_loop_total _ _ (every_criterion_returns _ Hsc) [] 0%nat)
    as [st ->].
  cbn [mbind option_bind].
  destruct Hsc as [_ _ Hp _ _ _ _ _ _ Hmc [iv Hiv]].
  destruct (recommendation_total (d ∪ s) st.2 iv Hp Hiv) as [rec ->].
  cbn [mbind option_bind].
  destruct (py_or_numlike (d ∪ s) "market_cap" 0 0 Hmc) as (mc & q & -> & _).
  cbn [mbind option_bind]. eexists _, _. reflexivity.
Qed.

(** C1. The total score is the number of passed criteria, out of the
    fifteen of the table *)
Theorem total_score_counts_passed_criteria :
  (forall (s : stock_data) (now : Z) (s' : stock_data) (r : AnalysisResult),
     analyze_stock s now = (s', Some r) ->
     total_score r = count_passed (metrics r) /\
     (0 <= total_score r <= 15)%nat /\
     length (metrics r) = 15%nat /\
     length buffett_criteria = 15%nat /\
     Forall2 (fun c m => _evaluate_criterion s' c = Some m)
             buffett_criteria (metrics r)) /\
  (forall (s : stock_data) (now : Z),
     well_typed s = true ->
     exists s' r, analyze_stock s now = (s', Some r)).
Proof.
  split.
  - intros s now s' r H.
    destruct (analyze_stock_inv s now s' r H) as (d & st & _ & -> & Est & Hn & Hm).
    destruct st as [ms n]. cbn [fst snd] in *.
    destruct (score_loop_inv _ _ _ _ _ Est) as (rs & E & Hall).
    injection E as -> ->. rewrite Hm, Hn.
    cbn [fst snd app].
    pose proof (Forall2_length _ _ _ Hall) as Hlen.
    change (length buffett_criteria) with 15%nat in Hlen.
    pose proof (count_passed_le rs).
    repeat split; try assumption; try reflexivity; try lia.
  - intros s now Hwt. exact (analyze_stock_total s now Hwt).
Qed.

Lemma total_score_counts_passed_criteria_witness :
  well_typed sample_snapshot = true /\
  exists s' r,
    analyze_stock sample_snapshot 0 = (s', Some r) /\
    total_score r = count_passed (metrics r) /\
    (0 <= total_score r <= 15)%nat /\ length (metrics r) = 15%nat.
Proof.
  assert (Hwt : well_typed sample_snapshot = true) by (vm_compute; reflexivity).
  split; [exact Hwt|].
  destruct (proj2 total_score_counts_passed_criteria sample_snapshot 0%Z Hwt)
    as (s' & r & H).
  exists s', r. split; [exact H|].
  destruct (proj1 total_score_counts_passed_criteria _ _ _ _ H)
    as (H1 & H2 & H3 & _).
  split; [exact H1|]. split; [exact H2|exact H3].
Defined.

Lemma analyze_stock_clock (s : stock_data) (now now' : Z) :
  analyze_stock s now'
  = ((analyze_stock s now).1, with_timestamp now' <$> (analyze_stock s now).2).
Proof.
  unfold analyze_stock.
  destruct (_calculate_derived_metrics s) as [d|]; [|reflexivity].
  cbn [fst snd].
  destruct (fold_left _ _ _) as [st|]; [|reflexivity]. cbn [mbind option_bind].
  destruct (_generate_recommendation _ _) as [rec|]; [|reflexivity].
  cbn [mbind option_bind].
  destruct (py_or _ _) as [mc|]; reflexivity.
Qed.

(** C9, amended. The analysis writes the derived metrics into the
    snapshot it is given, leaves every other key as it was, and depends
    on the clock for the timestamp only *)
Theorem analysis_updates_snapshot_with_derived_metrics
    (s : stock_data) (now : Z) (s' : stock_data) (r : AnalysisResult)
    (H : analyze_stock s now = (s', Some r)) :
  exists d,
    _calculate_derived_metrics s = Some d /\
    s' = d ∪ s /\
    dom s' = list_to_set derived_keys ∪ dom s /\
    (forall k, k ∉ derived_keys -> s' !! k = s !! k) /\
    (forall k, k ∈ derived_keys -> s' !! k = d !! k /\ is_Some (s' !! k)) /\
    (forall now', analyze_stock s now' = (s', Some (with_timestamp now' r))).
Proof.
  destruct (analyze_stock_inv s now s' r H) as (d & st & Hd & -> & _).
  destruct (derived_metrics_shape s d Hd) as (Hdom & _).
  exists d. split; [exact Hd|]. split; [reflexivity|].
  split; [rewrite dom_union_L, Hdom; reflexivity|].
  split; [intros k Hk; apply update_keeps_other_keys; assumption|].
  split.
  - intros k Hk.
    destruct (update_sets_derived_keys s d k Hdom Hk) as [E Hs].
    split; [exact E|]. rewrite E. exact Hs.
  - intros now'. rewrite (analyze_stock_clock s now now'), H. reflexivity.
Qed.

Lemma analysis_updates_snapshot_with_derived_metrics_witness :
  exists s' r,
    analyze_stock sample_snapshot 0 = (s', Some r) /\
    (forall k, k ∉ derived_keys -> s' !! k = sample_snapshot !! k) /\
    (forall now', analyze_stock sample_snapshot now'
                  = (s', Some (with_timestamp now' r))).
Proof.
  assert (Hret : returned (analyze_stock sample_snapshot 0) = true)
    by (vm_compute; reflexivity).
  destruct (analyze_stock sample_snapshot 0) as [s' [r|]] eqn:H;
    [clear Hret|cbn in Hret; discriminate Hret].
  exists s', r.
  split; [reflexivity|].
  destruct (analysis_updates_snapshot_with_derived_metrics _ _ _ _ H)
    as (d & _ & _ & _ & Hk & _ & Hc).
  split; assumption.
Defined.

(** C9, as the specification states it, fails: the analysis adds keys to
    the dictionary it is given and replaces the free cash flow by a flag,
    so that a second analysis of the same dictionary values the company
    differently. *)
Lemma analysis_changes_its_input :
  first_run.1 <> sample_snapshot /\
  sample_snapshot !! "roe" = None /\
  first_run.1 !! "roe" = Some (VNum (900000000 # 50000000)) /\
  sample_snapshot !! "free_cash_flow" = Some (VNum 8000000) /\
  first_run.1 !! "free_cash_flow" = Some (VBool true) /\
  valuation_of first_run = Some (VNum 143.62, "Hold") /\
  valuation_of second_run = Some (VNum 20.00, "Avoid").
Proof.
  assert (Hroe : first_run.1 !! "roe" = Some (VNum (900000000 # 50000000)))
    by (vm_compute; reflexivity).
  split.
  { intros E. rewrite E in Hroe. revert Hroe. vm_compute. discriminate. }
  split; [vm_compute; reflexivity|].
  split; [exact Hroe|].
  split; [vm_compute; reflexivity|].
  split; [vm_compute; reflexivity|].
  split; vm_compute; reflexivity.
Qed.

(** * Further properties of the code *)

(** ** Reverse DCF: the guard, the search interval and the ends of it *)

(** X1. The reverse DCF returns [None] exactly when the price, the free
    cash flow or the share count is not positive *)
Theorem reverse_dcf_none_iff_nonpositive_input
    (current_price free_cash_flow shares_outstanding : Q)
    (discount_rate terminal_growth_rate : Q) (projection_years : nat) :
  calculate_reverse_dcf current_price free_cash_flow shares_outstanding
    discount_rate terminal_growth_rate projection_years = ReturnsNone
  <-> (current_price <= 0 \/ free_cash_flow <= 0 \/ shares_outstanding <= 0).
Proof.
  unfold calculate_reverse_dcf.
  case_Qle current_price 0; cbn [orb].
  { split; [intros _; left; assumption|reflexivity]. }
  case_Qle free_cash_flow 0; cbn [orb].
  { split; [intros _; right; left; assumption|reflexivity]. }
  case_Qle shares_outstanding 0; cbn [orb].
  { split; [intros _; right; right; assumption|reflexivity]. }
  split.
  - destruct (bisect _ _ _ _ _ _); discriminate.
  - intros [H|[H|H]]; lra.
Qed.

Lemma reverse_dcf_none_iff_nonpositive_input_witness :
  calculate_reverse_dcf 50 0 2 0.10 0.025 10 = ReturnsNone.
Proof.
  apply (proj2 (reverse_dcf_none_iff_nonpositive_input 50 0 2 0.10 0.025 10)).
  right. left. unfold Qle. cbn. lia.
Defined.




Lemma positive_inputs_pass_guard (p f sh : Q) :
  0 < p -> 0 < f -> 0 < sh ->
  Qle_bool p 0 || Qle_bool f 0 || Qle_bool sh 0 = false.
Proof.
  intros Hp Hf Hs.
  assert (G1 : Qle_bool p 0 = false) by (apply Qle_bool_gt; assumption).
  assert (G2 : Qle_bool f 0 = false) by (apply Qle_bool_gt; assumption).
  assert (G3 : Qle_bool sh 0 = false) by (apply Qle_bool_gt; assumption).
  rewrite G1, G2, G3. reflexivity.
Qed.







(** ** The constant-growth valuation *)

Lemma pow_pos (x : Q) (n : nat) : 0 < x -> 0 < pow x n.
Proof.
  intros Hx. induction n as [|n IH]; cbn [pow]; [reflexivity|].
  apply Qmult_lt_0_compat; assumption.
Qed.


Lemma Qdiv_nonneg (a d : Q) : 0 < d -> 0 <= a -> 0 <= a / d.
Proof.
  intros Hd Ha. unfold Qdiv. apply Qmult_le_0_compat; [exact Ha|].
  apply Qinv_le_0_compat. lra.
Qed.




(** The projection loop is linear in the cash flow it starts from. *)
Lemma dcf_loop_scales (c g r : Q) (years : list nat) :
  forall pv cf pv' cf' : Q,
    pv' == c * pv -> cf' == c * cf ->
    let st := fold_left (dcf_step g r) years (pv, cf) in
    let st' := fold_left (dcf_step g r) years (pv', cf') in
    fst st' == c * fst st /\ snd st' == c * snd st.
Proof.
  induction years as [|i years IH]; intros pv cf pv' cf' Hpv Hcf.
  - cbn. auto.
  - cbn [fold_left]. unfold dcf_step at 2 4. cbn [fst snd].
    apply IH.
    + rewrite Hpv, Hcf. unfold Qdiv. ring.
    + rewrite Hcf. ring.
Qed.

(** X5. The valuation is linear in the cash flow: [c] times the cash flow
    gives [c] times the value *)
Theorem dcf_value_scales_with_cash_flow
    (c fcf growth_rate discount_rate terminal_growth_rate : Q) (years : nat) (v : Q)
    (Hv : _calculate_dcf_value fcf growth_rate discount_rate terminal_growth_rate
            years = Some v) :
  exists v',
    _calculate_dcf_value (c * fcf) growth_rate discount_rate terminal_growth_rate
      years = Some v' /\
    v' == c * v.
Proof.
  unfold _calculate_dcf_value in *.
  destruct (divisors_ok discount_rate terminal_growth_rate years); [|discriminate].
  injection Hv as <-. eexists. split; [reflexivity|].
  destruct (dcf_loop_scales c growth_rate discount_rate (seq 1 years)
              0 fcf 0 (c * fcf) ltac:(ring) ltac:(reflexivity)) as [Hpv Hcf].
  cbv zeta in *. rewrite Hpv, Hcf. unfold Qdiv. ring.
Qed.

Lemma dcf_value_scales_with_cash_flow_witness :
  exists v v',
    _calculate_dcf_value 10 0.05 0.10 0.025 10 = Some v /\
    _calculate_dcf_value (3 * 10) 0.05 0.10 0.025 10 = Some v' /\
    v' == 3 * v.
Proof.
  eexists.
  destruct (dcf_value_scales_with_cash_flow 3 10 0.05 0.10 0.025 10 _ eq_refl)
    as (v' & Hv' & E).
  exists v'. split; [reflexivity|]. split; [exact Hv'|exact E].
Defined.

(** ** A price outside the range of the valuation *)

(** With the default rates the valuation grows with the growth rate
    between -100% and 100%. *)
Lemma dcf_default_monotone (fps g1 g2 : Q) :
  0 <= fps -> -1 <= g1 -> g1 <= g2 -> g2 <= 1 ->
  exists v1 v2,
    _calculate_dcf_value fps g1 0.10 0.025 10 = Some v1 /\
    _calculate_dcf_value fps g2 0.10 0.025 10 = Some v2 /\
    v1 <= v2.
Proof.
  intros Hf H1 H12 H2. rewrite !dcf_value_default.
  eexists _, _. split; [reflexivity|]. split; [reflexivity|].
  rewrite !dcf_at_poly.
  destruct (dcf_poly_monotone_lipschitz (1 + g1) (1 + g2)) as [Hm _]; try lra.
  nra.
Qed.

(** When every value on the way is below the price by the tolerance or
    more, the search moves its lower end at every turn and ends just
    under the upper end. *)
Lemma bisect_climbs (dcf : Q -> option Q) (price bottom high : Q) (n : nat) :
  (forall m, bottom <= m -> m <= high ->
             exists v, dcf m = Some v /\ v + tolerance <= price) ->
  forall low mid0 : Q,
    bottom <= low -> low <= high ->
    exists m,
      bisect (S n) dcf price low high mid0 = Some (m * 100) /\
      (high - m) * pow 2 (S n) == high - low.
Proof.
  intros Hall. induction n as [|n IH]; intros low mid0 Hbl Hlh.
  all: rewrite bisect_S.
  all: pose proof (half_sum low high) as Emid.
  all: set (mid := (low + high) / 2) in *.
  all: destruct (Hall mid ltac:(lra) ltac:(lra)) as (v & -> & Hv);
    cbn [mbind option_bind].
  all: unfold tolerance in *.
  all: assert (Ha : Qltb (Qabs (v - price)) 0.01 = false)
    by (apply Qltb_ge; rewrite Qabs_neg by lra; lra).
  all: assert (Hb : Qltb v price = true) by (apply Qltb_lt; lra).
  all: rewrite Ha, Hb.
  - exists mid. split; [reflexivity|]. cbn [pow]. rewrite Emid. ring.
  - destruct (IH mid mid ltac:(lra) ltac:(lra)) as (m & Hm & E).
    exists m. split; [exact Hm|].
    change (pow 2 (S (S n))) with (2 * pow 2 (S n)).
    assert (E2 : (high - m) * (2 * pow 2 (S n)) == 2 * ((high - m) * pow 2 (S n)))
      by ring.
    rewrite E2, E, Emid. ring.
Qed.

(** The mirror image: every value is above the price by the tolerance or
    more. *)
Lemma bisect_descends (dcf : Q -> option Q) (price low top : Q) (n : nat) :
  (forall m, low <= m -> m <= top ->
             exists v, dcf m = Some v /\ price + tolerance <= v) ->
  forall high mid0 : Q,
    low <= high -> high <= top ->
    exists m,
      bisect (S n) dcf price low high mid0 = Some (m * 100) /\
      (m - low) * pow 2 (S n) == high - low.
Proof.
  intros Hall. induction n as [|n IH]; intros high mid0 Hlh Hht.
  all: rewrite bisect_S.
  all: pose proof (half_sum low high) as Emid.
  all: set (mid := (low + high) / 2) in *.
  all: destruct (Hall mid ltac:(lra) ltac:(lra)) as (v & -> & Hv);
    cbn [mbind option_bind].
  all: unfold tolerance in *.
  all: assert (Ha : Qltb (Qabs (v - price)) 0.01 = false)
    by (apply Qltb_ge; rewrite Qabs_pos by lra; lra).
  all: assert (Hb : Qltb v price = false) by (apply Qltb_ge; lra).
  all: rewrite Ha, Hb.
  - exists mid. split; [reflexivity|]. cbn [pow]. rewrite Emid. ring.
  - destruct (IH mid mid ltac:(lra) ltac:(lra)) as (m & Hm & E).
    exists m. split; [exact Hm|].
    change (pow 2 (S (S n))) with (2 * pow 2 (S n)).
    assert (E2 : (m - low) * (2 * pow 2 (S n)) == 2 * ((m - low) * pow 2 (S n)))
      by ring.
    rewrite E2, E, Emid. ring.
Qed.

(** X6. A price the constant-growth valuation cannot reach is answered
    with an end of the search interval: within 0.01 of 100 percent when
    the price is above the value at 100 percent growth, within 0.01 of
    -50 percent when it is below the value at -50 percent *)
Theorem reverse_dcf_saturates_outside_model_range
    (current_price free_cash_flow shares_outstanding lo hi : Q)
    (Hp : 0 < current_price)
    (Hf : 0 < free_cash_flow)
    (Hs : 0 < shares_outstanding)
    (Hlo : _calculate_dcf_value (free_cash_flow / shares_outstanding) (-0.50)
             default_discount_rate default_terminal_growth_rate
             default_projection_years = Some lo)
    (Hhi : _calculate_dcf_value (free_cash_flow / shares_outstanding) 1.00
             default_discount_rate default_terminal_growth_rate
             default_projection_years = Some hi)
    (Hout : hi + 0.01 <= current_price \/ current_price + 0.01 <= lo) :
  exists g,
    calculate_reverse_dcf current_price free_cash_flow shares_outstanding
      default_discount_rate default_terminal_growth_rate
      default_projection_years = Returns g /\
    (hi + 0.01 <= current_price -> 99.99 < g <= 100) /\
    (current_price + 0.01 <= lo -> -50 <= g < -49.99).
Proof.
  unfold default_discount_rate, default_terminal_growth_rate,
    default_projection_years in *.
  set (fps := free_cash_flow / shares_outstanding) in *.
  assert (Hfps : 0 <= fps).
  { unfold fps. apply Qdiv_nonneg; lra. }
  unfold calculate_reverse_dcf.
  rewrite (positive_inputs_pass_guard _ _ _ Hp Hf Hs). fold fps.
  change 100%nat with (S 99).
  assert (Hpw : 0 < pow 2 (S 99)) by (apply pow_pos; reflexivity).
  assert (Hbig : 15000 < 0.01 * pow 2 (S 99))
    by (eval_const (pow 2 (S 99)); reflexivity).
  destruct Hout as [Habove|Hbelow].
  - destruct (bisect_climbs
                (fun mid => _calculate_dcf_value fps mid 0.10 0.025 10)
                current_price (-0.50) 1.00 99) with (low := -0.50) (mid0 := 0)
      as (m & Hm & E); [|lra|lra|].
    { intros mid Hbm Hmid.
      destruct (dcf_default_monotone fps mid 1.00)
        as (v1 & v2 & H1 & H2 & H12); try lra.
      rewrite Hhi in H2. injection H2 as <-.
      exists v1. split; [exact H1|]. unfold tolerance. lra. }
    rewrite Hm. exists (m * 100). split; [reflexivity|]. split.
    + intros _.
      assert (E' : (100 - m * 100) * pow 2 (S 99) == 150).
      { assert (Ex : (100 - m * 100) * pow 2 (S 99)
                     == 100 * ((1.00 - m) * pow 2 (S 99))) by ring.
        rewrite Ex, E. reflexivity. }
      nra.
    + intros Hc. exfalso.
      destruct (dcf_default_monotone fps (-0.50) 1.00)
        as (v1 & v2 & H1 & H2 & H12); try lra.
      rewrite Hlo in H1. rewrite Hhi in H2.
      injection H1 as <-. injection H2 as <-. lra.
  - destruct (bisect_descends
                (fun mid => _calculate_dcf_value fps mid 0.10 0.025 10)
                current_price (-0.50) 1.00 99) with (high := 1.00) (mid0 := 0)
      as (m & Hm & E); [|lra|lra|].
    { intros mid Hmid Hmt.
      destruct (dcf_default_monotone fps (-0.50) mid)
        as (v1 & v2 & H1 & H2 & H12); try lra.
      rewrite Hlo in H1. injection H1 as <-.
      exists v2. split; [exact H2|]. unfold tolerance. lra. }
    rewrite Hm. exists (m * 100). split; [reflexivity|]. split.
    + intros Hc. exfalso.
      destruct (dcf_default_monotone fps (-0.50) 1.00)
        as (v1 & v2 & H1 & H2 & H12); try lra.
      rewrite Hlo in H1. rewrite Hhi in H2.
      injection H1 as <-. injection H2 as <-. lra.
    + intros _.
      assert (E' : (m * 100 + 50) * pow 2 (S 99) == 150).
      { assert (Ex : (m * 100 + 50) * pow 2 (S 99)
                     == 100 * ((m - -0.50) * pow 2 (S 99))) by ring.
        rewrite Ex, E. reflexivity. }
      nra.
Qed.

Lemma reverse_dcf_saturates_outside_model_range_witness :
  exists g,
    calculate_reverse_dcf 1000000 10 1 0.10 0.025 10 = Returns g /\
    99.99 < g <= 100.
Proof.
  destruct (reverse_dcf_saturates_outside_model_range 1000000 10 1
              (dcf_at (10 / 1) (-0.50)) (dcf_at (10 / 1) 1.00))
    as (g & Hg & Hup & _); try reflexivity.
  - left. unfold Qle. vm_compute. discriminate.
  - exists g. split; [exact Hg|]. apply Hup.
    unfold Qle. vm_compute. discriminate.
Defined.

(** ** Piotroski F-Score: the tally *)

Lemma length_insert_desc (x : Z) (l : list Z) :
  length (insert_desc x l) = S (length l).
Proof.
  induction l as [|y l IH]; cbn [insert_desc]; [reflexivity|].
  destruct (y <=? x)%Z; cbn [length]; [reflexivity|]. rewrite IH. reflexivity.
Qed.

Lemma length_sorted_desc (l : list Z) : length (sorted_desc l) = length l.
Proof.
  induction l as [|x l IH]; [reflexivity|].
  cbn [sorted_desc foldr]. rewrite length_insert_desc. cbn [length]. f_equal. exact IH.
Qed.

(** X7. Without two years of statements the F-Score is 0 and no test is
    recorded *)
Theorem piotroski_zero_without_two_years
    (financials balance_sheet cash_flow : DataFrame)
    (H : empty financials = true \/ empty balance_sheet = true
         \/ empty cash_flow = true
         \/ (length (columns financials) < 2)%nat) :
  get_piotroski_f_score (VFrame financials) (VFrame balance_sheet)
    (VFrame cash_flow)
  = {| score := 0; details := ∅ |}.
Proof.
  unfold get_piotroski_f_score, piotroski_try, bind, lift, ret. cbn [frame_of].
  destruct (empty financials) eqn:E1; [reflexivity|].
  destruct (empty balance_sheet) eqn:E2; [reflexivity|].
  destruct (empty cash_flow) eqn:E3; [reflexivity|].
  destruct H as [H|[H|[H|H]]]; try discriminate.
  rewrite <- length_sorted_desc in H.
  destruct (sorted_desc (columns financials)) as [|t [|t_1 l]]; try reflexivity.
  cbn in H. lia.
Qed.

Lemma piotroski_zero_without_two_years_witness :
  get_piotroski_f_score (VFrame improving_income) (VFrame improving_balance)
    (VFrame empty_frame)
  = {| score := 0; details := ∅ |}.
Proof.
  apply piotroski_zero_without_two_years. right. right. left. reflexivity.
Defined.

Lemma passed_details_insert (d : gmap string bool) (label : string) (b : bool) :
  d !! label = None ->
  passed_details (<[label := b]> d)
  = if b then S (passed_details d) else passed_details d.
Proof.
  intros Hl. unfold passed_details. destruct b.
  - rewrite map_filter_insert_True by reflexivity.
    apply map_size_insert_None. apply map_lookup_filter_None. left. exact Hl.
  - rewrite map_filter_insert_False by (cbn; discriminate).
    rewrite delete_id by exact Hl. reflexivity.
Qed.

Section Tally.

Context {A B : Type}.

Lemma ends_ret (P E : fscore -> Prop) (x : A) : ends_in P (ret x) P E.
Proof. intros st H. exact H. Qed.

Lemma ends_lift (P E : fscore -> Prop) (o : option A) :
  (forall st, P st -> E st) -> ends_in P (lift o) P E.
Proof. intros HE st H. unfold lift. destruct o; auto. Qed.

Lemma ends_bind (P Q R E : fscore -> Prop) (m : Try A) (k : A -> Try B) :
  ends_in P m Q E -> (forall x, ends_in Q (k x) R E) -> ends_in P (bind m k) R E.
Proof.
  intros Hm Hk st H. unfold bind. specialize (Hm st H).
  destruct (m st) as [st' [x|]]; [|exact Hm].
  apply (Hk x st' Hm).
Qed.

Lemma ends_if (P Q E : fscore -> Prop) (c : bool) (m1 m2 : Try A) :
  ends_in P m1 Q E -> ends_in P m2 Q E -> ends_in P (if c then m1 else m2) Q E.
Proof. destruct c; auto. Qed.

Lemma ends_weaken (P Q Q' E : fscore -> Prop) (m : Try A) :
  ends_in P m Q E -> (forall st, Q st -> Q' st) -> ends_in P m Q' E.
Proof.
  intros Hm HQ st H. specialize (Hm st H).
  destruct (m st) as [st' [x|]]; auto.
Qed.

End Tally.

Lemma tallied_counted (ks : list string) (st : fscore) : tallied ks st -> counted st.
Proof. intros [H _]. exact H. Qed.

Lemma ends_check (ks : list string) (label : string) (b : bool) (E : fscore -> Prop) :
  label ∉ ks -> ends_in (tallied ks) (check label b) (tallied (label :: ks)) E.
Proof.
  intros Hl st [Hs Hd]. unfold check. split; cbn [score details].
  - rewrite passed_details_insert by (apply Hd; exact Hl).
    rewrite Hs. destruct b; reflexivity.
  - intros k Hk. rewrite not_elem_of_cons in Hk. destruct Hk as [Hne Hk].
    rewrite lookup_insert_ne by congruence. apply Hd. exact Hk.
Qed.

(** Follows a computation built from the combinators, one test at a time. *)
Ltac tally :=
  lazymatch goal with
  | |- ends_in (tallied ?ks) (bind (check ?l ?b) _) _ _ =>
      eapply ends_bind;
      [apply ends_check; apply (bool_decide_unpack _); vm_compute; exact I
      | intros ?; tally]
  | |- ends_in _ (bind (lift _) _) _ _ =>
      eapply ends_bind; [apply ends_lift; apply tallied_counted | intros ?; tally]
  | |- ends_in _ (bind (if _ then ret _ else lift _) _) _ _ =>
      eapply ends_bind;
      [apply ends_if; [apply ends_ret|apply ends_lift; apply tallied_counted]
      | intros ?; tally]
  | |- ends_in _ (if _ then _ else _) _ _ =>
      apply ends_if; tally
  | |- ends_in _ (ret _) _ _ =>
      eapply ends_weaken; [apply ends_ret|apply tallied_counted]
  | |- ends_in (tallied ?ks) (check ?l ?b) _ _ =>
      eapply ends_weaken;
      [apply ends_check; apply (bool_decide_unpack _); vm_compute; exact I
      | apply tallied_counted]
  | |- ends_in _ (match ?l with _ => _ end) _ _ =>
      destruct l; tally
  end.

Lemma piotroski_try_tallies (financials balance_sheet cash_flow : pyobj) :
  ends_in (tallied []) (piotroski_try financials balance_sheet cash_flow)
          counted counted.
Proof. unfold piotroski_try. tally. Qed.

(** X8. The F-Score is the number of tests recorded as passed in
    [details], also when an exception cuts the computation short *)
Theorem piotroski_score_counts_passed_details
    (financials balance_sheet cash_flow : pyobj) :
  let r := get_piotroski_f_score financials balance_sheet cash_flow in
  score r = passed_details (details r).
Proof.
  cbv zeta. unfold get_piotroski_f_score.
  pose proof (piotroski_try_tallies financials balance_sheet cash_flow
                {| score := 0; details := ∅ |}) as H.
  assert (H0 : tallied [] {| score := 0; details := ∅ |}).
  { split; [reflexivity|]. intros k _. apply lookup_empty. }
  specialize (H H0).
  destruct (piotroski_try _ _ _ _) as [st' [x|]]; exact H.
Qed.

(** ** ROIC *)

Lemma sorted_desc_nil (l : list Z) : sorted_desc l = [] -> l = [].
Proof.
  intros H. apply (f_equal length) in H. rewrite length_sorted_desc in H.
  destruct l; [reflexivity|discriminate].
Qed.

(** X9. ROIC is 100 times the net income over equity plus debt of the
    newest year, each read with its stand-in row; it is 0 when that
    capital is zero and when the statement has no columns *)
Theorem roic_of_latest_year (financials balance_sheet : DataFrame) :
  (columns financials = [] ->
   get_roic (VFrame financials) (VFrame balance_sheet) = Fin 0) /\
  (forall (t : Z) (older : list Z),
     sorted_desc (columns financials) = t :: older ->
     t ∈ columns balance_sheet ->
     let equity := np_or (item balance_sheet "Total Stockholder Equity" t)
                         (item balance_sheet "Stockholders Equity" t) in
     let debt := np_or (item balance_sheet "Long Term Debt" t)
                       (item balance_sheet "Total Debt" t) in
     let invested_capital := np_add equity debt in
     get_roic (VFrame financials) (VFrame balance_sheet)
     = if np_eqb invested_capital (Fin 0) then Fin 0
       else np_mul (np_div (item financials "Net Income" t) invested_capital)
                   (Fin 100)).
Proof.
  split.
  - intros H. unfold get_roic, roic_try. cbn [frame_of mbind option_bind].
    rewrite H. reflexivity.
  - intros t older Hs Ht. cbv zeta.
    assert (Hf : t ∈ columns financials).
    { apply elem_of_sorted_desc. rewrite Hs. apply elem_of_cons. left. reflexivity. }
    unfold get_roic, roic_try. cbn [frame_of mbind option_bind]. rewrite Hs.
    rewrite (get_val_item financials _ t Hf). cbn [mbind option_bind].
    rewrite !(get_val_item balance_sheet _ t Ht). cbn [mbind option_bind].
    unfold np_or.
    destruct (np_truthy (item balance_sheet "Total Stockholder Equity" t));
      cbn [mbind option_bind];
      destruct (np_truthy (item balance_sheet "Long Term Debt" t));
      cbn [mbind option_bind];
      destruct (np_eqb _ (Fin 0)); reflexivity.
Qed.

Lemma roic_of_latest_year_witness :
  get_roic (VFrame improving_income) (VFrame improving_balance)
  = np_mul (np_div (Fin 60) (Fin 200)) (Fin 100).
Proof.
  exact (proj2 (roic_of_latest_year improving_income improving_balance)
           2024%Z [2023%Z] eq_refl
           ltac:(apply (bool_decide_unpack _); vm_compute; exact I)).
Defined.

(** ** Altman Z-Score: what cannot be scored *)

Lemma loc_or_zero_present (df : DataFrame) (row : string) (t : Z) :
  in_index row df = true -> loc_or_zero df row t = loc df row t.
Proof. intros H. unfold loc_or_zero. rewrite H. reflexivity. Qed.

Lemma loc_or_zero_absent (df : DataFrame) (row : string) (t : Z) :
  in_index row df = false -> loc_or_zero df row t = Some (Fin 0).
Proof. intros H. unfold loc_or_zero. rewrite H. reflexivity. Qed.

Lemma loc_absent_row (df : DataFrame) (row : string) (t : Z) :
  in_index row df = false -> loc df row t = None.
Proof. intros H. unfold loc. rewrite H. reflexivity. Qed.

(** X10. The Z-score is 0 with zone Unknown when a statement is empty,
    when Total Assets is absent or zero, and when the financials have
    neither an EBIT nor a Pretax Income row *)
Theorem altman_unknown_on_missing_data
    (financials balance_sheet : DataFrame) (market_cap : pyobj)
    (H : empty financials = true
         \/ empty balance_sheet = true
         \/ in_index "Total Assets" balance_sheet = false
         \/ (exists t, head (columns financials) = Some t
                       /\ loc balance_sheet "Total Assets" t = Some (Fin 0))
         \/ (in_index "EBIT" financials = false
             /\ in_index "Pretax Income" financials = false)) :
  get_altman_z_score (VFrame financials) (VFrame balance_sheet) market_cap
  = {| z_score := Fin 0; zone := "Unknown" |}.
Proof.
  unfold get_altman_z_score, altman_try.
  destruct (altman_z _ _ _) as [[|z]|] eqn:E; try reflexivity.
  exfalso. unfold altman_z in E. cbn [frame_of mbind option_bind] in E.
  destruct (empty financials) eqn:E1; [discriminate|].
  destruct (empty balance_sheet) eqn:E2; [discriminate|].
  bind_head E t Et. bind_head E ta Eta.
  destruct (negb (np_truthy ta)) eqn:Etr; [discriminate|].
  destruct H as [H|[H|[H|[H|H]]]]; try discriminate.
  - rewrite (loc_or_zero_absent _ _ _ H) in Eta. injection Eta as <-.
    discriminate.
  - destruct H as (t' & Ht' & Hl). injection Ht' as <-.
    unfold loc_or_zero in Eta.
    destruct (in_index "Total Assets" balance_sheet);
      [rewrite Hl in Eta|]; injection Eta as <-; discriminate.
  - destruct H as [He Hp].
    bind_head E ca Eca. bind_head E cl Ecl. bind_head E re Ere.
    rewrite He, (loc_absent_row financials "Pretax Income" t Hp) in E.
    destruct (in_index "Interest Expense" financials); discriminate.
Qed.

Lemma altman_unknown_on_missing_data_witness :
  get_altman_z_score (VFrame improving_income) (VFrame improving_balance)
    (VNum 1000)
  = {| z_score := Fin 0; zone := "Unknown" |}.
Proof.
  apply altman_unknown_on_missing_data.
  right. right. right. right. split; reflexivity.
Defined.

Lemma np_div_nan (x : npfloat) : np_div x NaN = NaN.
Proof. destruct x; reflexivity. Qed.

(** X11. A Total Assets cell that is [nan] is not taken for missing: when
    the computation goes through, the score is [nan] and the zone is
    Distress *)
Theorem altman_nan_assets_reads_as_distress
    (financials balance_sheet : DataFrame) (market_cap : pyobj) (t : Z)
    (z : npfloat)
    (Ht : head (columns financials) = Some t)
    (Hrow : in_index "Total Assets" balance_sheet = true)
    (Hnan : loc balance_sheet "Total Assets" t = Some NaN)
    (Hz : altman_z (VFrame financials) (VFrame balance_sheet) market_cap
          = Some (Classified z)) :
  z = NaN /\
  get_altman_z_score (VFrame financials) (VFrame balance_sheet) market_cap
  = {| z_score := NaN; zone := "Distress (Red)" |}.
Proof.
  assert (E : z = NaN).
  { unfold altman_z in Hz. cbn [frame_of mbind option_bind] in Hz.
    destruct (empty financials); [discriminate|].
    destruct (empty balance_sheet); [discriminate|].
    rewrite Ht in Hz. cbn [mbind option_bind] in Hz.
    rewrite (loc_or_zero_present balance_sheet "Total Assets" t Hrow), Hnan in Hz.
    cbn [mbind option_bind np_truthy negb] in Hz.
    bind_head Hz ca Eca. bind_head Hz cl Ecl. bind_head Hz re Ere.
    bind_head Hz ebit Eebit. bind_head Hz liab Eliab. bind_head Hz sales Esales.
    bind_head Hz D ED. injection Hz as <-.
    rewrite !np_div_nan. reflexivity. }
  split; [exact E|].
  unfold get_altman_z_score, altman_try. rewrite Hz, E. reflexivity.
Qed.

Lemma altman_nan_assets_reads_as_distress_witness :
  get_altman_z_score (VFrame (sales_only_income 3)) (VFrame nan_assets_balance)
    (VNum 1000)
  = {| z_score := NaN; zone := "Distress (Red)" |}.
Proof.
  exact (proj2 (altman_nan_assets_reads_as_distress
                  (sales_only_income 3) nan_assets_balance (VNum 1000) 2024%Z NaN
                  eq_refl eq_refl eq_refl eq_refl)).
Defined.

(** ** Recommendation: the band and the margin *)

(** The margin of safety in terms of price and intrinsic value. *)
Lemma margin_of_cases (p iv : Q) :
  (0 < p /\ 0 < iv /\ margin_of p iv == (1 - p / iv) * 100
   /\ p / iv * iv == p /\ 0 < p / iv)
  \/ ((p <= 0 \/ iv <= 0) /\ margin_of p iv = 0).
Proof.
  unfold margin_of, margin_formula.
  case_Qltb 0 p; [|right; split; [left; assumption|reflexivity]].
  case_Qltb 0 iv; [|right; split; [right; assumption|reflexivity]].
  left. cbn [andb]. repeat split; try assumption; try reflexivity.
  - field. lra.
  - apply Qlt_shift_div_l; lra.
Qed.

(** What [_generate_recommendation] computes when price and intrinsic
    value are numbers. *)
Lemma recommendation_rows (s : stock_data) (score : nat) (p iv : Q) :
  get s "current_price" (VNum 0) = VNum p ->
  get s "intrinsic_value" (VNum p) = VNum iv ->
  exists r,
    _generate_recommendation s score = Some r /\
    current_price r = VNum p /\ intrinsic_value r = VNum iv /\
    margin_of_safety r = margin_of p iv /\
    target_price r = buy_price_max r /\
    let mos := margin_of p iv in
    (((12 <= score)%nat /\ 20 <= mos /\ rec_status r = "Buy"
      /\ buy_price_min r = p * 0.95 /\ buy_price_max r = p * 1.05)
     \/ ((10 <= score)%nat /\ 10 <= mos /\ rec_status r = "Buy"
         /\ buy_price_min r = p * 0.9 /\ buy_price_max r = p)
     \/ (((8 <= score)%nat \/ 0 <= mos) /\ ((score < 12)%nat \/ mos < 20)
         /\ ((score < 10)%nat \/ mos < 10) /\ rec_status r = "Hold"
         /\ buy_price_min r = iv * 0.8 * 0.9 /\ buy_price_max r = iv * 0.8)
     \/ ((score < 8)%nat /\ mos < 0 /\ rec_status r = "Avoid"
         /\ buy_price_min r = iv * 0.7 * 0.9 /\ buy_price_max r = iv * 0.7)).
Proof.
  intros Hp Hiv. unfold _generate_recommendation.
  rewrite Hp, Hiv. rewrite !v_gt_num. unfold and_then.
  cbn [mbind option_bind as_num].
  assert (Hm : (if Qltb 0 p then Some (Qltb 0 iv) else Some false)
               = Some (Qltb 0 p && Qltb 0 iv)) by (destruct (Qltb 0 p); reflexivity).
  rewrite Hm. cbn [mbind option_bind].
  assert (Hmos : (if Qltb 0 p && Qltb 0 iv then Some (margin_formula p iv) else Some 0)
                 = Some (margin_of p iv))
    by (unfold margin_of; destruct (Qltb 0 p && Qltb 0 iv); reflexivity).
  rewrite Hmos. cbn [mbind option_bind]. cbv zeta.
  set (mos := margin_of p iv).
  destruct (12 <=? score)%nat eqn:S12;
    [apply Nat.leb_le in S12 | apply Nat.leb_gt in S12];
    case_Qle 20 mos; cbn [andb];
    try (eexists; repeat (split; [reflexivity|]); left; repeat split;
         solve [assumption|reflexivity]).
  all: destruct (10 <=? score)%nat eqn:S10;
    [apply Nat.leb_le in S10 | apply Nat.leb_gt in S10];
    case_Qle 10 mos; cbn [andb];
    try (eexists; repeat (split; [reflexivity|]); right; left; repeat split;
         solve [assumption|reflexivity]).
  all: destruct (8 <=? score)%nat eqn:S8;
    [apply Nat.leb_le in S8 | apply Nat.leb_gt in S8];
    case_Qle 0 mos; cbn [orb mbind option_bind].
  all: eexists; repeat (split; [reflexivity|]).
  all: cbn [rec_status buy_price_min buy_price_max].
  all: first
    [ right; right; right; repeat split; solve [assumption|reflexivity|lia|lra]
    | right; right; left;
      split; [first [left; assumption|right; assumption]|];
      split; [first [left; lia|right; lra]|];
      split; [first [left; lia|right; lra]|];
      repeat split; reflexivity ].
Qed.

(** X12. With a non-negative intrinsic value the buy band is ordered and
    its upper end, which is also the target price, is at most 90% of the
    intrinsic value *)
Theorem buy_band_below_intrinsic_value
    (s : stock_data) (score : nat) (p iv : Q) (r : Recommendation)
    (Hp : s !! "current_price" = Some (VNum p))
    (Hiv : s !! "intrinsic_value" = Some (VNum iv))
    (Hpos : 0 <= iv)
    (Hr : _generate_recommendation s score = Some r) :
  buy_price_min r <= buy_price_max r /\
  buy_price_max r <= 0.9 * iv /\
  target_price r <= 0.9 * iv.
Proof.
  destruct (recommendation_rows s score p iv) as (r' & Hr' & _ & _ & _ & Ht & Hrows).
  { apply get_lookup. exact Hp. }
  { apply get_lookup. exact Hiv. }
  rewrite Hr in Hr'. injection Hr' as <-. rewrite Ht. cbv zeta in Hrows.
  destruct (margin_of_cases p iv) as [(P & I & E & Eq & Hq)|[Hz E]].
  - rewrite E in Hrows. set (q := p / iv) in *.
    destruct Hrows as [(_ & M & _ & -> & ->)|[(_ & M & _ & -> & ->)
                      |[(_ & _ & _ & _ & -> & ->)|(_ & _ & _ & -> & ->)]]];
      repeat split; nra.
  - rewrite E in Hrows.
    destruct Hrows as [(_ & M & _)|[(_ & M & _)
                      |[(_ & _ & _ & _ & -> & ->)|(_ & _ & _ & -> & ->)]]];
      try lra; repeat split; lra.
Qed.

Lemma buy_band_below_intrinsic_value_witness :
  exists r,
    _generate_recommendation scenario_snapshot 13 = Some r /\
    buy_price_min r <= buy_price_max r /\ buy_price_max r <= 0.9 * 150.
Proof.
  eexists. split; [reflexivity|].
  destruct (buy_band_below_intrinsic_value scenario_snapshot 13 100 150 _
              eq_refl eq_refl ltac:(unfold Qle; cbn; lia) eq_refl)
    as (H1 & H2 & _).
  split; [exact H1|exact H2].
Defined.

(** X13. Without an intrinsic value in the snapshot the price stands in
    for it, the margin of safety is 0 and the advice is Hold, whatever
    the score *)
Theorem recommendation_without_intrinsic_value_is_hold
    (s : stock_data) (score : nat) (p : Q)
    (Hp : s !! "current_price" = Some (VNum p))
    (Hiv : s !! "intrinsic_value" = None) :
  exists r,
    _generate_recommendation s score = Some r /\
    rec_status r = "Hold" /\
    intrinsic_value r = VNum p /\
    margin_of_safety r == 0 /\
    buy_price_max r = p * 0.8 /\ buy_price_min r = p * 0.8 * 0.9.
Proof.
  destruct (recommendation_rows s score p p) as (r & Hr & _ & Hi & Hm & _ & Hrows).
  { apply get_lookup. exact Hp. }
  { apply get_absent. exact Hiv. }
  exists r. split; [exact Hr|]. cbv zeta in Hrows.
  assert (Hz : margin_of p p == 0).
  { destruct (margin_of_cases p p) as [(P & _ & E & Eq & _)|[_ E]].
    - rewrite E. assert (Hq : p / p == 1) by (field; lra). rewrite Hq. ring.
    - rewrite E. reflexivity. }
  rewrite Hz in Hrows.
  destruct Hrows as [(_ & M & _)|[(_ & M & _)
                    |[(_ & _ & _ & St & -> & ->)|(_ & M & _)]]]; try lra.
  split; [exact St|]. split; [exact Hi|]. split; [rewrite Hm; exact Hz|].
  split; reflexivity.
Qed.

Lemma recommendation_without_intrinsic_value_is_hold_witness :
  exists r,
    _generate_recommendation (dict [("current_price", VNum 100)]) 15 = Some r /\
    rec_status r = "Hold".
Proof.
  destruct (recommendation_without_intrinsic_value_is_hold
              (dict [("current_price", VNum 100)]) 15 100 eq_refl eq_refl)
    as (r & Hr & Hs & _).
  exists r. split; [exact Hr|exact Hs].
Defined.

(** X14. The margin of safety is at most 100; Buy is advised only from
    10 points on and at a positive price of at most 90% of the intrinsic
    value, Avoid only under 8 points and at a price above a positive
    intrinsic value *)
Theorem recommendation_never_buys_without_discount
    (s : stock_data) (score : nat) (p iv : Q) (r : Recommendation)
    (Hp : s !! "current_price" = Some (VNum p))
    (Hiv : s !! "intrinsic_value" = Some (VNum iv))
    (Hr : _generate_recommendation s score = Some r) :
  margin_of_safety r <= 100 /\
  (rec_status r = "Buy" \/ rec_status r = "Hold" \/ rec_status r = "Avoid") /\
  (rec_status r = "Buy" ->
     (10 <= score)%nat /\ 0 < p /\ p <= 0.9 * iv) /\
  (rec_status r = "Avoid" ->
     (score < 8)%nat /\ 0 < iv /\ iv < p).
Proof.
  destruct (recommendation_rows s score p iv) as (r' & Hr' & _ & _ & Hm & _ & Hrows).
  { apply get_lookup. exact Hp. }
  { apply get_lookup. exact Hiv. }
  rewrite Hr in Hr'. injection Hr' as <-. rewrite Hm. cbv zeta in Hrows.
  destruct (margin_of_cases p iv) as [(P & I & E & Eq & Hq)|[Hz E]].
  - rewrite E in *. set (q := p / iv) in *.
    split; [nra|].
    destruct Hrows as [(S1 & M & -> & _)|[(S1 & M & -> & _)
                      |[(_ & _ & _ & -> & _)|(S1 & M & -> & _)]]].
    all: split; [tauto|]. 
    all: split; intros Hst; try discriminate Hst.
    all: split; [lia|]; split; nra.
  - rewrite E in *.
    split; [lra|].
    destruct Hrows as [(S1 & M & -> & _)|[(S1 & M & -> & _)
                      |[(_ & _ & _ & -> & _)|(S1 & M & -> & _)]]]; try lra.
    split; [tauto|]. split; intros Hst; discriminate Hst.
Qed.

Lemma recommendation_never_buys_without_discount_witness :
  exists r,
    _generate_recommendation scenario_snapshot 13 = Some r /\
    margin_of_safety r <= 100 /\
    (rec_status r = "Buy" -> (10 <= 13)%nat /\ 0 < 100 /\ 100 <= 0.9 * 150).
Proof.
  eexists. split; [reflexivity|].
  destruct (recommendation_never_buys_without_discount scenario_snapshot 13 100 150 _
              eq_refl eq_refl eq_refl) as (H1 & _ & H2 & _).
  split; [exact H1|exact H2].
Defined.

(** ** Technical indicators: the score and the verdict *)

(** One step of the scoring: names the pair the step computes and bounds
    its score. *)
Ltac score_step H bound :=
  lazymatch type of H with
  | match ?e with pair _ _ => _ end = Some _ =>
      let p := fresh "p" in
      let Ep := fresh "Ep" in
      let Hb := fresh "Hb" in
      remember e as p eqn:Ep in H;
      assert (Hb : (p.1 <= bound)%nat)
        by (rewrite Ep;
            repeat match goal with
                   | |- context [if ?c then _ else _] => destruct c
                   end;
            cbn [fst]; lia);
      clear Ep; destruct p as [? ?]; cbn [fst] in Hb
  end.

Section TechnicalScore.

Variable np_sqrt : Q -> Q.

Variable yf_history : pyobj -> option (list bar).

Lemma fallback_snapshot (current_price : pyobj) (r : TechnicalSnapshot) :
  _get_fallback_indicators current_price = Some r ->
  technical_score r = 50%nat /\ verdict r = "Data Not Available"
  /\ action r = "HOLD" /\ trend r = "Data Not Available"
  /\ signals r = ["Insufficient Data"].
Proof.
  unfold _get_fallback_indicators. intros H. bind_head H p Ep.
  injection H as <-. repeat split.
Qed.

Lemma technical_try_score (s : stock_data) (symbol current_price : pyobj)
    (r : TechnicalSnapshot) :
  technical_try np_sqrt yf_history s symbol current_price = Some r ->
  _get_fallback_indicators current_price = Some r
  \/ ((technical_score r <= 100)%nat
      /\ (verdict r, action r) = verdict_of_score (technical_score r)
      /\ trend r = verdict r).
Proof.
  intros H. unfold technical_try in H.
  bind_head H hist Eh.
  destruct (is_nil hist) eqn:En; [left; exact H|right].
  cbv zeta in H. bind_head H price Ep.
  score_step H 15%nat. score_step H 40%nat. score_step H 55%nat.
  score_step H 70%nat. score_step H 85%nat. score_step H 100%nat.
  match type of H with
  | match ?e with pair _ _ => _ end = Some _ =>
      match e with
      | (if (80 <=? ?n)%nat then _ else _) =>
          change e with (verdict_of_score n) in H;
          destruct (verdict_of_score n) as [v a] eqn:Ev
      end
  end.
  injection H as <-. cbn [technical_score verdict action trend].
  rewrite Ev. repeat split. assumption.
Qed.

(** X15. Every technical snapshot is either the fallback, with score 50
    and verdict Data Not Available, or has a score of at most 100 with
    the verdict and the action that go with it *)
Theorem technical_score_and_verdict (s : stock_data) (r : TechnicalSnapshot)
    (H : get_technical_indicators np_sqrt yf_history s = Some r) :
  trend r = verdict r /\
  ((technical_score r = 50%nat /\ verdict r = "Data Not Available"
    /\ action r = "HOLD" /\ signals r = ["Insufficient Data"])
   \/ ((technical_score r <= 100)%nat
       /\ ((80 <= technical_score r)%nat ->
             verdict r = "Strong Bullish" /\ action r = "BUY")
       /\ ((60 <= technical_score r < 80)%nat ->
             verdict r = "Bullish" /\ action r = "ACCUMULATE")
       /\ ((40 <= technical_score r < 60)%nat ->
             verdict r = "Neutral" /\ action r = "HOLD")
       /\ ((technical_score r < 40)%nat ->
             verdict r = "Bearish" /\ action r = "AVOID"))).
Proof.
  assert (Hfb : forall cp, _get_fallback_indicators cp = Some r ->
                  trend r = verdict r /\
                  (technical_score r = 50%nat /\ verdict r = "Data Not Available"
                   /\ action r = "HOLD" /\ signals r = ["Insufficient Data"])).
  { intros cp Hc. destruct (fallback_snapshot cp r Hc) as (A & B & C & D & E).
    split; [congruence|]. repeat split; assumption. }
  unfold get_technical_indicators in H. cbv zeta in H.
  bind_head H t Et.
  destruct (negb t).
  { destruct (Hfb _ H) as [A B]. split; [exact A|left; exact B]. }
  destruct (technical_try _ _ _ _ _) as [r'|] eqn:Etry.
  2: { destruct (Hfb _ H) as [A B]. split; [exact A|left; exact B]. }
  injection H as ->.
  destruct (technical_try_score _ _ _ _ Etry) as [Hc|(Hs & Hv & Ht)].
  { destruct (Hfb _ Hc) as [A B]. split; [exact A|left; exact B]. }
  split; [exact Ht|right]. split; [exact Hs|].
  unfold verdict_of_score in Hv.
  destruct (80 <=? technical_score r)%nat eqn:E80;
    [apply Nat.leb_le in E80|apply Nat.leb_gt in E80].
  { injection Hv as -> ->. repeat split; intros; try lia; reflexivity. }
  destruct (60 <=? technical_score r)%nat eqn:E60;
    [apply Nat.leb_le in E60|apply Nat.leb_gt in E60].
  { injection Hv as -> ->. repeat split; intros; try lia; reflexivity. }
  destruct (40 <=? technical_score r)%nat eqn:E40;
    [apply Nat.leb_le in E40|apply Nat.leb_gt in E40].
  { injection Hv as -> ->. repeat split; intros; try lia; reflexivity. }
  injection Hv as -> ->. repeat split; intros; try lia; reflexivity.
Qed.

End TechnicalScore.

Lemma technical_score_and_verdict_witness :
  exists r,
    get_technical_indicators unused_sqrt no_download one_row_snapshot = Some r /\
    trend r = verdict r.
Proof.
  eexists. split; [vm_compute; reflexivity|].
  refine (proj1 (technical_score_and_verdict unused_sqrt no_download
                   one_row_snapshot _ _)).
  vm_compute. reflexivity.
Defined.

(** ** Technical indicators: the range of the oscillators *)

Lemma Qeq_bool_true (x y : Q) : Qeq_bool x y = true <-> x == y.
Proof. apply Qeq_bool_iff. Qed.

Lemma Qeq_bool_false (x y : Q) : Qeq_bool x y = false <-> ~ x == y.
Proof.
  split.
  - intros H E. apply Qeq_bool_iff in E. congruence.
  - intros H. destruct (Qeq_bool x y) eqn:E; [|reflexivity].
    apply Qeq_bool_iff in E. contradiction.
Qed.

Lemma np_sum_nonneg_from (l : series) (a : Q) :
  0 <= a -> Forall nonneg l -> nonneg (fold_left np_add l (Fin a)).
Proof.
  intros Ha Hl. revert a Ha. induction Hl as [|x l (q & -> & Hq) _ IH]; intros a Ha.
  - exists a. split; [reflexivity|exact Ha].
  - cbn [fold_left np_add]. apply IH. lra.
Qed.

Lemma np_mean_nonneg (l : series) :
  Forall nonneg l -> np_mean l = NaN \/ nonneg (np_mean l).
Proof.
  intros Hl. destruct l as [|x l]; [left; reflexivity|right].
  unfold np_mean, np_sum, np_count.
  destruct (np_sum_nonneg_from (x :: l) 0 ltac:(lra) Hl) as (sum & -> & Hs).
  set (n := inject_Z (Z.of_nat (length (x :: l)))).
  assert (Hn : 0 < n).
  { unfold n. change 0 with (inject_Z 0). rewrite <- Zlt_Qlt. cbn [length]. lia. }
  cbn [np_div].
  assert (E : Qeq_bool n 0 = false) by (apply Qeq_bool_false; lra).
  rewrite E. exists (sum / n). split; [reflexivity|].
  apply Qdiv_nonneg; assumption.
Qed.

(** A window of non-negative values has a non-negative mean, when it has
    one. *)
Lemma rolling_mean_nonneg (n : nat) (l : series) :
  Forall nonneg l ->
  Forall (fun x => x = NaN \/ nonneg x) (rolling n np_mean l).
Proof.
  intros Hl. unfold rolling. apply Forall_map. apply Forall_forall.
  intros i _. unfold window.
  destruct (n <=? i + 1)%nat; [|left; reflexivity].
  apply np_mean_nonneg. apply Forall_take, Forall_drop. exact Hl.
Qed.

Lemma Forall_zip_with_both {A B C : Type} (f : A -> B -> C)
    (P : A -> Prop) (Q : B -> Prop) (R : C -> Prop) :
  (forall a b, P a -> Q b -> R (f a b)) ->
  forall (l : list A) (k : list B),
    Forall P l -> Forall Q k -> Forall R (zip_with f l k).
Proof.
  intros Hf l k Hl. revert k. induction Hl as [|a l Ha _ IH]; intros k Hk.
  - constructor.
  - destruct Hk as [|b k Hb Hk]; cbn [zip_with]; constructor; auto.
Qed.

Lemma gains_nonneg (delta : series) :
  Forall (fun d => is_finite d = true \/ d = NaN) delta ->
  Forall nonneg (where_or_zero (fun d => np_gtb d (Fin 0)) delta).
Proof.
  intros H. unfold where_or_zero. apply Forall_map.
  eapply Forall_impl; [exact H|]. intros d Hd; cbn beta.
  destruct d as [q| | |]; destruct Hd as [Hd|Hd]; try discriminate.
  - unfold np_gtb, np_ltb. case_Qltb 0 q.
    + exists q. split; [reflexivity|lra].
    + exists 0. split; [reflexivity|lra].
  - cbn. exists 0. split; [reflexivity|lra].
Qed.

Lemma losses_nonneg (delta : series) :
  Forall (fun d => is_finite d = true \/ d = NaN) delta ->
  Forall nonneg (map np_neg (where_or_zero (fun d => np_ltb d (Fin 0)) delta)).
Proof.
  intros H. unfold where_or_zero. apply Forall_map, Forall_map.
  eapply Forall_impl; [exact H|]. intros d Hd; cbn beta.
  destruct d as [q| | |]; destruct Hd as [Hd|Hd]; try discriminate.
  - unfold np_ltb. case_Qltb q 0.
    + exists (- q). split; [reflexivity|lra].
    + exists (- 0). split; [reflexivity|lra].
  - cbn. exists (- 0). split; [reflexivity|lra].
Qed.

Lemma diff_finite_or_nan (h : list bar) :
  Forall (fun d => is_finite d = true \/ d = NaN) (diff (closes h)).
Proof.
  unfold diff. destruct (closes h) as [|c l] eqn:E; [constructor|].
  constructor; [right; reflexivity|].
  assert (Hc : Forall (fun x => is_finite x = true) (closes h)).
  { unfold closes. apply Forall_map. apply Forall_forall. intros; reflexivity. }
  rewrite E in Hc.
  apply (Forall_zip_with_both np_sub (fun x => is_finite x = true)
           (fun x => is_finite x = true)).
  - intros [a| | |] [b| | |] Ha Hb; try discriminate. left. reflexivity.
  - apply Forall_inv_tail in Hc. exact Hc.
  - exact Hc.
Qed.

(** The index from a gain and a loss that are [nan] or not negative. *)
Lemma rsi_formula_range (gain loss : npfloat) :
  gain = NaN \/ nonneg gain -> loss = NaN \/ nonneg loss ->
  nan_or_percent
    (np_sub (Fin 100) (np_div (Fin 100) (np_add (Fin 1) (np_div gain loss)))).
Proof.
  intros [->|(g & -> & Hg)] [->|(l & -> & Hl)]; try (left; reflexivity).
  cbn [np_div]. destruct (Qeq_bool l 0) eqn:El.
  - case_Qltb 0 g.
    + right. exists (100 + - 0). split; [reflexivity|]. lra.
    + case_Qltb g 0; [lra|]. left. reflexivity.
  - apply Qeq_bool_false in El.
    assert (Hlp : 0 < l) by (destruct (Qlt_le_dec 0 l); [assumption|exfalso; apply El; lra]).
    pose proof (Qdiv_nonneg g l Hlp Hg) as Hrs.
    cbn [np_add np_div].
    assert (E1 : Qeq_bool (1 + g / l) 0 = false) by (apply Qeq_bool_false; lra).
    rewrite E1. cbn [np_sub np_neg np_add].
    right. eexists. split; [reflexivity|].
    assert (Hd : 0 < 1 + g / l) by lra.
    pose proof (Qdiv_nonneg 100 (1 + g / l) Hd ltac:(lra)) as H0.
    assert (H100 : 100 / (1 + g / l) <= 100).
    { apply Qle_shift_div_r; [exact Hd|]. nra. }
    lra.
Qed.

(** X16. Every value of the RSI column is [nan] or lies between 0 and
    100 *)
Theorem rsi_is_nan_or_within_0_100 (data : list bar) (period : nat) :
  Forall nan_or_percent (_calculate_rsi data period).
Proof.
  unfold _calculate_rsi. apply Forall_map.
  apply (Forall_zip_with_both np_div (fun x => x = NaN \/ nonneg x)
           (fun x => x = NaN \/ nonneg x)).
  - intros gain loss Hg Hl. apply rsi_formula_range; assumption.
  - apply rolling_mean_nonneg, gains_nonneg, diff_finite_or_nan.
  - apply rolling_mean_nonneg, losses_nonneg, diff_finite_or_nan.
Qed.

Lemma lookup_map {A B : Type} (f : A -> B) (l : list A) (i : nat) :
  map f l !! i = f <$> (l !! i).
Proof.
  revert i. induction l as [|x l IH]; intros [|i]; cbn; try reflexivity.
  apply IH.
Qed.

Lemma rolling_lookup (n : nat) (agg : series -> npfloat) (l : series)
    (i : nat) (v : npfloat) :
  rolling n agg l !! i = Some v ->
  (i < length l)%nat /\
  v = match window n l i with Some w => agg w | None => NaN end.
Proof.
  unfold rolling. rewrite lookup_map. intros H.
  destruct (seq 0 (length l) !! i) as [j|] eqn:E; [|discriminate].
  apply lookup_seq in E. destruct E as [-> Hi]. cbn in H.
  injection H as <-. split; [exact Hi|reflexivity].
Qed.

(** The value at position [i] is the last value of the window that ends
    there. *)
Lemma window_holds_current {A : Type} (n : nat) (l : list A) (i : nat)
    (w : list A) (x : A) :
  window n l i = Some w -> (0 < n)%nat -> l !! i = Some x -> x ∈ w.
Proof.
  unfold window. intros H Hn Hx.
  destruct (n <=? i + 1)%nat eqn:E; [|discriminate].
  apply Nat.leb_le in E. injection H as <-.
  apply (list_elem_of_lookup_2 _ (n - 1)%nat).
  rewrite lookup_take_lt by lia. rewrite lookup_drop.
  replace (i + 1 - n + (n - 1))%nat with i by lia. exact Hx.
Qed.

Lemma fold_min_finite (l : series) :
  Forall (fun x => is_finite x = true) l ->
  forall a : Q,
    exists m, fold_left np_min l (Fin a) = Fin m /\ m <= a
              /\ forall q, Fin q ∈ l -> m <= q.
Proof.
  induction 1 as [|x l Hx _ IH]; intros a.
  - exists a. split; [reflexivity|]. split; [lra|].
    intros q Hq. apply elem_of_nil in Hq. contradiction.
  - destruct x as [b| | |]; try discriminate.
    cbn [fold_left np_min np_leb].
    case_Qle a b.
    + destruct (IH a) as (m & Hm & Ha & Hall).
      exists m. split; [exact Hm|]. split; [exact Ha|].
      intros q Hq. apply elem_of_cons in Hq. destruct Hq as [[= ->]|Hq]; [lra|auto].
    + destruct (IH b) as (m & Hm & Ha & Hall).
      exists m. split; [exact Hm|]. split; [lra|].
      intros q Hq. apply elem_of_cons in Hq. destruct Hq as [[= ->]|Hq]; [lra|auto].
Qed.

Lemma fold_max_finite (l : series) :
  Forall (fun x => is_finite x = true) l ->
  forall a : Q,
    exists m, fold_left np_max l (Fin a) = Fin m /\ a <= m
              /\ forall q, Fin q ∈ l -> q <= m.
Proof.
  induction 1 as [|x l Hx _ IH]; intros a.
  - exists a. split; [reflexivity|]. split; [lra|].
    intros q Hq. apply elem_of_nil in Hq. contradiction.
  - destruct x as [b| | |]; try discriminate.
    cbn [fold_left np_max np_leb].
    case_Qle a b.
    + destruct (IH b) as (m & Hm & Ha & Hall).
      exists m. split; [exact Hm|]. split; [lra|].
      intros q Hq. apply elem_of_cons in Hq. destruct Hq as [[= ->]|Hq]; [lra|auto].
    + destruct (IH a) as (m & Hm & Ha & Hall).
      exists m. split; [exact Hm|]. split; [exact Ha|].
      intros q Hq. apply elem_of_cons in Hq. destruct Hq as [[= ->]|Hq]; [lra|auto].
Qed.

Lemma np_minimum_finite (w : series) (q : Q) :
  Forall (fun x => is_finite x = true) w -> Fin q ∈ w ->
  exists m, np_minimum w = Fin m /\ m <= q.
Proof.
  intros Hw Hq. destruct Hw as [|x w Hx Hw].
  - apply elem_of_nil in Hq. contradiction.
  - destruct x as [a| | |]; try discriminate. cbn [np_minimum].
    destruct (fold_min_finite w Hw a) as (m & Hm & Ha & Hall).
    exists m. split; [exact Hm|].
    apply elem_of_cons in Hq. destruct Hq as [[= ->]|Hq]; [exact Ha|auto].
Qed.

Lemma np_maximum_finite (w : series) (q : Q) :
  Forall (fun x => is_finite x = true) w -> Fin q ∈ w ->
  exists m, np_maximum w = Fin m /\ q <= m.
Proof.
  intros Hw Hq. destruct Hw as [|x w Hx Hw].
  - apply elem_of_nil in Hq. contradiction.
  - destruct x as [a| | |]; try discriminate. cbn [np_maximum].
    destruct (fold_max_finite w Hw a) as (m & Hm & Ha & Hall).
    exists m. split; [exact Hm|].
    apply elem_of_cons in Hq. destruct Hq as [[= ->]|Hq]; [exact Ha|auto].
Qed.

Lemma window_finite (n : nat) (l : series) (i : nat) (w : series) :
  Forall (fun x => is_finite x = true) l -> window n l i = Some w ->
  Forall (fun x => is_finite x = true) w.
Proof.
  unfold window. intros Hl H. destruct (n <=? i + 1)%nat; [|discriminate].
  injection H as <-. apply Forall_take, Forall_drop. exact Hl.
Qed.

Lemma column_finite (f : bar -> Q) (h : list bar) :
  Forall (fun x => is_finite x = true) (map (fun b => Fin (f b)) h).
Proof. apply Forall_map. apply Forall_forall. intros; reflexivity. Qed.

(** The rolling extreme at a position is [nan] or bounds the value
    there. *)
Lemma rolling_min_below (n : nat) (f : bar -> Q) (h : list bar) (i : nat)
    (b : bar) (v : npfloat) :
  h !! i = Some b ->
  rolling n np_minimum (map (fun b => Fin (f b)) h) !! i = Some v ->
  v = NaN \/ exists m, v = Fin m /\ m <= f b.
Proof.
  intros Hb Hv. apply rolling_lookup in Hv. destruct Hv as [_ ->].
  destruct (window n _ i) as [w|] eqn:Ew; [|left; reflexivity].
  destruct n as [|n].
  { unfold window in Ew. cbn in Ew. injection Ew as <-. left. reflexivity. }
  right. apply np_minimum_finite.
  - eapply window_finite; [apply column_finite|exact Ew].
  - eapply window_holds_current; [exact Ew|lia|].
    rewrite lookup_map, Hb. reflexivity.
Qed.

Lemma rolling_max_above (n : nat) (f : bar -> Q) (h : list bar) (i : nat)
    (b : bar) (v : npfloat) :
  h !! i = Some b ->
  rolling n np_maximum (map (fun b => Fin (f b)) h) !! i = Some v ->
  v = NaN \/ exists m, v = Fin m /\ f b <= m.
Proof.
  intros Hb Hv. apply rolling_lookup in Hv. destruct Hv as [_ ->].
  destruct (window n _ i) as [w|] eqn:Ew; [|left; reflexivity].
  destruct n as [|n].
  { unfold window in Ew. cbn in Ew. injection Ew as <-. left. reflexivity. }
  right. apply np_maximum_finite.
  - eapply window_finite; [apply column_finite|exact Ew].
  - eapply window_holds_current; [exact Ew|lia|].
    rewrite lookup_map, Hb. reflexivity.
Qed.

(** X17. When every close lies between the low and the high of its bar,
    every value of %K is [nan] or lies between 0 and 100 *)
Theorem stochastic_k_is_nan_or_within_0_100 (data : list bar) (period : nat)
    (Hbars : Forall close_within_range data) :
  Forall nan_or_percent (_calculate_stochastic data period).1.
Proof.
  unfold _calculate_stochastic. cbn [fst].
  apply Forall_lookup. intros i k Hk.
  apply lookup_zip_with_Some in Hk. destruct Hk as (c & lh & -> & Hc & Hlh).
  destruct lh as [lo hi]. unfold zip in Hlh.
  apply lookup_zip_with_Some in Hlh. destruct Hlh as (lo' & hi' & E & Hlo & Hhi).
  injection E as <- <-. cbn [fst snd].
  unfold closes in Hc. rewrite lookup_map in Hc.
  destruct (data !! i) as [b|] eqn:Hb; [|discriminate]. injection Hc as <-.
  pose proof (proj1 (Forall_lookup _ _) Hbars i b Hb) as [Hlc Hch].
  destruct (rolling_min_below period Low data i b lo Hb Hlo) as [->|(ml & -> & Hml)].
  { left. destruct hi; reflexivity. }
  destruct (rolling_max_above period High data i b hi Hb Hhi) as [->|(mh & -> & Hmh)].
  { left. reflexivity. }
  cbn [np_sub np_neg np_add np_div].
  destruct (Qeq_bool (mh + - ml) 0) eqn:E.
  - apply Qeq_bool_true in E. left.
    assert (E1 : Qltb 0 (Close b + - ml) = false) by (apply Qltb_ge; lra).
    assert (E2 : Qltb (Close b + - ml) 0 = false) by (apply Qltb_ge; lra).
    rewrite E1, E2. reflexivity.
  - apply Qeq_bool_false in E. right. cbn [np_mul].
    eexists. split; [reflexivity|].
    assert (Hd : 0 < mh + - ml).
    { destruct (Qlt_le_dec 0 (mh + - ml)); [assumption|]. exfalso. apply E. lra. }
    pose proof (Qdiv_nonneg (Close b + - ml) (mh + - ml) Hd ltac:(lra)) as H0.
    assert (H1 : (Close b + - ml) / (mh + - ml) <= 1).
    { apply Qle_shift_div_r; [exact Hd|]. lra. }
    lra.
Qed.

Lemma stochastic_k_is_nan_or_within_0_100_witness :
  Forall nan_or_percent (_calculate_stochastic flat_fortnight 14).1.
Proof.
  apply stochastic_k_is_nan_or_within_0_100.
  unfold flat_fortnight. cbn [repeat].
  repeat (apply Forall_cons_2; [split; cbn; lra|]). apply Forall_nil_2.
Defined.

(** ** Technical indicators: flat prices and short histories *)

Lemma ewm_from_constant (alpha c : Q) (l : series) :
  Forall (near c) l ->
  forall prev, near c prev -> Forall (near c) (ewm_from alpha prev l).
Proof.
  induction 1 as [|x l (q & -> & Hq) _ IH]; intros prev (p & -> & Hp);
    cbn [ewm_from]; constructor.
  - exists ((1 - alpha) * p + alpha * q). split; [reflexivity|].
    rewrite Hp, Hq. ring.
  - apply IH. exists ((1 - alpha) * p + alpha * q). split; [reflexivity|].
    rewrite Hp, Hq. ring.
Qed.

Lemma ewm_mean_constant (span : nat) (c : Q) (l : series) :
  Forall (near c) l -> Forall (near c) (ewm_mean span l).
Proof.
  intros H. destruct H as [|x l Hx Hl]; cbn [ewm_mean]; constructor.
  - exact Hx.
  - apply ewm_from_constant; assumption.
Qed.

Lemma latest_of_all (P : npfloat -> Prop) (l : series) :
  P NaN -> Forall P l -> P (latest l).
Proof.
  intros Hd Hl. unfold latest. induction Hl as [|x l Hx Hl IH]; [exact Hd|].
  destruct l as [|y l]; [exact Hx|]. exact IH.
Qed.

(** X18. On a price history whose closes are all equal the MACD line and
    the signal line are 0 on every row, and the MACD test of the score is
    not passed *)
Theorem macd_is_zero_on_flat_prices (data : list bar) (c : Q)
    (Hflat : Forall (fun b => Close b == c) data) :
  Forall (near 0) (_calculate_macd data).1 /\
  Forall (near 0) (_calculate_macd data).2 /\
  np_gtb (latest (_calculate_macd data).1) (latest (_calculate_macd data).2)
  = false.
Proof.
  assert (Hc : Forall (near c) (closes data)).
  { unfold closes. apply Forall_map. eapply Forall_impl; [exact Hflat|].
    intros b Hb. exists (Close b). split; [reflexivity|exact Hb]. }
  assert (H1 : Forall (near 0) (_calculate_macd data).1).
  { unfold _calculate_macd. cbn [fst].
    apply (Forall_zip_with_both np_sub (near c) (near c)).
    - intros a b (x & -> & Hx) (y & -> & Hy).
      exists (x + - y). split; [reflexivity|]. rewrite Hx, Hy. ring.
    - apply ewm_mean_constant. exact Hc.
    - apply ewm_mean_constant. exact Hc. }
  assert (H2 : Forall (near 0) (_calculate_macd data).2).
  { unfold _calculate_macd in *. cbn [fst snd] in *.
    apply ewm_mean_constant. exact H1. }
  split; [exact H1|]. split; [exact H2|].
  assert (L1 : latest (_calculate_macd data).1 = NaN
               \/ near 0 (latest (_calculate_macd data).1)).
  { apply (latest_of_all (fun x => x = NaN \/ near 0 x)); [left; reflexivity|].
    eapply Forall_impl; [exact H1|]. intros x Hx. right. exact Hx. }
  assert (L2 : latest (_calculate_macd data).2 = NaN
               \/ near 0 (latest (_calculate_macd data).2)).
  { apply (latest_of_all (fun x => x = NaN \/ near 0 x)); [left; reflexivity|].
    eapply Forall_impl; [exact H2|]. intros x Hx. right. exact Hx. }
  unfold np_gtb.
  destruct L2 as [->|(y & -> & Hy)]; [reflexivity|].
  destruct L1 as [->|(x & -> & Hx)]; [reflexivity|].
  cbn [np_ltb]. apply Qltb_ge. lra.
Qed.

Lemma macd_is_zero_on_flat_prices_witness :
  np_gtb (latest (_calculate_macd flat_fortnight).1)
         (latest (_calculate_macd flat_fortnight).2) = false.
Proof.
  apply (macd_is_zero_on_flat_prices flat_fortnight 10).
  unfold flat_fortnight. cbn [repeat].
  repeat (apply Forall_cons_2; [reflexivity|]). apply Forall_nil_2.
Defined.

Lemma latest_lookup (l : series) :
  latest l = match l !! (length l - 1)%nat with Some x => x | None => NaN end.
Proof.
  unfold latest. induction l as [|x l IH]; [reflexivity|].
  destruct l as [|y l]; [reflexivity|].
  change (List.last (x :: y :: l) NaN) with (List.last (y :: l) NaN).
  rewrite IH.
  replace (length (x :: y :: l) - 1)%nat with (S (length (y :: l) - 1))
    by (cbn [length]; lia).
  reflexivity.
Qed.

Lemma length_rolling (n : nat) (agg : series -> npfloat) (l : series) :
  length (rolling n agg l) = length l.
Proof. unfold rolling. rewrite length_map, length_seq. reflexivity. Qed.

(** A rolling aggregate is [nan] until the window is full. *)
Lemma rolling_warm_up (n : nat) (agg : series -> npfloat) (l : series) (i : nat) :
  (i < length l)%nat -> (i + 1 < n)%nat -> rolling n agg l !! i = Some NaN.
Proof.
  intros Hi Hn. unfold rolling. rewrite lookup_map.
  rewrite (lookup_seq_lt 0 (length l) i Hi). cbn. unfold window.
  assert (E : (n <=? i + 1)%nat = false) by (apply Nat.leb_gt; lia).
  rewrite E. reflexivity.
Qed.

Lemma latest_rolling_warm_up (n : nat) (agg : series -> npfloat) (l : series) :
  (length l < n)%nat -> latest (rolling n agg l) = NaN.
Proof.
  intros Hn. rewrite latest_lookup, length_rolling.
  destruct l as [|x l]; [reflexivity|].
  rewrite rolling_warm_up; [reflexivity| |]; cbn [length] in *; lia.
Qed.

Lemma np_gtb_nan (x : npfloat) : np_gtb x NaN = false.
Proof. destruct x; reflexivity. Qed.

(** One step of the scoring in a goal: names the pair the step computes,
    bounds its score and keeps the long-term signal out of its signals. *)
Ltac score_step_without_trend bound :=
  lazymatch goal with
  | |- exists r, match ?e with pair _ _ => _ end = Some r /\ _ =>
      let p := fresh "p" in
      let Ep := fresh "Ep" in
      let Hb := fresh "Hb" in
      remember e as p eqn:Ep;
      assert (Hb : (p.1 <= bound)%nat
                   /\ "Price > SMA200 (Long Term Bullish)" ∉ p.2)
        by (rewrite Ep;
            repeat match goal with
                   | |- context [if ?c then _ else _] => destruct c
                   end;
            cbn [fst snd]; (split; [lia|]);
            repeat (rewrite not_elem_of_app; split);
            first [ assumption
                  | apply not_elem_of_nil
                  | rewrite list_elem_of_singleton; discriminate ]);
      clear Ep; destruct p as [? ?]; cbn [fst snd] in Hb; destruct Hb
  end.

Section ShortHistory.

Variable np_sqrt : Q -> Q.

Variable yf_history : pyobj -> option (list bar).

(** X19. With fewer than 200 rows of history the 200-day average is
    [nan]: the snapshot is computed all the same, without the long-term
    signal and with a score of at most 85 *)
Theorem short_history_has_no_long_term_trend
    (s : stock_data) (h : list bar) (price : npfloat)
    (Hsym : truthy (get s "symbol" (VStr EmptyString)) = Some true)
    (Hhist : s !! "history" = Some (VHist h))
    (Hrows : (0 < length h < 200)%nat)
    (Hprice : as_np (get s "current_price" (VNum 0)) = Some price) :
  exists r,
    get_technical_indicators np_sqrt yf_history s = Some r /\
    sma_200 r = NaN /\
    (technical_score r <= 85)%nat /\
    "Price > SMA200 (Long Term Bullish)" ∉ signals r.
Proof.
  assert (Hnil : is_nil h = false) by (destruct h; [cbn in Hrows; lia|reflexivity]).
  assert (Hsma : latest (rolling 200 np_mean (closes h)) = NaN).
  { apply latest_rolling_warm_up. unfold closes. rewrite length_map. lia. }
  assert (Hgoal : exists r,
            technical_try np_sqrt yf_history s (get s "symbol" (VStr EmptyString))
              (get s "current_price" (VNum 0)) = Some r /\
            sma_200 r = NaN /\
            (technical_score r <= 85)%nat /\
            "Price > SMA200 (Long Term Bullish)" ∉ signals r).
  { unfold technical_try, history_of. rewrite Hhist, Hnil.
    cbn [mbind option_bind]. rewrite Hnil. cbv zeta. rewrite Hprice.
    cbn [mbind option_bind]. rewrite Hsma, np_gtb_nan. cbv iota.
    score_step_without_trend 25%nat.
    score_step_without_trend 40%nat.
    score_step_without_trend 55%nat.
    score_step_without_trend 70%nat.
    score_step_without_trend 85%nat.
    match goal with
    | |- exists r, match ?e with pair _ _ => _ end = Some r /\ _ =>
        destruct e as [v a]
    end.
    eexists. split; [reflexivity|].
    cbn [sma_200 technical_score signals np_round2].
    split; [reflexivity|]. split; assumption. }
  destruct Hgoal as (r & Hr & Hs).
  exists r. split; [|exact Hs].
  unfold get_technical_indicators. cbv zeta. rewrite Hsym.
  cbn [mbind option_bind negb]. rewrite Hr. reflexivity.
Qed.

End ShortHistory.

Lemma short_history_has_no_long_term_trend_witness :
  exists r,
    get_technical_indicators unused_sqrt no_download one_row_snapshot = Some r /\
    sma_200 r = NaN.
Proof.
  destruct (short_history_has_no_long_term_trend unused_sqrt no_download
              one_row_snapshot
              [ {| Open := 99; High := 101; Low := 98; Close := 100;
                   Volume := 5000 |} ] (Fin 100))
    as (r & Hr & Hs & _); try reflexivity.
  - cbn. lia.
  - exists r. split; assumption.
Defined.

(** ** Derived metrics: defaults and guards *)

(** Reads off a key of the dictionary the function has built. *)
Ltac derived_lookup :=
  repeat (rewrite lookup_insert_ne by discriminate);
  rewrite lookup_insert_eq.

Lemma py_or_number (q d : Q) :
  exists x, py_or (VNum q) (VNum d) = Some (VNum x)
            /\ (~ q == 0 -> x = q) /\ (q == 0 -> x = d).
Proof.
  unfold py_or. cbn [truthy mbind option_bind].
  destruct (Qeq_bool q 0) eqn:E; cbn [negb].
  - apply Qeq_bool_true in E. exists d. split; [reflexivity|].
    split; [intros H; contradiction|reflexivity].
  - apply Qeq_bool_false in E. exists q. split; [reflexivity|].
    split; [reflexivity|intros H; contradiction].
Qed.

(** X20. A snapshot without equity figure, or with an equity of zero, is
    treated as having an equity of 1: the debt-to-equity ratio is the
    debt itself and the return on equity 100 times the net income *)
Theorem missing_equity_counts_as_one
    (s : stock_data) (d : gmap string pyobj) (debt income : Q)
    (Hequity : s !! "total_stockholder_equity" = None
               \/ s !! "total_stockholder_equity" = Some VNone
               \/ s !! "total_stockholder_equity" = Some (VNum 0))
    (Hdebt : s !! "total_debt" = Some (VNum debt))
    (Hincome : s !! "net_income" = Some (VNum income))
    (Hd : _calculate_derived_metrics s = Some d) :
  exists x y,
    d !! "debt_to_equity" = Some (VNum x) /\ x == debt /\
    d !! "roe" = Some (VNum y) /\ y == income * 100.
Proof.
  unfold _calculate_derived_metrics in Hd.
  rewrite (get_lookup s _ _ _ Hdebt), (get_lookup s _ _ _ Hincome) in Hd.
  assert (He : py_or (get s "total_stockholder_equity" (VNum 1)) (VNum 1)
               = Some (VNum 1)).
  { destruct Hequity as [H|[H|H]].
    - rewrite (get_absent s _ _ H). reflexivity.
    - rewrite (get_lookup s _ _ _ H). reflexivity.
    - rewrite (get_lookup s _ _ _ H). reflexivity. }
  rewrite He in Hd.
  destruct (py_or_number debt 0) as (td & Etd & Htd1 & Htd2).
  destruct (py_or_number income 0) as (ni & Eni & Hni1 & Hni2).
  rewrite Etd, Eni in Hd. cbn [mbind option_bind] in Hd.
  change (v_gt (VNum 1) (VNum 0)) with (Some true) in Hd.
  cbn [mbind option_bind] in Hd.
  repeat bind_next Hd. cbv zeta in Hd. injection Hd as <-.
  match goal with
  | E : v_div (VNum td) (VNum 1) = Some ?x |- _ =>
      unfold v_div in E; cbn [as_num mbind option_bind] in E;
      change (Qeq_bool 1 0) with false in E; injection E as <-
  end.
  match goal with
  | E : percent_if_positive (VNum ni) (VNum 1) (VNum 1) = Some ?x |- _ =>
      unfold percent_if_positive, v_div, v_mul in E;
      change (v_gt (VNum 1) (VNum 0)) with (Some true) in E;
      cbn [as_num mbind option_bind] in E;
      change (Qeq_bool 1 0) with false in E;
      cbn [as_num mbind option_bind] in E; injection E as <-
  end.
  exists (td / 1), (ni / 1 * 100).
  split; [derived_lookup; reflexivity|].
  split.
  { destruct (Qeq_dec debt 0) as [E|E].
    - rewrite (Htd2 E), E. reflexivity.
    - rewrite (Htd1 E). field. }
  split; [derived_lookup; reflexivity|].
  destruct (Qeq_dec income 0) as [E|E].
  - rewrite (Hni2 E), E. reflexivity.
  - rewrite (Hni1 E). field.
Qed.

Lemma missing_equity_counts_as_one_witness :
  exists d x,
    _calculate_derived_metrics no_equity_snapshot = Some d /\
    d !! "debt_to_equity" = Some (VNum x) /\ x == 40.
Proof.
  assert (Hret : match _calculate_derived_metrics no_equity_snapshot with
                 | Some _ => true | None => false end = true)
    by (vm_compute; reflexivity).
  destruct (_calculate_derived_metrics no_equity_snapshot) as [d|] eqn:Hd;
    [clear Hret|discriminate Hret].
  destruct (missing_equity_counts_as_one no_equity_snapshot d 40 5
              (or_introl eq_refl) eq_refl eq_refl Hd) as (x & y & Hx & Ex & _).
  exists d, x. split; [reflexivity|]. split; assumption.
Defined.

(** With a negative equity the two ratios on equity get their
    substitutes. *)
Lemma negative_equity_metrics (s : stock_data) (d : gmap string pyobj) (e : Q) :
  s !! "total_stockholder_equity" = Some (VNum e) -> e < 0 ->
  _calculate_derived_metrics s = Some d ->
  d !! "debt_to_equity" = Some VInf /\ d !! "roe" = Some (VNum 0).
Proof.
  intros He Hneg Hd. unfold _calculate_derived_metrics in Hd.
  rewrite (get_lookup s _ _ _ He) in Hd.
  destruct (py_or_number e 1) as (x & Ex & Hx & _).
  rewrite (Hx ltac:(lra)) in Ex. rewrite Ex in Hd.
  assert (Hgt : v_gt (VNum e) (VNum 0) = Some false).
  { rewrite v_gt_num. f_equal. apply Qltb_ge. lra. }
  bind_next Hd. cbn [mbind option_bind] in Hd. rewrite Hgt in Hd.
  cbn [mbind option_bind] in Hd.
  repeat bind_next Hd. cbv zeta in Hd. injection Hd as <-.
  match goal with
  | E : percent_if_positive _ (VNum e) (VNum e) = Some ?x |- _ =>
      unfold percent_if_positive in E; rewrite Hgt in E;
      cbn [mbind option_bind] in E; injection E as <-
  end.
  split; derived_lookup; reflexivity.
Qed.

(** Computes the lookups in a criterion of the table, in a hypothesis. *)
Ltac criterion_lookups_in H :=
  repeat match type of H with
         | context [@lookup string pyobj (gmap string pyobj) _ ?k (dict ?l)] =>
             let v := eval vm_compute in (dict l !! k) in
             change (dict l !! k) with v in H
         end.

Ltac key_tests_in H :=
  repeat match type of H with
         | context [String.eqb ?a ?b] =>
             let v := eval vm_compute in (String.eqb a b) in
             change (String.eqb a b) with v in H
         end;
  cbn [orb] in H.

(** Brings the evaluation of a criterion of the table to its branch. *)
Ltac to_branch H :=
  unfold _evaluate_criterion in H; criterion_lookups_in H;
  cbn [mbind option_bind hashable] in H; cbv zeta in H; cbv beta in H;
  key_tests_in H; cbv iota in H.

(** X21. A company with negative equity gets an infinite debt-to-equity
    ratio and a return on equity of 0, and fails the first two criteria
    of the table with status poor *)
Theorem negative_equity_fails_roe_and_leverage
    (s : stock_data) (now : Z) (s' : stock_data) (r : AnalysisResult) (e : Q)
    (He : s !! "total_stockholder_equity" = Some (VNum e))
    (Hneg : e < 0)
    (Hr : analyze_stock s now = (s', Some r)) :
  s' !! "debt_to_equity" = Some VInf /\
  s' !! "roe" = Some (VNum 0) /\
  exists roe_result leverage_result rest,
    metrics r = roe_result :: leverage_result :: rest /\
    name roe_result = VStr "Return on Equity (ROE)" /\
    passed roe_result = false /\ status roe_result = "poor" /\
    name leverage_result = VStr "Debt-to-Equity Ratio" /\
    passed leverage_result = false /\ status leverage_result = "poor".
Proof.
  destruct (analyze_stock_inv s now s' r Hr) as (d & st & Hd & -> & Hst & _ & Hm).
  destruct (derived_metrics_shape s d Hd) as (Hdom & _).
  destruct (negative_equity_metrics s d e He Hneg Hd) as [Hde Hroe].
  assert (Hde' : (d ∪ s) !! "debt_to_equity" = Some VInf)
    by (apply lookup_union_Some_l; exact Hde).
  assert (Hroe' : (d ∪ s) !! "roe" = Some (VNum 0))
    by (apply lookup_union_Some_l; exact Hroe).
  split; [exact Hde'|]. split; [exact Hroe'|].
  destruct st as [ms n]. cbn [fst] in Hm.
  destruct (score_loop_inv _ _ _ _ _ Hst) as (rs & E & Hall).
  injection E as -> _. cbn [app] in Hm.
  unfold buffett_criteria, _initialize_buffett_criteria in Hall.
  apply Forall2_cons_inv_l in Hall. destruct Hall as (m1 & rs1 & H1 & Hall & ->).
  apply Forall2_cons_inv_l in Hall. destruct Hall as (m2 & rs2 & H2 & _ & ->).
  exists m1, m2, rs2. split; [exact Hm|].
  to_branch H1. rewrite (get_lookup _ _ _ _ Hroe') in H1.
  to_branch H2. rewrite (get_lookup _ _ _ _ Hde') in H2.
  unfold eval_roe in H1. cbn [is_number] in H1. criterion_lookups_in H1.
  cbn [mbind option_bind] in H1. rewrite !v_gt_num in H1.
  change (Qltb 15 0) with false in H1. change (Qltb 10 0) with false in H1.
  cbn [mbind option_bind fst snd] in H1. injection H1 as <-.
  unfold eval_debt_to_equity in H2. cbn [is_number] in H2. criterion_lookups_in H2.
  cbn [mbind option_bind] in H2.
  change (v_lt VInf (VNum 0.5)) with (Some false) in H2.
  change (v_le VInf (VNum 1.0)) with (Some false) in H2.
  cbn [mbind option_bind fst snd] in H2. injection H2 as <-.
  repeat split.
Qed.

Lemma negative_equity_fails_roe_and_leverage_witness :
  exists s' r,
    analyze_stock negative_equity_snapshot 0 = (s', Some r) /\
    s' !! "debt_to_equity" = Some VInf /\ s' !! "roe" = Some (VNum 0).
Proof.
  assert (Hret : returned (analyze_stock negative_equity_snapshot 0) = true)
    by (vm_compute; reflexivity).
  destruct (analyze_stock negative_equity_snapshot 0) as [s' [r|]] eqn:H;
    [clear Hret|cbn in Hret; discriminate Hret].
  exists s', r. split; [reflexivity|].
  destruct (negative_equity_fails_roe_and_leverage negative_equity_snapshot 0
              s' r (-500) eq_refl ltac:(reflexivity) H) as (H1 & H2 & _).
  split; assumption.
Defined.







(** ** Intrinsic value: the fallback and the cap on growth *)

Lemma or_else_right_true (a : option bool) (b : bool) :
  or_else a (Some true) = Some b -> b = true.
Proof.
  unfold or_else. destruct a as [[|]|]; cbn; intros H; congruence.
Qed.

(** X24. Without a positive share count the intrinsic value is the simple
    estimate: twelve times the earnings per share when these are
    positive, else 80% of the price *)
Theorem dcf_without_share_count_is_simple_estimate
    (s : stock_data) (p eps : Q)
    (Hshares : s !! "shares_outstanding" = None
               \/ s !! "shares_outstanding" = Some VNone
               \/ exists q, s !! "shares_outstanding" = Some (VNum q) /\ q <= 0)
    (Hp : s !! "current_price" = Some (VNum p))
    (Heps : s !! "eps" = Some (VNum eps)) :
  _calculate_buffett_dcf_intrinsic_value s = _estimate_intrinsic_value_simple s /\
  exists v,
    _calculate_buffett_dcf_intrinsic_value s = Some (VNum v) /\
    (0 < eps -> v == eps * 12) /\
    (eps <= 0 -> v == p * 0.8).
Proof.
  assert (Hsimple : _calculate_buffett_dcf_intrinsic_value s
                    = _estimate_intrinsic_value_simple s).
  { unfold _calculate_buffett_dcf_intrinsic_value.
    destruct (dcf_try s) as [v|] eqn:E; [|reflexivity].
    unfold dcf_try in E. bind_head E route Er.
    destruct route; [symmetry; exact E|exfalso].
    unfold dcf_inputs in Er.
    bind_head Er cp Ecp. bind_head Er fcf0 Efcf0. bind_head Er so Eso.
    bind_head Er fcf Efcf. bind_head Er b Eb.
    destruct b; [discriminate|].
    assert (Hso : v_le so (VNum 0) = Some true).
    { destruct Hshares as [H|[H|(q & H & Hq)]].
      - rewrite (get_absent s _ _ H) in Eso. injection Eso as <-. reflexivity.
      - rewrite (get_lookup s _ _ _ H) in Eso. injection Eso as <-. reflexivity.
      - rewrite (get_lookup s _ _ _ H) in Eso.
        destruct (py_or_number q 0) as (x & Ex & Hx1 & Hx2).
        rewrite Ex in Eso. injection Eso as <-.
        unfold v_le. cbn [as_np mbind option_bind np_leb]. f_equal.
        apply Qle_bool_iff.
        destruct (Qeq_dec q 0) as [E0|E0];
          [rewrite (Hx2 E0); lra|rewrite (Hx1 E0); exact Hq]. }
    rewrite Hso in Eb. apply or_else_right_true in Eb. discriminate. }
  split; [exact Hsimple|]. rewrite Hsimple.
  unfold _estimate_intrinsic_value_simple.
  rewrite (get_lookup s _ _ _ Hp), (get_lookup s _ _ _ Heps).
  destruct (py_or_number p 0) as (p' & -> & Hp1 & Hp2).
  destruct (py_or_number eps 0) as (e' & -> & He1 & He2).
  cbn [mbind option_bind]. rewrite v_gt_num. cbn [mbind option_bind].
  unfold v_mul. cbn [as_num mbind option_bind].
  assert (Hp' : p' == p).
  { destruct (Qeq_dec p 0) as [E0|E0];
      [rewrite (Hp2 E0), E0; reflexivity|rewrite (Hp1 E0); reflexivity]. }
  assert (He' : e' == eps).
  { destruct (Qeq_dec eps 0) as [E0|E0];
      [rewrite (He2 E0), E0; reflexivity|rewrite (He1 E0); reflexivity]. }
  case_Qltb 0 e'; eexists; (split; [reflexivity|]); split; intros H; lra.
Qed.

Lemma dcf_without_share_count_is_simple_estimate_witness :
  exists v,
    _calculate_buffett_dcf_intrinsic_value
      (dict [("current_price", VNum 100); ("eps", VNum 9)]) = Some (VNum v) /\
    v == 9 * 12.
Proof.
  destruct (dcf_without_share_count_is_simple_estimate
              (dict [("current_price", VNum 100); ("eps", VNum 9)]) 100 9
              (or_introl eq_refl) eq_refl eq_refl) as (_ & v & Hv & H1 & _).
  exists v. split; [exact Hv|]. apply H1. reflexivity.
Defined.

Lemma sanity_checks_comp (p x y : Q) :
  x == y -> sanity_checks p x = sanity_checks p y.
Proof.
  intros H. unfold sanity_checks.
  rewrite (Qleb_comp x y H 0 0 (Qeq_refl 0)).
  destruct (Qle_bool y 0); [reflexivity|].
  destruct (Qltb 0 p).
  - assert (Hr : x / p == y / p) by (rewrite H; reflexivity).
    unfold Qltb.
    rewrite (Qleb_comp _ _ Hr 5 5 (Qeq_refl 5)).
    rewrite (Qleb_comp 0.2 0.2 (Qeq_refl 0.2) _ _ Hr).
    destruct (negb (Qle_bool (y / p) 5)); [reflexivity|].
    destruct (negb (Qle_bool 0.2 (y / p))); [reflexivity|].
    apply round2_comp. exact H.
  - unfold Qltb. cbn. apply round2_comp. exact H.
Qed.

(** The projection loop does not tell equal growth rates apart. *)
Lemma projection_comp (r r' tg dr : Q) (n : nat) (years : list nat) :
  r == r' ->
  forall st st' : Q * Q,
    fst st == fst st' -> snd st == snd st' ->
    let out := fold_left (project_year r tg dr n) years st in
    let out' := fold_left (project_year r' tg dr n) years st' in
    fst out == fst out' /\ snd out == snd out'.
Proof.
  intros Hr. induction years as [|y years IH]; intros st st' H1 H2.
  - cbn. auto.
  - cbn [fold_left]. apply IH; unfold project_year; cbn [fst snd].
    + rewrite H1, H2, Hr. reflexivity.
    + rewrite H2, Hr. reflexivity.
Qed.

Lemma total_intrinsic_value_capped (f g : Q) :
  15 <= g -> total_intrinsic_value f g == total_intrinsic_value f 15.
Proof.
  intros Hg. unfold total_intrinsic_value. cbv zeta.
  assert (Hr : Qmin (g / 100) 0.15 == Qmin (15 / 100) 0.15).
  { unfold Qmin.
    assert (E15 : Qle_bool (15 / 100) 0.15 = true) by reflexivity.
    rewrite E15. case_Qle (g / 100) 0.15.
    - assert (Hd : 0.15 <= g / 100) by (apply Qle_shift_div_l; lra).
      assert (Hq : g / 100 == 0.15) by lra. rewrite Hq. reflexivity.
    - reflexivity. }
  destruct (projection_comp _ _ 0.025 0.10 10 (seq 1 10) Hr (0, f) (0, f)
              ltac:(reflexivity) ltac:(reflexivity)) as [H1 H2].
  cbv zeta in H1, H2. rewrite H1, H2. reflexivity.
Qed.

(** X25. The growth used by the projection is capped at 15%: any growth
    estimate of 15% or more gives the value of 15% *)
Theorem dcf_growth_is_capped_at_15_percent
    (s : stock_data) (p f sh g : Q)
    (Hroute : dcf_inputs s = Some (Projection p f sh g))
    (Hg : 15 <= g) :
  _calculate_buffett_dcf_intrinsic_value s
  = Some (VNum (sanity_checks p (total_intrinsic_value f 15 / sh))).
Proof.
  unfold _calculate_buffett_dcf_intrinsic_value, dcf_try.
  rewrite Hroute. cbn [mbind option_bind]. do 2 f_equal.
  apply sanity_checks_comp.
  rewrite (total_intrinsic_value_capped f g Hg). reflexivity.
Qed.

Lemma dcf_growth_is_capped_at_15_percent_witness :
  _calculate_buffett_dcf_intrinsic_value fast_grower_snapshot
  = Some (VNum (sanity_checks 100 (total_intrinsic_value 8000000 15 / 1000000))).
Proof.
  apply (dcf_growth_is_capped_at_15_percent fast_grower_snapshot
           100 8000000 1000000 30 eq_refl).
  unfold Qle. cbn. lia.
Defined.

Lemma py_or_nonzero (q d : Q) : ~ q == 0 -> py_or (VNum q) (VNum d) = Some (VNum q).
Proof.
  intros H. unfold py_or. cbn [truthy mbind option_bind].
  rewrite (proj2 (Qeq_bool_false q 0) H). reflexivity.
Qed.

Lemma v_le_num_num (a b : Q) : v_le (VNum a) (VNum b) = Some (Qle_bool a b).
Proof. reflexivity. Qed.

(** X26. When no positive free cash flow is reported and the net income
    is positive, the projection starts from 80% of the net income *)
Theorem projection_starts_from_net_income_without_fcf
    (s : stock_data) (p income sh g : Q)
    (Hfcf : s !! "free_cash_flow" = None
            \/ exists f, s !! "free_cash_flow" = Some (VNum f) /\ f <= 0)
    (Hincome : s !! "net_income" = Some (VNum income)) (Hpos : 0 < income)
    (Hshares : s !! "shares_outstanding" = Some (VNum sh)) (Hsh : 0 < sh)
    (Hprice : s !! "current_price" = Some (VNum p)) (Hp : 0 < p)
    (Hgrowth : s !! "earnings_growth" = Some (VNum g)) (Hg : ~ g == 0) :
  dcf_inputs s = Some (Projection p (income * 0.8) sh g) /\
  _calculate_buffett_dcf_intrinsic_value s
  = Some (VNum (sanity_checks p (total_intrinsic_value (income * 0.8) g / sh))).
Proof.
  assert (Hroute : dcf_inputs s = Some (Projection p (income * 0.8) sh g)).
  { unfold dcf_inputs.
    rewrite (get_lookup s _ _ _ Hprice), (get_lookup s _ _ _ Hshares),
      (get_lookup s _ _ _ Hgrowth).
    rewrite (py_or_nonzero p 0 ltac:(lra)), (py_or_nonzero sh 0 ltac:(lra)),
      (py_or_nonzero g 10 Hg).
    cbn [mbind option_bind].
    assert (Hf : exists f, py_or (get s "free_cash_flow" (VNum 0)) (VNum 0)
                           = Some (VNum f) /\ f <= 0).
    { destruct Hfcf as [H|(f & H & Hle)].
      - rewrite (get_absent s _ _ H). exists 0. split; [reflexivity|lra].
      - rewrite (get_lookup s _ _ _ H).
        destruct (py_or_number f 0) as (x & Ex & Hx1 & Hx2).
        exists x. split; [exact Ex|].
        destruct (Qeq_dec f 0) as [E0|E0];
          [rewrite (Hx2 E0); lra|rewrite (Hx1 E0); exact Hle]. }
    destruct Hf as (f & -> & Hle). cbn [mbind option_bind].
    unfold estimate_fcf. rewrite (v_le_num_num f 0).
    rewrite (proj2 (Qle_bool_iff f 0) Hle). cbn [mbind option_bind].
    rewrite (get_lookup s _ _ _ Hincome), (py_or_nonzero income 0 ltac:(lra)).
    cbn [mbind option_bind]. rewrite (v_gt_num income 0).
    rewrite (proj2 (Qltb_lt 0 income) Hpos). cbn [mbind option_bind].
    unfold v_mul. cbn [as_num mbind option_bind].
    unfold or_else. rewrite (v_le_num_num (income * 0.8) 0), (v_le_num_num sh 0).
    rewrite (proj2 (Qle_bool_gt (income * 0.8) 0) ltac:(lra)).
    rewrite (proj2 (Qle_bool_gt sh 0) Hsh).
    reflexivity. }
  split; [exact Hroute|].
  unfold _calculate_buffett_dcf_intrinsic_value, dcf_try.
  rewrite Hroute. reflexivity.
Qed.

Lemma projection_starts_from_net_income_without_fcf_witness :
  dcf_inputs no_cash_flow_snapshot
  = Some (Projection 100 (9000000 * 0.8) 1000000 10).
Proof.
  apply (projection_starts_from_net_income_without_fcf no_cash_flow_snapshot
           100 9000000 1000000 10 (or_introl eq_refl));
    try reflexivity.
  intros H. vm_compute in H. discriminate.
Defined.

(** ** Criteria: status and pass mark *)

(** Follows a branch through its reads and tests to the verdict. *)
Ltac to_verdict H :=
  repeat first
    [ progress cbn [mbind option_bind] in H
    | match type of H with
      | None = Some _ => discriminate H
      | (?m ≫= _) = Some _ =>
          let x := fresh "x" in
          let E := fresh "E" in
          destruct m as [x|] eqn:E; [|discriminate H]
      | (if ?b then _ else _) = Some _ => destruct b eqn:?
      | (match ?x with _ => _ end) = Some _ => destruct x eqn:?
      end ];
  try (injection H as <-).

Ltac verdict_agrees :=
  unfold agrees; cbn [fst snd];
  repeat match goal with
         | |- context [if ?b then _ else _] => destruct b
         end;
  first [ left; split; reflexivity
        | right; left; split; reflexivity
        | right; right; split; reflexivity ].

Section Verdicts.

Variable s : stock_data.

Variable criterion : gmap string pyobj.

Lemma eval_roe_agrees (value : pyobj) (v : verdict3) :
  eval_roe value criterion = Some v -> agrees v.
Proof. unfold eval_roe. intros H. to_verdict H; verdict_agrees. Qed.

Lemma eval_debt_to_equity_agrees (value : pyobj) (v : verdict3) :
  eval_debt_to_equity value criterion = Some v -> agrees v.
Proof. unfold eval_debt_to_equity. intros H. to_verdict H; verdict_agrees. Qed.

Lemma eval_current_ratio_agrees (value : pyobj) (v : verdict3) :
  eval_current_ratio value criterion = Some v -> agrees v.
Proof. unfold eval_current_ratio. intros H. to_verdict H; verdict_agrees. Qed.

Lemma eval_book_value_check_agrees (v : verdict3) :
  eval_book_value_check s = Some v -> agrees v.
Proof. unfold eval_book_value_check. intros H. to_verdict H; verdict_agrees. Qed.

Lemma eval_pe_ratio_agrees (v : verdict3) :
  eval_pe_ratio s criterion = Some v -> agrees v.
Proof. unfold eval_pe_ratio. intros H. cbv zeta in H. to_verdict H; verdict_agrees. Qed.

Lemma eval_pb_ratio_agrees (v : verdict3) :
  eval_pb_ratio s criterion = Some v -> agrees v.
Proof. unfold eval_pb_ratio. intros H. cbv zeta in H. to_verdict H; verdict_agrees. Qed.

Lemma eval_intrinsic_value_check_agrees (v : verdict3) :
  eval_intrinsic_value_check s criterion = Some v -> agrees v.
Proof.
  unfold eval_intrinsic_value_check. intros H. cbv zeta in H.
  to_verdict H; verdict_agrees.
Qed.

Lemma eval_margin_agrees (value : pyobj) (v : verdict3) :
  eval_margin value criterion = Some v -> agrees v.
Proof. unfold eval_margin. intros H. to_verdict H; verdict_agrees. Qed.

Lemma eval_growth_alignment_agrees (v : verdict3) :
  eval_growth_alignment s = Some v ->
  agrees v \/ (v.1.2 = "caution" /\ v.2 = true).
Proof.
  unfold eval_growth_alignment. intros H. cbv zeta in H.
  bind_head H rg Erg. bind_head H pg Epg. bind_head H years Ey.
  bind_head H both Eb. bind_head H st Est.
  destruct both; to_verdict Est; to_verdict H;
    repeat match goal with
           | |- context [if ?b then _ else _] => destruct b
           end;
    first [ left; verdict_agrees
          | right; cbn [fst snd]; split; reflexivity ].
Qed.

Lemma eval_earnings_consistency_agrees (v : verdict3) :
  eval_earnings_consistency s = Some v -> agrees v.
Proof.
  unfold eval_earnings_consistency. intros H. cbv zeta in H.
  to_verdict H; verdict_agrees.
Qed.

Lemma eval_peg_ratio_agrees (value : pyobj) (v : verdict3) :
  eval_peg_ratio value criterion = Some v -> agrees v.
Proof. unfold eval_peg_ratio. intros H. to_verdict H; verdict_agrees. Qed.

Lemma eval_earnings_growth_agrees (v : verdict3) :
  eval_earnings_growth s criterion = Some v -> agrees v.
Proof.
  unfold eval_earnings_growth. intros H. cbv zeta in H.
  to_verdict H; verdict_agrees.
Qed.

Lemma eval_flag_agrees (value : pyobj) (yes no otherwise : string) (v : verdict3) :
  otherwise = "poor" \/ otherwise = "caution" ->
  eval_flag value yes no otherwise = Some v -> agrees v.
Proof.
  unfold eval_flag. intros Ho H.
  destruct value; injection H as <-; try verdict_agrees.
  unfold agrees; cbn [fst snd]. destruct b; [left; split; reflexivity|].
  destruct Ho as [-> | ->]; [right; right|right; left]; split; reflexivity.
Qed.

End Verdicts.

(** X27. In every result of a criterion the status is good, caution or
    poor; a good status always comes with the pass mark, and a pass mark
    with a good status, except for the growth alignment, which also passes
    with caution *)
Theorem criterion_status_agrees_with_passed
    (s : stock_data) (criterion : gmap string pyobj) (r : CriterionResult)
    (H : _evaluate_criterion s criterion = Some r) :
  (status r = "good" \/ status r = "caution" \/ status r = "poor") /\
  (status r = "good" -> passed r = true) /\
  (passed r = true ->
     status r = "good"
     \/ (status r = "caution"
         /\ criterion !! "key" = Some (VStr "growth_alignment"))).
Proof.
  unfold _evaluate_criterion in H.
  bind_head H key Ek. bind_head H nm En. bind_head H ct Ec. bind_head H u Eh.
  cbv zeta in H. bind_head H v Ev. injection H as <-.
  cbn [status passed].
  assert (Hv : agrees v
               \/ (v.1.2 = "caution" /\ v.2 = true
                   /\ key = VStr "growth_alignment")).
  { destruct key as [|b|q| |k|l|df|h]; cbv beta iota in Ev;
      try (injection Ev as <-; left; verdict_agrees).
    repeat match type of Ev with
           | (if String.eqb k ?lit || _ then _ else _) = Some _ =>
               destruct (String.eqb k lit) eqn:?; cbn [orb] in Ev
           | (if String.eqb k ?lit then _ else _) = Some _ =>
               destruct (String.eqb k lit) eqn:?
           end.
    all: first
      [ left; solve
          [ eapply eval_roe_agrees; eassumption
          | eapply eval_debt_to_equity_agrees; eassumption
          | eapply eval_current_ratio_agrees; eassumption
          | eapply eval_book_value_check_agrees; eassumption
          | eapply eval_pe_ratio_agrees; eassumption
          | eapply eval_pb_ratio_agrees; eassumption
          | eapply eval_intrinsic_value_check_agrees; eassumption
          | eapply eval_margin_agrees; eassumption
          | eapply eval_earnings_consistency_agrees; eassumption
          | eapply eval_peg_ratio_agrees; eassumption
          | eapply eval_earnings_growth_agrees; eassumption
          | eapply eval_flag_agrees; [|eassumption]; auto
          | injection Ev as <-; verdict_agrees ]
      | destruct (eval_growth_alignment_agrees s v Ev) as [Ha|[Ha Hb]];
        [ left; exact Ha
        | right; split; [exact Ha|]; split; [exact Hb|];
          match goal with
          | E : String.eqb _ "growth_alignment" = true |- _ =>
              apply String.eqb_eq in E; rewrite E; reflexivity
          end ] ]. }
  destruct Hv as [[[Hs Hp]|[[Hs Hp]|[Hs Hp]]]|(Hs & Hp & ->)];
    rewrite Hs, Hp; repeat split; intros; try discriminate; auto.
Qed.

Lemma criterion_status_agrees_with_passed_witness :
  exists r,
    _evaluate_criterion sample_snapshot earnings_growth_criterion = Some r /\
    (status r = "good" -> passed r = true).
Proof.
  assert (Hret : match _evaluate_criterion sample_snapshot
                         earnings_growth_criterion with
                 | Some _ => true | None => false end = true)
    by (vm_compute; reflexivity).
  destruct (_evaluate_criterion sample_snapshot earnings_growth_criterion)
    as [r|] eqn:H; [clear Hret|discriminate Hret].
  exists r. split; [reflexivity|].
  exact (proj1 (proj2 (criterion_status_agrees_with_passed _ _ _ H))).
Defined.

(** ** Criteria: a metric that is not in the snapshot *)

(** X28. A criterion of the table whose metric is not in the snapshot is
    not passed: its status is poor and it shows N/A *)
Theorem missing_metric_fails_criterion
    (s : stock_data) (criterion : gmap string pyobj) (k : string)
    (Hc : criterion ∈ buffett_criteria)
    (Hkey : criterion !! "key" = Some (VStr k))
    (Hplain : k ∈ plain_metric_keys)
    (Hmissing : s !! k = None) :
  exists r,
    _evaluate_criterion s criterion = Some r /\
    passed r = false /\ status r = "poor" /\
    (value_shown r = DRaw (VStr "N/A") \/ value_shown r = DText "N/A").
Proof.
  unfold buffett_criteria, _initialize_buffett_criteria in Hc.
  repeat (apply elem_of_cons in Hc; destruct Hc as [->|Hc]);
    [..|apply elem_of_nil in Hc; contradiction].
  all: vm_compute in Hkey; injection Hkey as <-.
  all: try (exfalso; revert Hplain; apply (bool_decide_unpack _);
            vm_compute; exact I).
  all: unfold _evaluate_criterion; criterion_lookups;
    cbn [mbind option_bind hashable]; cbv zeta; cbv beta; key_tests; cbv iota.
  all: try rewrite (get_absent s _ _ Hmissing).
  all: try (unfold eval_pe_ratio, eval_pb_ratio;
            rewrite (get_absent s _ _ Hmissing)).
  all: eexists; split; [vm_compute; reflexivity|].
  all: cbn [passed status value_shown].
  all: repeat split; first [left; reflexivity|right; reflexivity].
Qed.

Lemma missing_metric_fails_criterion_witness :
  exists r,
    _evaluate_criterion sample_snapshot
      (dict [("name", VStr "Price-to-Book (P/B) Ratio"); ("key", VStr "pb_ratio");
             ("criteria", VStr "< 1.5 = Undervalued");
             ("good_threshold", VNum 1.5)]) = Some r /\
    passed r = false /\ status r = "poor".
Proof.
  destruct (missing_metric_fails_criterion sample_snapshot
              (dict [("name", VStr "Price-to-Book (P/B) Ratio");
                     ("key", VStr "pb_ratio");
                     ("criteria", VStr "< 1.5 = Undervalued");
                     ("good_threshold", VNum 1.5)]) "pb_ratio")
    as (r & Hr & Hp & Hs & _).
  - unfold buffett_criteria, _initialize_buffett_criteria.
    do 5 (apply elem_of_cons; right). apply elem_of_cons. left. reflexivity.
  - reflexivity.
  - apply (bool_decide_unpack _). vm_compute. exact I.
  - reflexivity.
  - exists r. split; [exact Hr|]. split; assumption.
Defined.

(** ** The analysis without statements *)

(** The advanced metrics of a returned result are computed from the raw
    statements of the updated snapshot. *)
Lemma analyze_stock_advanced (s : stock_data) (now : Z) (s' : stock_data)
    (r : AnalysisResult) :
  analyze_stock s now = (s', Some r) ->
  exists market_cap,
    advanced_metrics r
    = {| piotroski :=
           get_piotroski_f_score (get s' "raw_financials" (VFrame empty_frame))
             (get s' "raw_balance_sheet" (VFrame empty_frame))
             (get s' "raw_cash_flow" (VFrame empty_frame));
         roic :=
           get_roic (get s' "raw_financials" (VFrame empty_frame))
             (get s' "raw_balance_sheet" (VFrame empty_frame));
         StockAnalyzer.altman_z :=
           get_altman_z_score (get s' "raw_financials" (VFrame empty_frame))
             (get s' "raw_balance_sheet" (VFrame empty_frame)) market_cap |}.
Proof.
  intros H. unfold analyze_stock in H.
  destruct (_calculate_derived_metrics s) as [d|];
    [|pose proof (f_equal snd H) as H2; discriminate H2].
  pose proof (f_equal fst H) as H1. pose proof (f_equal snd H) as H2.
  cbn [fst snd] in H1, H2. clear H. subst s'.
  bind_head H2 st Est. bind_head H2 rec Erec. bind_head H2 mc Emc.
  apply (f_equal (fun o => match o with Some x => x | None => r end)) in H2.
  subst r. exists mc. reflexivity.
Qed.

(** X29. For a snapshot without raw financial statements the advanced
    metrics of the analysis are the empty ones: F-Score 0 without details,
    ROIC 0, Z-score 0 with zone Unknown *)
Theorem analysis_without_statements_has_empty_advanced_metrics
    (s : stock_data) (now : Z) (s' : stock_data) (r : AnalysisResult)
    (Hraw : s !! "raw_financials" = None)
    (Hr : analyze_stock s now = (s', Some r)) :
  advanced_metrics r
  = {| piotroski := {| score := 0; details := ∅ |};
       roic := Fin 0;
       StockAnalyzer.altman_z := {| z_score := Fin 0; zone := "Unknown" |} |}.
Proof.
  destruct (analyze_stock_advanced s now s' r Hr) as (mc & ->).
  destruct (analyze_stock_inv s now s' r Hr) as (d & st & Hd & -> & _).
  destruct (derived_metrics_shape s d Hd) as (Hdom & _).
  assert (Hk : (d ∪ s) !! "raw_financials" = None).
  { rewrite (update_keeps_other_keys s d "raw_financials" Hdom); [exact Hraw|].
    apply (bool_decide_unpack _). vm_compute. exact I. }
  rewrite (get_absent _ _ _ Hk). reflexivity.
Qed.

Lemma analysis_without_statements_has_empty_advanced_metrics_witness :
  exists s' r,
    analyze_stock sample_snapshot 0 = (s', Some r) /\
    roic (advanced_metrics r) = Fin 0.
Proof.
  assert (Hret : returned (analyze_stock sample_snapshot 0) = true)
    by (vm_compute; reflexivity).
  destruct (analyze_stock sample_snapshot 0) as [s' [r|]] eqn:H;
    [clear Hret|cbn in Hret; discriminate Hret].
  exists s', r. split; [reflexivity|].
  rewrite (analysis_without_statements_has_empty_advanced_metrics
             sample_snapshot 0 s' r eq_refl H).
  reflexivity.
Defined.

(** ** Exponential averages *)

Lemma ewm_from_within (alpha lo hi : Q) (l : series) :
  0 <= alpha <= 1 ->
  Forall (within lo hi) l ->
  forall prev, within lo hi prev -> Forall (within lo hi) (ewm_from alpha prev l).
Proof.
  intros Ha. induction 1 as [|x l (q & -> & Hq) _ IH]; intros prev (p & -> & Hp);
    cbn [ewm_from]; constructor.
  - exists ((1 - alpha) * p + alpha * q). split; [reflexivity|]. nra.
  - apply IH. exists ((1 - alpha) * p + alpha * q). split; [reflexivity|]. nra.
Qed.

Lemma span_weight (span : nat) :
  (1 <= span)%nat -> 0 <= 2 / (inject_Z (Z.of_nat span) + 1) <= 1.
Proof.
  intros Hs.
  assert (H1 : 1 <= inject_Z (Z.of_nat span)).
  { change 1 with (inject_Z 1). rewrite <- Zle_Qle. lia. }
  split.
  - apply Qdiv_nonneg; lra.
  - apply Qle_shift_div_r; lra.
Qed.

(** X30. An exponential average of the closes stays within the range of
    the closes: with all closes between [lo] and [hi], so is every value
    of the average, and so are the EMA columns of the indicators *)
Theorem ewm_mean_within_range_of_closes
    (data : list bar) (span : nat) (lo hi : Q)
    (Hspan : (1 <= span)%nat)
    (Hrange : Forall (fun b => lo <= Close b <= hi) data) :
  Forall (within lo hi) (ewm_mean span (closes data)).
Proof.
  assert (Hc : Forall (within lo hi) (closes data)).
  { unfold closes. apply Forall_map. eapply Forall_impl; [exact Hrange|].
    intros b Hb. exists (Close b). split; [reflexivity|exact Hb]. }
  destruct Hc as [|x l Hx Hl]; cbn [ewm_mean]; constructor; [exact Hx|].
  apply ewm_from_within; [apply span_weight; exact Hspan|exact Hl|exact Hx].
Qed.

Lemma ewm_mean_within_range_of_closes_witness :
  Forall (within 10 10) (ewm_mean 9 (closes flat_fortnight)).
Proof.
  apply ewm_mean_within_range_of_closes; [lia|].
  unfold flat_fortnight. cbn [repeat].
  repeat (apply Forall_cons_2; [split; cbn; lra|]). apply Forall_nil_2.
Defined.
